(** * ai-code-review-action: diff-anchored comment synthesis and delivery

    A shallow embedding of the review pipeline of the action
    ([src/review/orchestrator.ts], [src/utils/retry.ts],
    [src/github/client.ts]) together with the properties its
    specification states about it.

    Modelling conventions.
    - A JavaScript string is the Rocq [string] of its UTF-8 bytes (a lone
      surrogate is written as the three bytes of its code point).
      [length] and [substring] count UTF-16 code units as JavaScript
      does: one for a character of up to three bytes, two for a
      character of four.  [toLowerCase]/[toUpperCase] act on the letters
      A-Z/a-z, [trim] strips the ASCII white space characters (TAB, LF,
      VT, FF, CR, SPACE); every other character is carried through
      unchanged, so these three are exact on ASCII text.
    - A JavaScript number that holds a line number, a position, a length or
      an attempt counter is a [Z].
    - [T | null] and optional fields are [option T].
    - A [throw] is a value of [result]; a loop is a recursive function over
      the list it walks, or over explicit fuel where it is a counting
      loop. *)

From Stdlib Require Import ZArith List Bool Ascii String Lia.
From Stdlib Require Import DecimalString.
Import ListNotations.

Open Scope string_scope.
Open Scope Z_scope.

(* ===================================================================== *)
(** * Definitions                                                         *)
(* ===================================================================== *)

(** ** JavaScript string primitives used by the sources *)
Module Js.

(** A byte [10xxxxxx] continues the character before it. *)
Definition isContinuation (c : ascii) : bool :=
  ((128 <=? N_of_ascii c) && (N_of_ascii c <? 192))%N.

(** How many bytes continue the character whose first byte is [c]. *)
Definition followers (c : ascii) : nat :=
  if (N_of_ascii c <? 192)%N then 0%nat
  else if (N_of_ascii c <? 224)%N then 1%nat
  else if (N_of_ascii c <? 240)%N then 2%nat
  else 3%nat.

(** The UTF-16 code units of the character whose first byte is [c]: two
    for a character of four bytes (a code point above U+FFFF), else
    one. *)
Definition unitsOf (c : ascii) : Z :=
  if (N_of_ascii c <? 240)%N then 1 else 2.

(** [c] is one of the [pending] bytes the character before still
    expects. *)
Definition continues (pending : nat) (c : ascii) : bool :=
  (0 <? pending)%nat && isContinuation c.

(** The code units of [s], read after a first byte that expects
    [pending] more bytes.  A byte that continues nothing counts as a
    character of its own. *)
Fixpoint lenFrom (pending : nat) (s : string) : Z :=
  match s with
  | EmptyString => 0
  | String c r =>
      if continues pending c then lenFrom (Nat.pred pending) r
      else unitsOf c + lenFrom (followers c) r
  end.

(** [s.length] *)
Definition len (s : string) : Z := lenFrom 0 s.

(** The six low bits of byte [i] of [s]. *)
Definition payload (s : string) (i : nat) : N :=
  match String.get i s with
  | Some b => (N_of_ascii b mod 64)%N
  | None => 0%N
  end.

(** The high surrogate of the character of four bytes [c], [r0], [r1],
    [r2] ([r] holds the last three), as the three bytes of its code
    point: what is left of the character when a string is cut after the
    first of its two code units. *)
Definition highSurrogate (c : ascii) (r : string) : string :=
  let codePoint :=
    ((N_of_ascii c mod 8) * 262144 + payload r 0 * 4096
     + payload r 1 * 64 + payload r 2)%N in
  let high := (55296 + (codePoint - 65536) / 1024)%N in
  String (ascii_of_N 237)
    (String (ascii_of_N (128 + (high / 64) mod 64))
       (String (ascii_of_N (128 + high mod 64)) EmptyString)).

(** The first [n] code units of [s], read after a first byte that
    expects [pending] more bytes. *)
Fixpoint takeFrom (pending : nat) (n : Z) (s : string) : string :=
  match s with
  | EmptyString => EmptyString
  | String c r =>
      if continues pending c
      then String c (takeFrom (Nat.pred pending) n r)
      else if n <=? 0 then EmptyString
      else if unitsOf c <=? n
      then String c (takeFrom (followers c) (n - unitsOf c) r)
      else highSurrogate c r
  end.

(** [p] is read at the head of [s]. *)
Fixpoint isPrefix (p s : string) : bool :=
  match p with
  | EmptyString => true
  | String a p' =>
      match s with
      | EmptyString => false
      | String b s' => Ascii.eqb a b && isPrefix p' s'
      end
  end.

(** [s.startsWith(p)] *)
Definition startsWith (s p : string) : bool := isPrefix p s.

(** [s.includes(sub)]: [sub] occurs at some offset of [s]. *)
Fixpoint includes (s sub : string) : bool :=
  isPrefix sub s
  || match s with
     | EmptyString => false
     | String _ r => includes r sub
     end.

(** [s.substring(0, n)] for [0 <= n] *)
Definition substring0 (n : Z) (s : string) : string := takeFrom 0 n s.

(** [s.substring(1)] on a string whose first character is one byte long
    (it is read after [startsWith("+")]) *)
Definition substring1 (s : string) : string :=
  match s with
  | EmptyString => EmptyString
  | String _ r => r
  end.

Definition between (lo hi : nat) (c : ascii) : bool :=
  (Nat.leb lo (nat_of_ascii c) && Nat.leb (nat_of_ascii c) hi)%bool.

Definition lowerChar (c : ascii) : ascii :=
  if between 65 90 c then ascii_of_nat (nat_of_ascii c + 32) else c.

Definition upperChar (c : ascii) : ascii :=
  if between 97 122 c then ascii_of_nat (nat_of_ascii c - 32) else c.

Fixpoint mapChars (f : ascii -> ascii) (s : string) : string :=
  match s with
  | EmptyString => EmptyString
  | String c r => String (f c) (mapChars f r)
  end.

(** [s.toLowerCase()], [s.toUpperCase()] *)
Definition toLowerCase : string -> string := mapChars lowerChar.
Definition toUpperCase : string -> string := mapChars upperChar.

(** White space as [trim] sees it. *)
Definition isSpace (c : ascii) : bool :=
  (between 9 13 c || Nat.eqb (nat_of_ascii c) 32)%bool.

Fixpoint trimStart (s : string) : string :=
  match s with
  | EmptyString => EmptyString
  | String c r => if isSpace c then trimStart r else s
  end.

Fixpoint trimEnd (s : string) : string :=
  match s with
  | EmptyString => EmptyString
  | String c r =>
      match trimEnd r with
      | EmptyString => if isSpace c then EmptyString else String c EmptyString
      | r' => String c r'
      end
  end.

(** [s.trim()] *)
Definition trim (s : string) : string := trimEnd (trimStart s).

(** [s.split(sep)] for a one-character separator; the result is never
    empty ([("").split(sep)] is [[""]]). *)
Fixpoint split (sep : ascii) (s : string) : list string :=
  match s with
  | EmptyString => [EmptyString]
  | String c r =>
      if Ascii.eqb c sep then EmptyString :: split sep r
      else match split sep r with
           | p :: ps => String c p :: ps
           | [] => [String c EmptyString]
           end
  end.

(** [parts.join(sep)] *)
Definition join (sep : string) (parts : list string) : string :=
  String.concat sep parts.

(** [Boolean(s)] on a string: the empty string is falsy. *)
Definition truthy (s : string) : bool := negb (String.eqb s EmptyString).

(** [`${n}`] for an integral number *)
Definition ofNumber (n : Z) : string := NilZero.string_of_int (Z.to_int n).

(** ** Regular-expression pieces *)

(** [\d] *)
Definition isDigit (c : ascii) : bool := between 48 57 c.

(** The longest run of digits at the head of [s], and what follows it. *)
Fixpoint spanDigits (s : string) : string * string :=
  match s with
  | EmptyString => (EmptyString, EmptyString)
  | String c r =>
      if isDigit c
      then let (d, rest) := spanDigits r in (String c d, rest)
      else (EmptyString, s)
  end.

(** A literal at the head of [s]: what follows it, if it is there. *)
Fixpoint literal (lit s : string) : option string :=
  match lit with
  | EmptyString => Some s
  | String a lit' =>
      match s with
      | EmptyString => None
      | String b s' => if Ascii.eqb a b then literal lit' s' else None
      end
  end.

(** [\d+] at the head of [s]: the digits and what follows them. *)
Definition digits1 (s : string) : option (string * string) :=
  match spanDigits s with
  | (EmptyString, _) => None
  | (d, rest) => Some (d, rest)
  end.

(** [(?:,\d+)?] at the head of [s]: what follows the group when it is
    taken, [s] itself when it is not. *)
Definition optCount (s : string) : string :=
  match s with
  | String c r =>
      if Ascii.eqb c ","
      then match digits1 r with
           | Some (_, rest) => rest
           | None => s
           end
      else s
  | EmptyString => s
  end.

(** [parseInt(d, 10)] on a run of digits *)
Fixpoint parseDigits (acc : Z) (d : string) : Z :=
  match d with
  | EmptyString => acc
  | String c r => parseDigits (acc * 10 + (Z.of_nat (nat_of_ascii c) - 48)) r
  end.

Definition parseInt (d : string) : Z := parseDigits 0 d.

End Js.

(** ** DiffIndexer: [mapLineToDiff] and [getOriginalLineContent] *)
Module Diff.

(** [/@@ -\d+(?:,\d+)? \+(\d+)(?:,\d+)? @@/] tried at the head of [s];
    the result is capture group 1.  Every [\d+] is followed in the
    pattern by a character that is not a digit, and the optional group
    starts with a comma where the pattern continues with a space, so the
    backtracking matcher has one way at most to match at a given
    offset: the greedy one. *)
Definition headerAt (s : string) : option string :=
  match Js.literal "@@ -" s with
  | None => None
  | Some r1 =>
      match Js.digits1 r1 with
      | None => None
      | Some (_, r2) =>
          match Js.literal " +" (Js.optCount r2) with
          | None => None
          | Some r4 =>
              match Js.digits1 r4 with
              | None => None
              | Some (newStart, r5) =>
                  match Js.literal " @@" (Js.optCount r5) with
                  | None => None
                  | Some _ => Some newStart
                  end
              end
          end
      end
  end.

(** [line.match(/@@ .../)]: the pattern is not anchored, so the leftmost
    offset at which it matches is taken. *)
Fixpoint hunkMatch (line : string) : option string :=
  match headerAt line with
  | Some newStart => Some newStart
  | None =>
      match line with
      | EmptyString => None
      | String _ r => hunkMatch r
      end
  end.

(** The two variables of the scanning loop. *)
Record scan := { currentLine : Z; inHunk : bool }.

Inductive step_result :=
| Return (position : Z)
| Continue (st : scan).

(** One turn of the [for] loop of [mapLineToDiff], at index [i]. *)
Definition step (targetLine i : Z) (line : string) (st : scan)
  : step_result :=
  match hunkMatch line with
  | Some newStart =>
      Continue {| currentLine := Js.parseInt newStart - 1; inHunk := true |}
  | None =>
      if negb (inHunk st) then Continue st
      else if Js.startsWith line "+" then
        let currentLine' := currentLine st + 1 in
        if currentLine' =? targetLine then Return (i + 1)
        else Continue {| currentLine := currentLine'; inHunk := inHunk st |}
      else if negb (Js.startsWith line "-") then
        Continue {| currentLine := currentLine st + 1; inHunk := inHunk st |}
      else Continue st
  end.

(** The loop from index [i] on, over the lines that are left. *)
Fixpoint scanFrom (targetLine i : Z) (lines : list string) (st : scan)
  : option Z :=
  match lines with
  | [] => None
  | line :: rest =>
      match step targetLine i line st with
      | Return p => Some p
      | Continue st' => scanFrom targetLine (i + 1) rest st'
      end
  end.

Definition mapLineToDiff (targetLine : Z) (patchLines : list string)
  : option Z :=
  scanFrom targetLine 0 patchLines {| currentLine := 0; inHunk := false |}.

(** [patchLines[k]] *)
Definition lineAt (patchLines : list string) (k : Z) : option string :=
  if k <? 0 then None else nth_error patchLines (Z.to_nat k).

Definition getOriginalLineContent (lineNumber : Z)
  (patchLines : list string) : option string :=
  if (lineNumber <? 1) || (lineNumber >? Z.of_nat (List.length patchLines))
  then None
  else
    match lineAt patchLines (lineNumber - 1) with
    | None => None
    | Some line =>
        if Js.startsWith line "+" then Some (Js.substring1 line)
        else if negb (Js.startsWith line "-") && negb (Js.startsWith line "@")
        then Some line
        else None
    end.

End Diff.

(** ** SuggestionValidator: [isValidSuggestion] *)
Module Suggestion.

Definition LF : string := String "010" EmptyString.
Definition CR : string := String "013" EmptyString.

Definition adviceIndicators : list string :=
  [ "consider"; "should"; "could"; "would"; "might";
    "ensure"; "verify"; "check"; "pin to"; "e.g.,";
    "for example"; "you can"; "it is"; "this is" ].

(** [x.split(':')[0].trim()] *)
Definition keyOf (x : string) : string :=
  Js.trim (hd EmptyString (Js.split ":" x)).

Definition isValidSuggestion (suggestion : string)
  (originalLine : option string) : bool :=
  if negb (Js.truthy suggestion) || (Js.len (Js.trim suggestion) =? 0)
  then false
  else if Js.includes suggestion LF || Js.includes suggestion CR
  then false
  else
    match originalLine with
    | None => false
    | Some originalLine =>
        if negb (Js.truthy originalLine) then false
        else
          let trimmedSuggestion := Js.trim suggestion in
          let trimmedOriginal := Js.trim originalLine in
          if String.eqb trimmedSuggestion trimmedOriginal then false
          else
            let lowerSuggestion := Js.toLowerCase trimmedSuggestion in
            if existsb (fun indicator => Js.includes lowerSuggestion indicator)
                 adviceIndicators
            then false
            else
              let originalKey := keyOf trimmedOriginal in
              let suggestionKey := keyOf trimmedSuggestion in
              if Js.includes trimmedOriginal ":"
                 && Js.includes trimmedSuggestion ":"
              then
                if negb (String.eqb originalKey suggestionKey)
                then false
                else true
              else true
    end.

End Suggestion.

(** ** The rejection rules as the specification lists them

    Rules 1 to 5 of the SuggestionValidator and the key of rule 6, worded
    on the suggestion and the original line as they are given; the
    statements about [Suggestion.isValidSuggestion] compare the code with
    them. *)
Module Rules.

(** The part of [x] before its first [":"], all of [x] where it has
    none. *)
Fixpoint beforeColon (x : string) : string :=
  match x with
  | EmptyString => EmptyString
  | String c r =>
      if Ascii.eqb c ":" then EmptyString else String c (beforeColon r)
  end.

(** Rule 1: empty or all-whitespace suggestion. *)
Definition emptySuggestion (suggestion : string) : bool :=
  String.eqb (Js.trim suggestion) "".

(** Rule 2: the suggestion holds a line-break character. *)
Definition multiLine (suggestion : string) : bool :=
  Js.includes suggestion Suggestion.LF || Js.includes suggestion Suggestion.CR.

(** Rule 3: the original content is unknown. *)
Definition unknownOriginal (originalContent : option string) : bool :=
  match originalContent with
  | None => true
  | Some _ => false
  end.

(** Rule 4: suggestion and original are equal once trimmed. *)
Definition unchanged (suggestion original : string) : bool :=
  String.eqb (Js.trim suggestion) (Js.trim original).

(** Rule 5: the suggestion holds an advisory phrase, in any case. *)
Definition advisory (suggestion : string) : bool :=
  existsb (fun phrase => Js.includes (Js.toLowerCase suggestion) phrase)
    Suggestion.adviceIndicators.

(** No rule from 1 to 5 rejects. *)
Definition passes1to5 (suggestion : string)
  (originalContent : option string) : bool :=
  negb (emptySuggestion suggestion)
  && negb (multiLine suggestion)
  && match originalContent with
     | None => false
     | Some original =>
         negb (unchanged suggestion original) && negb (advisory suggestion)
     end.

(** Rule 6: the substring before the first colon, trimmed. *)
Definition key (x : string) : string := Js.trim (beforeColon x).

End Rules.

(** ** The records of [src/types] *)
Module ReviewIssue.
Record t := {
  line : Z;
  severity : string;
  category : string;
  message : string;
  suggestion : option string
}.
End ReviewIssue.

Module ReviewComment.
Record t := {
  path : string;
  line : Z;
  start_line : option Z;
  body : string;
  side : option string;
  start_side : option string
}.
End ReviewComment.

(** ** CommentSynthesizer: [createReviewComments] *)
Module Synth.

Definition getSeverityEmoji (severity : string) : string :=
  if String.eqb severity "critical" then "🔴"
  else if String.eqb severity "warning" then "🟡"
  else if String.eqb severity "suggestion" then "💡"
  else if String.eqb severity "info" then "ℹ️"
  else "📝".

Definition categoryLabel (issue : ReviewIssue.t) : string :=
  if Js.truthy (ReviewIssue.category issue)
  then "**" ++ Js.toUpperCase (ReviewIssue.category issue) ++ "**"
  else "".

(** [issue.suggestion && this.isValidSuggestion(issue.suggestion,
    originalLine)], as the conditions that follow read it. *)
Definition suggestionIsValid (issue : ReviewIssue.t)
  (originalLine : option string) : bool :=
  match ReviewIssue.suggestion issue with
  | None => false
  | Some s => Js.truthy s && Suggestion.isValidSuggestion s originalLine
  end.

(** The fenced replacement block for a suggestion. *)
Definition suggestionBlock (s : string) : string :=
  Suggestion.LF ++ "**Suggestion:**" ++ Suggestion.LF
  ++ "```suggestion" ++ Suggestion.LF ++ s ++ Suggestion.LF ++ "```".

Definition suggestionText (issue : ReviewIssue.t) : string :=
  match ReviewIssue.suggestion issue with
  | Some s => s
  | None => "undefined"
  end.

(** The four sections of a body, before [filter(Boolean)]. *)
Definition sections (issue : ReviewIssue.t) (isValidSuggestion : bool)
  : list string :=
  [ getSeverityEmoji (ReviewIssue.severity issue) ++ " " ++ categoryLabel issue;
    "";
    ReviewIssue.message issue;
    if isValidSuggestion then suggestionBlock (suggestionText issue) else "" ].

Definition buildBody (issue : ReviewIssue.t) (isValidSuggestion : bool)
  : string :=
  Js.join Suggestion.LF (filter Js.truthy (sections issue isValidSuggestion)).

(** One turn of the loop over the issues: [None] is the [continue]. *)
Definition commentFor (filePath : string) (patchLines : list string)
  (issue : ReviewIssue.t) : option ReviewComment.t :=
  match Diff.mapLineToDiff (ReviewIssue.line issue) patchLines with
  | None => None
  | Some lineNumber =>
      let originalLine := Diff.getOriginalLineContent lineNumber patchLines in
      let isValidSuggestion := suggestionIsValid issue originalLine in
      Some {| ReviewComment.path := filePath;
              ReviewComment.line := lineNumber;
              ReviewComment.start_line := None;
              ReviewComment.body := buildBody issue isValidSuggestion;
              ReviewComment.side := Some "RIGHT";
              ReviewComment.start_side := None |}
  end.

Fixpoint pushComments (filePath : string) (patchLines : list string)
  (issues : list ReviewIssue.t) : list ReviewComment.t :=
  match issues with
  | [] => []
  | issue :: rest =>
      match commentFor filePath patchLines issue with
      | None => pushComments filePath patchLines rest
      | Some c => c :: pushComments filePath patchLines rest
      end
  end.

Definition createReviewComments (filePath : string)
  (issues : list ReviewIssue.t) (patch : string) : list ReviewComment.t :=
  pushComments filePath (Js.split "010" patch) issues.

End Synth.

(** ** The body of a comment as the specification assembles it

    Severity marker and category label, then the message when there is
    one, then, for an admissible suggestion only, the fenced block. *)
Module Body.

Definition header (issue : ReviewIssue.t) : string :=
  Synth.getSeverityEmoji (ReviewIssue.severity issue) ++ " "
  ++ Synth.categoryLabel issue.

(** The body without a suggestion block. *)
Definition prose (issue : ReviewIssue.t) : string :=
  header issue
  ++ (if Js.truthy (ReviewIssue.message issue)
      then Suggestion.LF ++ ReviewIssue.message issue else "").

(** The body with the block of suggestion [s] after the prose. *)
Definition withBlock (issue : ReviewIssue.t) (s : string) : string :=
  prose issue ++ Suggestion.LF ++ Synth.suggestionBlock s.

(** The line that opens a suggestion block. *)
Definition fence : string := "```suggestion".

End Body.

(** ** Thrown values and results *)
Module Exn.

(** An [Error] instance: a plain one, or the [RetryExhaustedError] of
    [retry.ts] with its two fields. *)
Inductive error :=
| PlainError (message : string)
| RetryExhaustedError (originalError : error) (attempts : Z).

(** [error.message]; the constructor of [RetryExhaustedError] builds its
    message from the attempt count and the message it wraps. *)
Fixpoint message (e : error) : string :=
  match e with
  | PlainError m => m
  | RetryExhaustedError originalError attempts =>
      "Failed after " ++ Js.ofNumber attempts ++ " attempts: "
      ++ message originalError
  end.

(** What a [throw] carries: an [Error], or any other value, of which the
    code only ever takes [String(value)]. *)
Inductive thrown :=
| ErrorValue (e : error)
| OtherValue (asString : string).

Inductive result (T : Type) :=
| Ok (v : T)
| Throw (e : thrown).
Arguments Ok {T} v.
Arguments Throw {T} e.

End Exn.

(** ** RetryExecutor: [withRetry] *)
Module Retry.
Import Exn.

Record RetryOptions := {
  maxAttempts : Z;
  backoffMs : Z;
  maxBackoffMs : Z;
  retryableErrors : list string
}.

(** [Partial<RetryOptions>] *)
Record PartialRetryOptions := {
  maxAttempts_opt : option Z;
  backoffMs_opt : option Z;
  maxBackoffMs_opt : option Z;
  retryableErrors_opt : option (list string)
}.

Definition noOptions : PartialRetryOptions :=
  {| maxAttempts_opt := None; backoffMs_opt := None;
     maxBackoffMs_opt := None; retryableErrors_opt := None |}.

Definition orDefault {A : Type} (o : option A) (d : A) : A :=
  match o with Some a => a | None => d end.

(** [{ maxAttempts: 3, ..., ...options }] *)
Definition configOf (options : PartialRetryOptions) : RetryOptions :=
  {| maxAttempts := orDefault (maxAttempts_opt options) 3;
     backoffMs := orDefault (backoffMs_opt options) 1000;
     maxBackoffMs := orDefault (maxBackoffMs_opt options) 30000;
     retryableErrors :=
       orDefault (retryableErrors_opt options)
         ["ETIMEDOUT"; "ECONNRESET"; "ECONNREFUSED"; "429"; "503"; "502"; "504"] |}.

Definition isRetryable (error : thrown) (retryableErrors : list string)
  : bool :=
  match error with
  | ErrorValue e =>
      let errorMessage := Js.toLowerCase (message e) in
      existsb (fun retryable =>
                 Js.includes errorMessage (Js.toLowerCase retryable))
        retryableErrors
  | OtherValue _ => false
  end.

(** [error instanceof Error ? error : new Error(String(error))] *)
Definition asError (error : thrown) : Exn.error :=
  match error with
  | ErrorValue e => e
  | OtherValue s => PlainError s
  end.

(** [Math.min(backoffMs * Math.pow(2, attempt - 1), maxBackoffMs)] *)
Definition delayOf (config : RetryOptions) (attempt : Z) : Z :=
  Z.min (backoffMs config * 2 ^ (attempt - 1)) (maxBackoffMs config).

Definition warningOf (attempt : Z) (lastError : Exn.error) (delay : Z)
  : string :=
  "Attempt " ++ Js.ofNumber attempt ++ " failed: " ++ message lastError
  ++ ". Retrying in " ++ Js.ofNumber delay ++ "ms...".

(** What one call of [withRetry] did: how it ended, the state the
    operation left, how often the operation was invoked, and the
    suspensions and warnings in the order they happened. *)
Record run (T St : Type) := {
  outcome : result T;
  final : St;
  calls : Z;
  sleeps : list Z;
  warnings : list string
}.
Arguments outcome {T St} r.
Arguments final {T St} r.
Arguments calls {T St} r.
Arguments sleeps {T St} r.
Arguments warnings {T St} r.

Section Loop.
Context {T St : Type}.
Variable operation : St -> result T * St.
Variable config : RetryOptions.

(** The [for] loop, entered with the counter at [attempt]; [fuel]
    bounds the number of times its condition is tested, and [None]
    says the bound was too small. *)
Fixpoint retryLoop (fuel : nat) (attempt : Z) (lastError : option Exn.error)
  (st : St) (calls : Z) (sleeps : list Z) (warnings : list string)
  : option (run T St) :=
  match fuel with
  | O => None
  | S fuel' =>
      if attempt <=? maxAttempts config then
        match operation st with
        | (Ok v, st') =>
            Some {| outcome := Ok v; final := st'; calls := calls + 1;
                    sleeps := sleeps; warnings := warnings |}
        | (Throw error, st') =>
            let lastError' := asError error in
            if attempt =? maxAttempts config then
              Some {| outcome :=
                        Throw (ErrorValue
                                 (RetryExhaustedError lastError' attempt));
                      final := st'; calls := calls + 1;
                      sleeps := sleeps; warnings := warnings |}
            else if negb (isRetryable error (retryableErrors config)) then
              Some {| outcome := Throw error; final := st';
                      calls := calls + 1;
                      sleeps := sleeps; warnings := warnings |}
            else
              let delay := delayOf config attempt in
              retryLoop fuel' (attempt + 1) (Some lastError') st'
                (calls + 1) (sleeps ++ [delay])%list
                (warnings ++ [warningOf attempt lastError' delay])%list
        end
      else
        Some {| outcome :=
                  Throw (ErrorValue
                           (orDefault lastError
                              (PlainError "Unknown error in retry loop")));
                final := st; calls := calls;
                sleeps := sleeps; warnings := warnings |}
  end.

End Loop.

(** The condition of the loop is tested [maxAttempts + 1] times at
    most. *)
Definition fuelFor (config : RetryOptions) : nat :=
  S (Z.to_nat (maxAttempts config)).

Definition withRetry {T St : Type} (operation : St -> result T * St)
  (options : PartialRetryOptions) (st : St) : option (run T St) :=
  let config := configOf options in
  retryLoop operation config (fuelFor config) 1 None st 0 [] [].

End Retry.

(** ** The delivery collaborator: [GitHubClient] *)
Module GitHub.
Import Exn.

(** The requests the client sends through octokit.  The record of a run
    is the list of requests sent, oldest first. *)
Inductive request :=
| PullsGet
| PullsListFiles
| PullsCreateReview (commit_id body event : string)
    (comments : list ReviewComment.t)
| PullsCreateReviewComment (commit_id : string) (comment : ReviewComment.t)
| IssuesCreateComment (body : string).

Record PullData := {
  title : string;
  body : option string;
  head_sha : string
}.

(** The fields of [PullRequestFile] the pipeline reads. *)
Record PullRequestFile := {
  filename : string;
  status : string;
  patch : option string
}.

(** The remote host: what it answers to a request, given the requests
    it has received before. *)
Record remote := {
  pullsGet : list request -> result PullData;
  listFiles : list request -> result (list PullRequestFile);
  write : list request -> request -> result unit
}.

(** An asynchronous method: it reads and extends the list of requests
    sent, and returns or throws; [None] is a retry loop out of fuel. *)
Definition M (A : Type) : Type :=
  list request -> option (result A * list request).

Definition ret {A : Type} (a : A) : M A := fun sent => Some (Ok a, sent).

Definition bind {A B : Type} (m : M A) (k : A -> M B) : M B :=
  fun sent =>
    match m sent with
    | None => None
    | Some (Ok a, sent') => k a sent'
    | Some (Throw e, sent') => Some (Throw e, sent')
    end.

(** [const x = await m; k] *)
Notation "x <- m ;; k" := (bind m (fun x => k))
  (at level 61, m at next level, right associativity).

(** [await m; k] *)
Notation "m ;; k" := (bind m (fun _ => k))
  (at level 61, right associativity).

(** [try { await m } catch (error) { logger.warning(...) }] *)
Definition catchAndWarn (m : M unit) : M unit :=
  fun sent =>
    match m sent with
    | None => None
    | Some (_, sent') => Some (Ok tt, sent')
    end.

Definition truncationMarker : string :=
  Suggestion.LF ++ Suggestion.LF ++ "... (truncated)".

(** [body.length > 65000 ? body.substring(0, 65000) + marker : body] *)
Definition truncateBody (body : string) : string :=
  if Js.len body >? 65000
  then Js.substring0 65000 body ++ truncationMarker
  else body.

(** [{ path, line, body, side: c.side || 'RIGHT', start_line,
    start_side }] *)
Definition payloadOf (c : ReviewComment.t) : ReviewComment.t :=
  {| ReviewComment.path := ReviewComment.path c;
     ReviewComment.line := ReviewComment.line c;
     ReviewComment.start_line := ReviewComment.start_line c;
     ReviewComment.body := ReviewComment.body c;
     ReviewComment.side :=
       match ReviewComment.side c with
       | Some sd => if Js.truthy sd then Some sd else Some "RIGHT"
       | None => Some "RIGHT"
       end;
     ReviewComment.start_side := ReviewComment.start_side c |}.

Definition threeAttempts : Retry.PartialRetryOptions :=
  {| Retry.maxAttempts_opt := Some 3; Retry.backoffMs_opt := None;
     Retry.maxBackoffMs_opt := None; Retry.retryableErrors_opt := None |}.

Section Client.
Variable host : remote.

(** One write request: it is recorded, and the host answers. *)
Definition send (req : request) (sent : list request)
  : result unit * list request :=
  (write host sent req, (sent ++ [req])%list).

(** [await withRetry(() => octokit...(req), { maxAttempts: 3 })] *)
Definition sendWithRetry (req : request) : M unit :=
  fun sent =>
    match Retry.withRetry (send req) threeAttempts sent with
    | None => None
    | Some r => Some (Retry.outcome r, Retry.final r)
    end.

Definition getPull : M PullData :=
  fun sent => Some (pullsGet host sent, (sent ++ [PullsGet])%list).

Definition getCommitSha : M string :=
  pr <- getPull ;;
  ret (head_sha pr).

Definition getPRDetails : M PullData := getPull.

(** [minimatch(file.filename, pattern, { matchBase: true })] is the
    library's; the paginated listing is one read. *)
Definition getChangedFiles (minimatch : string -> string -> bool)
  (excludePatterns : list string) : M (list PullRequestFile) :=
  fun sent =>
    match listFiles host sent with
    | Throw e => Some (Throw e, (sent ++ [PullsListFiles])%list)
    | Ok files =>
        let filteredFiles :=
          filter (fun file =>
                    negb (existsb (fun pattern =>
                                     minimatch (filename file) pattern)
                            excludePatterns))
            files in
        Some (Ok filteredFiles, (sent ++ [PullsListFiles])%list)
    end.

Definition createReview (comments : list ReviewComment.t)
  (body event : string) : M unit :=
  if Z.of_nat (List.length comments) =? 0 then ret tt
  else
    commitId <- getCommitSha ;;
    let truncatedBody := truncateBody body in
    sendWithRetry
      (PullsCreateReview commitId truncatedBody event
         (map payloadOf comments)).

Fixpoint postEach (commitId : string) (comments : list ReviewComment.t)
  : M unit :=
  match comments with
  | [] => ret tt
  | comment :: rest =>
      catchAndWarn
        (sendWithRetry
           (PullsCreateReviewComment commitId (payloadOf comment))) ;;
      postEach commitId rest
  end.

Definition postReviewComments (comments : list ReviewComment.t) : M unit :=
  if Z.of_nat (List.length comments) =? 0 then ret tt
  else
    commitId <- getCommitSha ;;
    postEach commitId comments.

Definition postGeneralComment (body : string) : M unit :=
  let truncatedBody := truncateBody body in
  sendWithRetry (IssuesCreateComment truncatedBody).

End Client.

End GitHub.

(** ** The orchestrator: [ReviewOrchestrator] *)
Module ReviewResult.
Record t := { reviews : list ReviewIssue.t; summary : string }.
End ReviewResult.

Module FileResult.
Record t := {
  filePath : string;
  summary : string;
  issueCount : Z;
  criticalCount : Z;
  warningCount : Z;
  suggestionCount : Z
}.
End FileResult.

Module ReviewSummary.
Record t := {
  totalFiles : Z;
  filesReviewed : Z;
  totalComments : Z;
  criticalIssues : Z;
  warnings : Z;
  suggestions : Z;
  summary : string
}.
End ReviewSummary.

Module Orchestrator.
Import Exn GitHub.

(** The fields of [Config] the orchestrator reads. *)
Record Config := {
  prompt : string;
  maxFiles : Z;
  excludePatterns : list string;
  postAsReview : bool
}.

(** The analysis source, [LLMClient]: each method returns or throws. *)
Record LLMClient := {
  reviewCode :
    string -> string -> string -> option string -> option string ->
    result ReviewResult.t;
  generateSummary : list (string * string * Z) -> string -> result string
}.

Definition lengthZ {A : Type} (l : list A) : Z := Z.of_nat (List.length l).

Definition sumOf (f : FileResult.t -> Z) (rs : list FileResult.t) : Z :=
  fold_left (fun sum r => sum + f r) rs 0.

Definition formatReviewBody (summary : string) (fileResults : list FileResult.t)
  (criticalIssues warnings suggestions : Z) : string :=
  let stats :=
    filter Js.truthy
      [ if criticalIssues >? 0
        then "🔴 " ++ Js.ofNumber criticalIssues ++ " critical" else "";
        if warnings >? 0
        then "🟡 " ++ Js.ofNumber warnings ++ " warnings" else "";
        if suggestions >? 0
        then "💡 " ++ Js.ofNumber suggestions ++ " suggestions" else "" ] in
  "## Open Review" ++ Suggestion.LF ++ Suggestion.LF
  ++ summary ++ Suggestion.LF ++ Suggestion.LF
  ++ "### Summary" ++ Suggestion.LF
  ++ (if lengthZ stats >? 0 then Js.join " | " stats
      else "✅ No issues found")
  ++ Suggestion.LF ++ Suggestion.LF
  ++ "### Files Reviewed" ++ Suggestion.LF
  ++ Js.join Suggestion.LF
       (map (fun r =>
               "- " ++ FileResult.filePath r
               ++ (if FileResult.issueCount r >? 0
                   then " (" ++ Js.ofNumber (FileResult.issueCount r)
                        ++ " comment"
                        ++ (if FileResult.issueCount r >? 1 then "s" else "")
                        ++ ")"
                   else ""))
          fileResults)
  ++ Suggestion.LF ++ Suggestion.LF
  ++ "---" ++ Suggestion.LF
  ++ "*This review was generated by AI. Please review the suggestions carefully before applying them.*".

Definition approvalBody (overallSummary : string) : string :=
  "## ✅ AI Code Review Complete" ++ Suggestion.LF ++ Suggestion.LF
  ++ overallSummary ++ Suggestion.LF ++ Suggestion.LF
  ++ "**No issues found!** Great job! 🎉".

Section Run.
Variable config : Config.
Variable host : remote.
Variable llm : LLMClient.
Variable minimatch : string -> string -> bool.

(** [file.patch || ""] *)
Definition patchOf (file : PullRequestFile) : string :=
  match patch file with Some p => p | None => "" end.

Definition countSeverity (p : string -> bool) (rs : list ReviewIssue.t) : Z :=
  lengthZ (filter (fun r => p (ReviewIssue.severity r)) rs).

Definition reviewFile (file : PullRequestFile) (prTitle : option string)
  (prDescription : option string)
  : result (list ReviewComment.t * FileResult.t) :=
  match reviewCode llm (filename file) (patchOf file) (prompt config)
          prTitle prDescription with
  | Throw e => Throw e
  | Ok result =>
      let comments :=
        Synth.createReviewComments (filename file)
          (ReviewResult.reviews result) (patchOf file) in
      Ok (comments,
          {| FileResult.filePath := filename file;
             FileResult.summary := ReviewResult.summary result;
             FileResult.issueCount := lengthZ comments;
             FileResult.criticalCount :=
               countSeverity (fun sv => String.eqb sv "critical")
                 (ReviewResult.reviews result);
             FileResult.warningCount :=
               countSeverity (fun sv => String.eqb sv "warning")
                 (ReviewResult.reviews result);
             FileResult.suggestionCount :=
               countSeverity
                 (fun sv => String.eqb sv "suggestion" || String.eqb sv "info")
                 (ReviewResult.reviews result) |})
  end.

(** [prDetails.body || undefined] *)
Definition descriptionOf (pr : PullData) : option string :=
  match body pr with
  | Some b => if Js.truthy b then Some b else None
  | None => None
  end.

(** [file.status === "removed" || !file.patch] *)
Definition skipped (file : PullRequestFile) : bool :=
  String.eqb (status file) "removed"
  || match patch file with Some p => negb (Js.truthy p) | None => true end.

(** The loop over [filesToReview]: it extends [allComments] and
    [fileResults]; a file whose review throws leaves both as they
    are. *)
Fixpoint reviewEach (pr : PullData) (files : list PullRequestFile)
  (allComments : list ReviewComment.t) (fileResults : list FileResult.t)
  : list ReviewComment.t * list FileResult.t :=
  match files with
  | [] => (allComments, fileResults)
  | file :: rest =>
      if skipped file then reviewEach pr rest allComments fileResults
      else
        match reviewFile file (Some (title pr)) (descriptionOf pr) with
        | Ok (comments, r) =>
            reviewEach pr rest (allComments ++ comments)%list
              (fileResults ++ [r])%list
        | Throw _ => reviewEach pr rest allComments fileResults
        end
  end.

(** The "Post review" step of [runReview]. *)
Definition postReview (allComments : list ReviewComment.t)
  (fileResults : list FileResult.t) (overallSummary : string)
  (criticalIssues warnings suggestions : Z) : M unit :=
  if lengthZ allComments >? 0 then
    let reviewBody :=
      formatReviewBody overallSummary fileResults
        criticalIssues warnings suggestions in
    if postAsReview config
    then createReview host allComments reviewBody "COMMENT"
    else
      postReviewComments host allComments ;;
      postGeneralComment host reviewBody
  else
    if postAsReview config
    then createReview host [] (approvalBody overallSummary) "APPROVE"
    else postGeneralComment host (approvalBody overallSummary).

Definition runReview : M ReviewSummary.t :=
  prDetails <- getPRDetails host ;;
  files <- getChangedFiles host minimatch (excludePatterns config) ;;
  if lengthZ files =? 0 then
    ret {| ReviewSummary.totalFiles := 0;
           ReviewSummary.filesReviewed := 0;
           ReviewSummary.totalComments := 0;
           ReviewSummary.criticalIssues := 0;
           ReviewSummary.warnings := 0;
           ReviewSummary.suggestions := 0;
           ReviewSummary.summary := "No files to review" |}
  else
    let filesToReview :=
      if maxFiles config >? 0
      then firstn (Z.to_nat (maxFiles config)) files
      else files in
    let (allComments, fileResults) :=
      reviewEach prDetails filesToReview [] [] in
    match generateSummary llm
            (map (fun r => (FileResult.filePath r, FileResult.summary r,
                            FileResult.issueCount r)) fileResults)
            (prompt config) with
    | Throw e => fun sent => Some (Throw e, sent)
    | Ok overallSummary =>
        let totalComments := lengthZ allComments in
        let criticalIssues := sumOf FileResult.criticalCount fileResults in
        let warnings := sumOf FileResult.warningCount fileResults in
        let suggestions := sumOf FileResult.suggestionCount fileResults in
        postReview allComments fileResults overallSummary
          criticalIssues warnings suggestions ;;
        ret {| ReviewSummary.totalFiles := lengthZ files;
               ReviewSummary.filesReviewed := lengthZ fileResults;
               ReviewSummary.totalComments := totalComments;
               ReviewSummary.criticalIssues := criticalIssues;
               ReviewSummary.warnings := warnings;
               ReviewSummary.suggestions := suggestions;
               ReviewSummary.summary := overallSummary |}
    end.

End Run.

End Orchestrator.

(** ** Notions and inputs the statements use *)

(** A string that does not start with white space. *)
Definition headNotSpace (y : string) : Prop :=
  match y with
  | EmptyString => True
  | String c _ => Js.isSpace c = false
  end.

(** The character [c] occurs in [x]. *)
Fixpoint occurs (c : ascii) (x : string) : bool :=
  match x with
  | EmptyString => false
  | String a r => Ascii.eqb c a || occurs c r
  end.

(** What the loop pushes for one issue. *)
Definition emittedFor (filePath : string) (patchLines : list string)
  (issue : ReviewIssue.t) (c : ReviewComment.t) : Prop :=
  Diff.mapLineToDiff (ReviewIssue.line issue) patchLines
  = Some (ReviewComment.line c)
  /\ ReviewComment.path c = filePath
  /\ ReviewComment.body c
     = match ReviewIssue.suggestion issue with
       | Some s =>
           if Suggestion.isValidSuggestion s
                (Diff.getOriginalLineContent (ReviewComment.line c) patchLines)
           then Body.withBlock issue s
           else Body.prose issue
       | None => Body.prose issue
       end.

(** The blob of the specification's first example. *)
Definition exampleBlob : string :=
  "@@ -1,3 +1,5 @@" ++ Suggestion.LF ++ " line1" ++ Suggestion.LF
  ++ "+lineA" ++ Suggestion.LF ++ "+lineB" ++ Suggestion.LF ++ " line2".

(** An added line that quotes a hunk header, and a blob that holds it at
    position 3, where it is new-file line 2. *)
Definition quotingLine : string := "+see @@ -10,2 +50,3 @@ in the log".

Definition quotingBlob : list string :=
  ["@@ -1,2 +1,4 @@"; "+first"; quotingLine; "+after"].

(** A blob whose position 2 is a blank added line. *)
Definition blankLineBlob : list string := ["@@ -1,1 +1,2 @@"; "+"; " kept"].

(** An issue whose suggestion is advice, not code, on the first added
    line of the example blob. *)
Definition adviceIssue : ReviewIssue.t :=
  {| ReviewIssue.line := 2;
     ReviewIssue.severity := "warning";
     ReviewIssue.category := "style";
     ReviewIssue.message := "Prefer a named constant.";
     ReviewIssue.suggestion := Some "You should add a constant here" |}.

(** The state an operation has left after [n] invocations. *)
Fixpoint stateAfter {T St : Type} (operation : St -> Exn.result T * St)
  (n : nat) (st : St) : St :=
  match n with
  | O => st
  | S n' => stateAfter operation n' (snd (operation st))
  end.

(** [{ maxAttempts: n }] *)
Definition attempts (n : Z) : Retry.PartialRetryOptions :=
  {| Retry.maxAttempts_opt := Some n; Retry.backoffMs_opt := None;
     Retry.maxBackoffMs_opt := None; Retry.retryableErrors_opt := None |}.

(** An operation that always throws the error [e]; its state counts its
    invocations. *)
Definition alwaysThrows (e : Exn.error) (st : Z) : Exn.result unit * Z :=
  (Exn.Throw (Exn.ErrorValue e), st + 1).

(** [n] copies of the character [c]. *)
Fixpoint repeatChar (c : ascii) (n : nat) : string :=
  match n with
  | O => EmptyString
  | S n' => String c (repeatChar c n')
  end.

(** A comment whose body is 70000 characters long. *)
Definition longComment : ReviewComment.t :=
  {| ReviewComment.path := "src/app.ts";
     ReviewComment.line := 3;
     ReviewComment.start_line := None;
     ReviewComment.body := repeatChar "a" (Z.to_nat 70000);
     ReviewComment.side := Some "RIGHT";
     ReviewComment.start_side := None |}.

(** A host that accepts every request; its pull request has one changed
    file, whose patch is the example blob. *)
Definition acceptingHost : GitHub.remote :=
  {| GitHub.pullsGet := fun _ =>
       Exn.Ok {| GitHub.title := "Add lines"; GitHub.body := None;
                 GitHub.head_sha := "c0ffee" |};
     GitHub.listFiles := fun _ =>
       Exn.Ok [ {| GitHub.filename := "notes.txt";
                   GitHub.status := "modified";
                   GitHub.patch := Some exampleBlob |} ];
     GitHub.write := fun _ _ => Exn.Ok tt |}.

(** An analysis source that finds nothing. *)
Definition quietLLM : Orchestrator.LLMClient :=
  {| Orchestrator.reviewCode := fun _ _ _ _ _ =>
       Exn.Ok {| ReviewResult.reviews := []; ReviewResult.summary := "Fine." |};
     Orchestrator.generateSummary := fun _ _ => Exn.Ok "Nothing to report." |}.

Definition configWith (postAsReview : bool) : Orchestrator.Config :=
  {| Orchestrator.prompt := "Review this change.";
     Orchestrator.maxFiles := 0;
     Orchestrator.excludePatterns := [];
     Orchestrator.postAsReview := postAsReview |}.

(** The requests of [added] that deliver text to the review surface. *)
Definition isWrite (req : GitHub.request) : bool :=
  match req with
  | GitHub.PullsGet | GitHub.PullsListFiles => false
  | _ => true
  end.

(** ** The hunk-header pattern, read as a set of strings

    [/@@ -\d+(?:,\d+)? \+(\d+)(?:,\d+)? @@/]: what it means for the
    pattern to match at the head of a string, with [newStart] the text of
    capture group 1 and [rest] what follows the match. *)
Module HeaderPattern.

(** [\d+]: a non-empty run of digits. *)
Fixpoint allDigits (d : string) : bool :=
  match d with
  | EmptyString => true
  | String c r => Js.isDigit c && allDigits r
  end.

Definition number (d : string) : Prop := d <> "" /\ allDigits d = true.

(** [(?:,\d+)?]: nothing, or a comma and a number. *)
Definition optionalCount (g : string) : Prop :=
  g = "" \/ exists d, g = "," ++ d /\ number d.

Definition matchesAtHead (s newStart rest : string) : Prop :=
  exists oldStart g1 g2,
    number oldStart /\ optionalCount g1
    /\ number newStart /\ optionalCount g2
    /\ s = "@@ -" ++ oldStart ++ g1 ++ " +" ++ newStart ++ g2 ++ " @@" ++ rest.

(** A string that does not go on with a digit. *)
Definition noDigitAhead (r : string) : Prop :=
  match r with
  | EmptyString => True
  | String c _ => Js.isDigit c = false
  end.

End HeaderPattern.

(** ** Notions for the further properties of the DiffIndexer *)

(** The lines of [lines] that exist in the new file: all but the removed
    ones. *)
Fixpoint countNew (lines : list string) : Z :=
  match lines with
  | [] => 0
  | line :: rest =>
      (if Js.startsWith line "-" then 0 else 1) + countNew rest
  end.

(** No line of [lines] holds a hunk header. *)
Definition headerFree (lines : list string) : Prop :=
  forall line, In line lines -> Diff.hunkMatch line = None.

(** What a turn of the scanning loop does to its two variables when it
    does not return. *)
Definition advance (line : string) (st : Diff.scan) : Diff.scan :=
  match Diff.hunkMatch line with
  | Some newStart =>
      {| Diff.currentLine := Js.parseInt newStart - 1; Diff.inHunk := true |}
  | None =>
      if negb (Diff.inHunk st) then st
      else if Js.startsWith line "-" then st
      else {| Diff.currentLine := Diff.currentLine st + 1;
              Diff.inHunk := Diff.inHunk st |}
  end.

Definition advanceAll (lines : list string) (st : Diff.scan) : Diff.scan :=
  fold_left (fun st line => advance line st) lines st.

Definition lenZ {A : Type} (l : list A) : Z := Z.of_nat (List.length l).

(** A patch of one hunk that adds two lines, removes one and keeps
    two. *)
Definition oneHunk : list string :=
  ["@@ -7,3 +7,4 @@"; " kept"; "-old"; "+new"; "+more"; " tail"].

(** Lines of a patch that was cut before its first header. *)
Definition noHunk : list string := ["+added"; " kept"; "-removed"].

(** ** Notions for the further properties of the SuggestionValidator *)

(** The last character of [sub] is no white space ([sub] is not empty). *)
Fixpoint lastNotSpace (sub : string) : bool :=
  match sub with
  | EmptyString => false
  | String a EmptyString => negb (Js.isSpace a)
  | String _ r => lastNotSpace r
  end.

(** The first character of [sub] is no white space ([sub] is not
    empty). *)
Definition firstNotSpace (sub : string) : bool :=
  match sub with
  | EmptyString => false
  | String a _ => negb (Js.isSpace a)
  end.

(** The positions the issues map to, in the order of the issues; an
    issue that maps to no position gives none. *)
Definition positionsOf (patchLines : list string)
  (issues : list ReviewIssue.t) : list Z :=
  flat_map (fun issue =>
              match Diff.mapLineToDiff (ReviewIssue.line issue) patchLines with
              | Some p => [p]
              | None => []
              end) issues.

(** An issue on the second added line of [oneHunk], with a replacement
    for it. *)
Definition replaceIssue : ReviewIssue.t :=
  {| ReviewIssue.line := 9;
     ReviewIssue.severity := "suggestion";
     ReviewIssue.category := "style";
     ReviewIssue.message := "Shorter.";
     ReviewIssue.suggestion := Some "less" |}.

Definition oneHunkPatch : string := Js.join Suggestion.LF oneHunk.

(** ** Notions for the further properties of the RetryExecutor *)

(** How the [j]-th invocation of the operation ends, counting from 0,
    when the invocations before it have happened. *)
Definition invocation {T St : Type} (operation : St -> Exn.result T * St)
  (st : St) (j : nat) : Exn.result T :=
  fst (operation (stateAfter operation j st)).

(** The suspensions after the failed attempts [first], [first + 1], ...,
    [n] of them. *)
Definition delaysFrom (config : Retry.RetryOptions) (first : Z) (n : nat)
  : list Z :=
  map (fun j => Retry.delayOf config (first + Z.of_nat j)) (seq 0 n).

(** An operation that fails twice with a timeout and then returns 42;
    its state counts its invocations. *)
Definition flaky (st : Z) : Exn.result Z * Z :=
  if st <? 2
  then (Exn.Throw (Exn.ErrorValue (Exn.PlainError "connect ETIMEDOUT")), st + 1)
  else (Exn.Ok 42, st + 1).

(** ** Notions for the further properties of the delivery *)

(** The request that posts the comment [c] on commit [sha]. *)
Definition commentRequest (sha : string) (c : ReviewComment.t)
  : GitHub.request :=
  GitHub.PullsCreateReviewComment sha (GitHub.payloadOf c).

(** A host that answers every write with a server error. *)
Definition failingHost : GitHub.remote :=
  {| GitHub.pullsGet := GitHub.pullsGet acceptingHost;
     GitHub.listFiles := GitHub.listFiles acceptingHost;
     GitHub.write := fun _ _ =>
       Exn.Throw (Exn.ErrorValue (Exn.PlainError "HTTP 503")) |}.

Definition shortComment (line : Z) : ReviewComment.t :=
  {| ReviewComment.path := "notes.txt";
     ReviewComment.line := line;
     ReviewComment.start_line := None;
     ReviewComment.body := "Check this.";
     ReviewComment.side := None;
     ReviewComment.start_side := None |}.

(** The requests for the comments of a list, each sent once at least and
    three times at most. *)
Inductive postedEach (sha : string)
  : list ReviewComment.t -> list GitHub.request -> Prop :=
| postedEach_nil : postedEach sha [] []
| postedEach_cons c rest k added :
    (k < 3)%nat ->
    postedEach sha rest added ->
    postedEach sha (c :: rest)
      (repeat (commentRequest sha c) (S k) ++ added)%list.

(** Of the reviews the run creates: each has the event [COMMENT] and at
    least one comment. *)
Definition commentReviewOnly (req : GitHub.request) : Prop :=
  match req with
  | GitHub.PullsCreateReview _ _ event comments =>
      event = "COMMENT" /\ comments <> []
  | _ => True
  end.

(** An analysis source whose every review throws. *)
Definition brokenLLM : Orchestrator.LLMClient :=
  {| Orchestrator.reviewCode := fun _ _ _ _ _ =>
       Exn.Throw (Exn.ErrorValue (Exn.PlainError "LLM unavailable"));
     Orchestrator.generateSummary := fun _ _ => Exn.Ok "Nothing to report." |}.

(** The summary of a run without files. *)
Definition noFilesSummary : ReviewSummary.t :=
  {| ReviewSummary.totalFiles := 0;
     ReviewSummary.filesReviewed := 0;
     ReviewSummary.totalComments := 0;
     ReviewSummary.criticalIssues := 0;
     ReviewSummary.warnings := 0;
     ReviewSummary.suggestions := 0;
     ReviewSummary.summary := "No files to review" |}.

(** The files [getChangedFiles] keeps of a listing. *)
Definition keptFiles (minimatch : string -> string -> bool)
  (excludePatterns : list string) (listed : list GitHub.PullRequestFile)
  : list GitHub.PullRequestFile :=
  filter (fun file =>
            negb (existsb (fun pattern =>
                             minimatch (GitHub.filename file) pattern)
                    excludePatterns))
    listed.

(** ** Notions for the further properties of the orchestrator *)

(** [filesToReview] *)
Definition filesToReviewOf (config : Orchestrator.Config)
  (files : list GitHub.PullRequestFile) : list GitHub.PullRequestFile :=
  if Orchestrator.maxFiles config >? 0
  then firstn (Z.to_nat (Orchestrator.maxFiles config)) files
  else files.

(** What [generateSummary] is given of the file results. *)
Definition fileSummaries (fileResults : list FileResult.t)
  : list (string * string * Z) :=
  map (fun r => (FileResult.filePath r, FileResult.summary r,
                 FileResult.issueCount r)) fileResults.

(** The summary the run returns after the "Post review" step. *)
Definition summaryOf (files : list GitHub.PullRequestFile)
  (allComments : list ReviewComment.t) (fileResults : list FileResult.t)
  (overallSummary : string) : ReviewSummary.t :=
  {| ReviewSummary.totalFiles := Orchestrator.lengthZ files;
     ReviewSummary.filesReviewed := Orchestrator.lengthZ fileResults;
     ReviewSummary.totalComments := Orchestrator.lengthZ allComments;
     ReviewSummary.criticalIssues :=
       Orchestrator.sumOf FileResult.criticalCount fileResults;
     ReviewSummary.warnings :=
       Orchestrator.sumOf FileResult.warningCount fileResults;
     ReviewSummary.suggestions :=
       Orchestrator.sumOf FileResult.suggestionCount fileResults;
     ReviewSummary.summary := overallSummary |}.

(** The comments a request carries. *)
Definition commentsOf (req : GitHub.request) : list ReviewComment.t :=
  match req with
  | GitHub.PullsCreateReview _ _ _ comments => comments
  | GitHub.PullsCreateReviewComment _ comment => [comment]
  | _ => []
  end.

(** A file result has counts that are not negative. *)
Definition countsNonneg (r : FileResult.t) : Prop :=
  0 <= FileResult.issueCount r /\ 0 <= FileResult.criticalCount r
  /\ 0 <= FileResult.warningCount r /\ 0 <= FileResult.suggestionCount r.

(** The file of [files] a comment or a file result comes from: one that
    the loop did not skip. *)
Definition fromFile (files : list GitHub.PullRequestFile) (name : string)
  : Prop :=
  exists file,
    In file files /\ Orchestrator.skipped file = false
    /\ name = GitHub.filename file.

(** The summary of the run over [acceptingHost] with [quietLLM]. *)
Definition quietRunSummary : ReviewSummary.t :=
  {| ReviewSummary.totalFiles := 1;
     ReviewSummary.filesReviewed := 1;
     ReviewSummary.totalComments := 0;
     ReviewSummary.criticalIssues := 0;
     ReviewSummary.warnings := 0;
     ReviewSummary.suggestions := 0;
     ReviewSummary.summary := "Nothing to report." |}.

(** An analysis source that reports [adviceIssue] on every file. *)
Definition busyLLM : Orchestrator.LLMClient :=
  {| Orchestrator.reviewCode := fun _ _ _ _ _ =>
       Exn.Ok {| ReviewResult.reviews := [adviceIssue];
                 ReviewResult.summary := "One remark." |};
     Orchestrator.generateSummary := fun _ _ => Exn.Ok "One remark in all." |}.

(** The comment the run over [acceptingHost] with [busyLLM] sends. *)
Definition busyComment : ReviewComment.t :=
  {| ReviewComment.path := "notes.txt";
     ReviewComment.line := 3;
     ReviewComment.start_line := None;
     ReviewComment.body :=
       Synth.buildBody adviceIssue false;
     ReviewComment.side := Some "RIGHT";
     ReviewComment.start_side := None |}.

(** The text by which an approval body says that nothing was found. *)
Definition noIssuesFound : string := "**No issues found!**".

(** One of the four severities the counts of a file know. *)
Definition knownSeverity (issue : ReviewIssue.t) : Prop :=
  In (ReviewIssue.severity issue) ["critical"; "warning"; "suggestion"; "info"].

Definition issueOf (severity : string) (line : Z) : ReviewIssue.t :=
  {| ReviewIssue.line := line;
     ReviewIssue.severity := severity;
     ReviewIssue.category := "";
     ReviewIssue.message := "Look here.";
     ReviewIssue.suggestion := None |}.

(** An analysis source that reports three issues on every file, one of
    them on a line the example blob does not add and one with a
    severity of its own. *)
Definition mixedLLM : Orchestrator.LLMClient :=
  {| Orchestrator.reviewCode := fun _ _ _ _ _ =>
       Exn.Ok {| ReviewResult.reviews :=
                   [issueOf "critical" 2; issueOf "warning" 40;
                    issueOf "blocker" 4];
                 ReviewResult.summary := "Mixed." |};
     Orchestrator.generateSummary := fun _ _ => Exn.Ok "Mixed." |}.

Definition exampleFile : GitHub.PullRequestFile :=
  {| GitHub.filename := "notes.txt";
     GitHub.status := "modified";
     GitHub.patch := Some exampleBlob |}.

(** ** Configuration: [loadConfig] of [src/config.ts] *)
Module ConfigLoader.
Import Exn.

(** [parseInt(s, 10)]: leading white space, a sign, then the longest run
    of digits; [None] is [NaN]. *)
Definition parseIntPrefix (s : string) : option Z :=
  let s1 := Js.trimStart s in
  let signed :=
    match s1 with
    | String c r =>
        if Ascii.eqb c "-" then (-1, r)
        else if Ascii.eqb c "+" then (1, r)
        else (1, s1)
    | EmptyString => (1, s1)
    end in
  match Js.spanDigits (snd signed) with
  | (EmptyString, _) => None
  | (d, _) => Some (fst signed * Js.parseInt d)
  end.

(** [Config] of [src/types]; [maxFiles] is a number or [NaN]. *)
Record Config := {
  llmBaseUrl : string;
  llmModel : string;
  llmApiKey : string;
  prompt : string;
  githubToken : string;
  reviewMode : string;
  maxFiles : option Z;
  excludePatterns : list string;
  failOnError : bool;
  postAsReview : bool
}.

(** The calls the loader makes to the toolkit besides reading inputs. *)
Inductive coreCall :=
| SetSecret (secret : string)
| Info (message : string).

Definition validModes : list string :=
  ["summary"; "detailed"; "security"; "performance"].

Definition defaultExcludePatterns : list string :=
  ["*.lock"; "*.min.js"; "*.min.css"; "dist/**"; "build/**";
   "node_modules/**"; "coverage/**"].

(** [s || d] on strings *)
Definition orElse (s d : string) : string := if Js.truthy s then s else d.

(** [excludePatternsInput ? excludePatternsInput.split(',').map(p =>
    p.trim()).filter(Boolean) : [...]] *)
Definition parseExcludePatterns (excludePatternsInput : string)
  : list string :=
  if Js.truthy excludePatternsInput
  then filter Js.truthy (map Js.trim (Js.split "," excludePatternsInput))
  else defaultExcludePatterns.

(** [`${b}`] for a boolean *)
Definition ofBoolean (b : bool) : string := if b then "true" else "false".

(** [`${config.maxFiles || 'unlimited'}`] *)
Definition maxFilesText (maxFiles : option Z) : string :=
  match maxFiles with
  | Some n => if n =? 0 then "unlimited" else Js.ofNumber n
  | None => "unlimited"
  end.

Section Load.

(** [core.getInput(name, { required })] of the toolkit: it returns the
    input or throws. *)
Variable getInput : string -> bool -> result string.

(** The table of default prompts, by review mode. *)
Variable DEFAULT_PROMPTS : string -> string.

(** [new URL(s).protocol]; [None] where the constructor throws. *)
Variable urlProtocol : string -> option string.

Definition invalidMode (reviewMode : string) : thrown :=
  ErrorValue
    (PlainError ("Invalid REVIEW_MODE: " ++ reviewMode
                 ++ ". Must be one of: " ++ Js.join ", " validModes)).

Definition invalidUrl (llmBaseUrl : string) : thrown :=
  ErrorValue (PlainError ("Invalid LLM_BASE_URL: " ++ llmBaseUrl)).

(** The [try] block around [new URL]: whatever is thrown inside it, the
    constructor's error or the protocol error, is caught. *)
Definition urlAccepted (llmBaseUrl : string) : bool :=
  match urlProtocol llmBaseUrl with
  | None => false
  | Some protocol =>
      if negb (String.eqb protocol "https:")
         && negb (String.eqb protocol "http:")
      then false
      else true
  end.

Definition logOf (config : Config) : list coreCall :=
  [ SetSecret (llmApiKey config);
    SetSecret (githubToken config);
    Info "Configuration loaded:";
    Info ("  LLM Base URL: " ++ llmBaseUrl config);
    Info ("  LLM Model: " ++ llmModel config);
    Info ("  Review Mode: " ++ reviewMode config);
    Info ("  Max Files: " ++ maxFilesText (maxFiles config));
    Info ("  Exclude Patterns: " ++ Js.join ", " (excludePatterns config));
    Info ("  Post as Review: " ++ ofBoolean (postAsReview config));
    Info ("  Fail on Error: " ++ ofBoolean (failOnError config)) ].

(** [loadConfig()]: what it returns or throws, and the calls it has made
    to the toolkit by then. *)
Definition loadConfig : result Config * list coreCall :=
  match getInput "LLM_BASE_URL" true with
  | Throw e => (Throw e, [])
  | Ok llmBaseUrl =>
  match getInput "LLM_MODEL" true with
  | Throw e => (Throw e, [])
  | Ok llmModel =>
  match getInput "LLM_API_KEY" true with
  | Throw e => (Throw e, [])
  | Ok llmApiKey =>
  match getInput "PROMPT" false with
  | Throw e => (Throw e, [])
  | Ok customPrompt =>
  match getInput "GITHUB_TOKEN" true with
  | Throw e => (Throw e, [])
  | Ok githubToken =>
  match getInput "REVIEW_MODE" false with
  | Throw e => (Throw e, [])
  | Ok reviewModeInput =>
  let reviewMode := orElse reviewModeInput "detailed" in
  match getInput "MAX_FILES" false with
  | Throw e => (Throw e, [])
  | Ok maxFilesInput =>
  let maxFiles := parseIntPrefix (orElse maxFilesInput "50") in
  match getInput "EXCLUDE_PATTERNS" false with
  | Throw e => (Throw e, [])
  | Ok excludePatternsInput =>
  match getInput "FAIL_ON_ERROR" false with
  | Throw e => (Throw e, [])
  | Ok failOnErrorInput =>
  let failOnError := String.eqb failOnErrorInput "true" in
  match getInput "POST_AS_REVIEW" false with
  | Throw e => (Throw e, [])
  | Ok postAsReviewInput =>
  let postAsReview := negb (String.eqb postAsReviewInput "false") in
  if negb (existsb (String.eqb reviewMode) validModes)
  then (Throw (invalidMode reviewMode), [])
  else if negb (urlAccepted llmBaseUrl)
  then (Throw (invalidUrl llmBaseUrl), [])
  else
    let excludePatterns := parseExcludePatterns excludePatternsInput in
    let prompt := orElse customPrompt (DEFAULT_PROMPTS reviewMode) in
    let config :=
      {| llmBaseUrl := llmBaseUrl;
         llmModel := llmModel;
         llmApiKey := llmApiKey;
         prompt := prompt;
         githubToken := githubToken;
         reviewMode := reviewMode;
         maxFiles := maxFiles;
         excludePatterns := excludePatterns;
         failOnError := failOnError;
         postAsReview := postAsReview |} in
    (Ok config, logOf config)
  end end end end end end end end end end.

End Load.

End ConfigLoader.

(** A pattern as the loader leaves it: not empty, without white space
    around it, without a comma. *)
Definition cleanPattern (p : string) : Prop :=
  p <> "" /\ Js.trim p = p /\ occurs "," p = false.

(** [core.getInput] of the toolkit over the inputs [given] of a
    workflow: an input that is not given reads as the empty string, an
    input that is required and empty makes it throw, and what it
    returns is trimmed. *)
Definition inputsOf (given : list (string * string)) (name : string)
  (required : bool) : Exn.result string :=
  let val :=
    match find (fun entry => String.eqb (fst entry) name) given with
    | Some entry => snd entry
    | None => ""
    end in
  if required && negb (Js.truthy val)
  then Exn.Throw
         (Exn.ErrorValue
            (Exn.PlainError ("Input required and not supplied: " ++ name)))
  else Exn.Ok (Js.trim val).

(** The inputs of a run in which EXCLUDE_PATTERNS is set to [patterns]. *)
Definition blankPatterns (patterns : string) : list (string * string) :=
  [ ("LLM_BASE_URL", "https://llm.example/v1");
    ("LLM_MODEL", "m1");
    ("LLM_API_KEY", "key-123");
    ("GITHUB_TOKEN", "token-456");
    ("EXCLUDE_PATTERNS", patterns) ].

Definition someInputs : list (string * string) :=
  [ ("LLM_BASE_URL", "https://llm.example/v1");
    ("LLM_MODEL", "m1");
    ("LLM_API_KEY", "key-123");
    ("GITHUB_TOKEN", "token-456");
    ("EXCLUDE_PATTERNS", "*.lock, dist/** ,,docs/*") ].

(** A stand-in for the URL parser: the text up to and with the first
    colon. *)
Definition protocolOf (url : string) : option string :=
  if Js.includes url ":" then Some (Rules.beforeColon url ++ ":") else None.

(** Every character of [s] satisfies [p]. *)
Fixpoint onlyChars (p : ascii -> bool) (s : string) : bool :=
  match s with
  | EmptyString => true
  | String c r => p c && onlyChars p r
  end.

(** A comma or white space. *)
Definition separatorOrSpace (c : ascii) : bool :=
  Ascii.eqb c "," || Js.isSpace c.

(** ** The entry point ([src/index.ts]) *)
Module Action.
Import Exn.

Record GitHubContext := {
  owner : string;
  repo : string;
  pullNumber : Z;
  commitId : string
}.

(** The calls of [run] that set the outcome of the action. *)
Inductive outcomeCall :=
| SetOutput (name value : string)
| SetFailed (message : string).

(** [error instanceof Error ? error.message : String(error)] *)
Definition errorMessageOf (error : thrown) : string :=
  match error with
  | ErrorValue e => message e
  | OtherValue s => s
  end.

Definition notAPullRequest : thrown :=
  ErrorValue
    (PlainError
       ("This action can only be run on pull requests. "
        ++ "Make sure your workflow triggers on pull_request events.")).

(** The configuration as the orchestrator reads it.  It reads [maxFiles]
    behind the test [maxFiles > 0], which fails for [NaN] as it does
    for 0. *)
Definition orchestratorConfig (config : ConfigLoader.Config)
  : Orchestrator.Config :=
  {| Orchestrator.prompt := ConfigLoader.prompt config;
     Orchestrator.maxFiles :=
       match ConfigLoader.maxFiles config with
       | Some n => n
       | None => 0
       end;
     Orchestrator.excludePatterns := ConfigLoader.excludePatterns config;
     Orchestrator.postAsReview := ConfigLoader.postAsReview config |}.

Section Run.

Variable getInput : string -> bool -> result string.
Variable DEFAULT_PROMPTS : string -> string.
Variable urlProtocol : string -> option string.

(** [GitHubClient.getContext()] *)
Variable getContext : option GitHubContext.

(** [new GitHubClient(token, context)] and [new LLMClient(apiKey,
    baseUrl, model)]: a client, or what the constructor throws. *)
Variable newGitHubClient : string -> GitHubContext -> result GitHub.remote.
Variable newLLMClient :
  string -> string -> string -> result Orchestrator.LLMClient.

Variable minimatch : string -> string -> bool.

(** [loadConfig()], called in the [try] block and again in the [catch]
    block. *)
Definition loaded : result ConfigLoader.Config :=
  fst (ConfigLoader.loadConfig getInput DEFAULT_PROMPTS urlProtocol).

(** The [try] block after a review that returned. *)
Definition onSuccess (result : ReviewSummary.t) : list outcomeCall :=
  [ SetOutput "review-summary" (ReviewSummary.summary result);
    SetOutput "files-reviewed"
      (Js.ofNumber (ReviewSummary.filesReviewed result));
    SetOutput "comments-posted"
      (Js.ofNumber (ReviewSummary.totalComments result));
    SetOutput "status" "success" ].

(** The [catch] block. *)
Definition onFailure (error : thrown) : list outcomeCall :=
  let errorMessage := errorMessageOf error in
  let shouldFail :=
    match loaded with
    | Ok errorConfig => ConfigLoader.failOnError errorConfig
    | Throw _ => false
    end in
  ([ SetOutput "review-summary" ("Review failed: " ++ errorMessage);
     SetOutput "files-reviewed" "0";
     SetOutput "comments-posted" "0";
     SetOutput "status" "failed" ]
   ++ (if shouldFail then [SetFailed errorMessage] else []))%list.

(** [run()]: the outcome calls it makes and the requests sent by its
    end; [None] is a retry loop out of fuel. *)
Definition run (sent : list GitHub.request)
  : option (list outcomeCall * list GitHub.request) :=
  match loaded with
  | Throw e => Some (onFailure e, sent)
  | Ok config =>
  match getContext with
  | None => Some (onFailure notAPullRequest, sent)
  | Some context =>
  match newGitHubClient (ConfigLoader.githubToken config) context with
  | Throw e => Some (onFailure e, sent)
  | Ok github =>
  match newLLMClient (ConfigLoader.llmApiKey config)
          (ConfigLoader.llmBaseUrl config)
          (ConfigLoader.llmModel config) with
  | Throw e => Some (onFailure e, sent)
  | Ok llm =>
  match Orchestrator.runReview (orchestratorConfig config) github llm
          minimatch sent with
  | None => None
  | Some (Ok result, sent') => Some (onSuccess result, sent')
  | Some (Throw e, sent') => Some (onFailure e, sent')
  end end end end end.

End Run.

End Action.

(** Inputs with a review mode that does not exist, and failing on error
    switched on. *)
Definition badModeInputs : list (string * string) :=
  [ ("LLM_BASE_URL", "https://llm.example/v1");
    ("LLM_MODEL", "m1");
    ("LLM_API_KEY", "key-123");
    ("GITHUB_TOKEN", "token-456");
    ("REVIEW_MODE", "quick");
    ("FAIL_ON_ERROR", "true") ].

(** The outcome calls of a failed run, the call that fails the workflow
    apart. *)
Definition failedOutputs (errorMessage : string) : list Action.outcomeCall :=
  [ Action.SetOutput "review-summary" ("Review failed: " ++ errorMessage);
    Action.SetOutput "files-reviewed" "0";
    Action.SetOutput "comments-posted" "0";
    Action.SetOutput "status" "failed" ].

(** A string that does not begin in the middle of a character. *)
Definition startsCharacter (s : string) : Prop :=
  match s with
  | EmptyString => True
  | String c _ => Js.isContinuation c = false
  end.

(** A body of exactly 65000 code units (65002 bytes), and one of 65002
    code units that begins with a character of two code units. *)
Definition fullBody : string := "✅" ++ repeatChar "a" (Z.to_nat 64999).

Definition overlongBody : string :=
  "🎉" ++ repeatChar "a" (Z.to_nat 65000).

(** What a setting of the caller amounts to: the value given, or the
    default where none is given. *)
Definition givenOr {A : Type} (given : option A) (default value : A) : Prop :=
  given = Some value \/ (given = None /\ value = default).

(** The markers of a retryable error that [withRetry] uses by default. *)
Definition defaultMarkers : list string :=
  ["ETIMEDOUT"; "ECONNRESET"; "ECONNREFUSED"; "429"; "503"; "502"; "504"].

(** The message of [e] holds one of the markers, letter case apart. *)
Definition holdsMarker (markers : list string) (e : Exn.error) : Prop :=
  exists marker,
    In marker markers
    /\ Js.includes (Js.toLowerCase (Exn.message e)) (Js.toLowerCase marker)
       = true.

(** An issue whose message quotes a suggestion block of its own. *)
Definition fencedMessageIssue (suggestion : option string) : ReviewIssue.t :=
  {| ReviewIssue.line := 2;
     ReviewIssue.severity := "warning";
     ReviewIssue.category := "style";
     ReviewIssue.message :=
       "Write it as" ++ Suggestion.LF ++ "```suggestion" ++ Suggestion.LF
       ++ "const limit = 3;" ++ Suggestion.LF ++ "```";
     ReviewIssue.suggestion := suggestion |}.

(* ===================================================================== *)
(** * Properties                                                          *)
(* ===================================================================== *)

(** ** DiffIndexer *)

Lemma exampleBlob_lines :
  Js.split "010" exampleBlob
  = ["@@ -1,3 +1,5 @@"; " line1"; "+lineA"; "+lineB"; " line2"].
Proof. reflexivity. Qed.

(** C3, as stated, fails: in the example blob new-file line 1 is the
    context line [" line1"], and mapping it does not return position 3. *)
Lemma mapLineToDiff_example_line1_not_3 :
  Diff.mapLineToDiff 1 (Js.split "010" exampleBlob) <> Some 3.
Proof. vm_compute. discriminate. Qed.

(** C3 (amended): in the example blob the first added line, ["+lineA"], is
    new-file line 2, the context line before it being line 1; mapping line
    2 returns position 3, the physical position of ["+lineA"] counting the
    header as position 1, and mapping line 1 returns no position. *)
Theorem mapLineToDiff_example :
  Diff.mapLineToDiff 2 (Js.split "010" exampleBlob) = Some 3
  /\ Diff.lineAt (Js.split "010" exampleBlob) (3 - 1) = Some "+lineA"
  /\ Diff.mapLineToDiff 1 (Js.split "010" exampleBlob) = None.
Proof. repeat split; reflexivity. Qed.

(** A position is returned by a turn of the loop only at a line that is no
    header, starts with [+], and while scanning a hunk. *)
Lemma step_Return targetLine i line st p :
  Diff.step targetLine i line st = Diff.Return p ->
  p = i + 1
  /\ Diff.hunkMatch line = None
  /\ Js.startsWith line "+" = true
  /\ Diff.inHunk st = true
  /\ Diff.currentLine st + 1 = targetLine.
Proof.
  unfold Diff.step; cbv zeta.
  destruct (Diff.hunkMatch line); [discriminate|].
  destruct (Diff.inHunk st); cbn [negb]; [|discriminate].
  destruct (Js.startsWith line "+").
  - destruct (Z.eqb_spec (Diff.currentLine st + 1) targetLine);
      [|discriminate].
    intros H; inversion H; auto.
  - destruct (negb (Js.startsWith line "-")); discriminate.
Qed.

(** A line cannot start with both [+] and [-]. *)
Lemma startsWith_plus_not_minus line :
  Js.startsWith line "+" = true -> Js.startsWith line "-" = false.
Proof.
  unfold Js.startsWith.
  destruct line as [|c r]; cbn [Js.isPrefix]; [discriminate|].
  destruct (Ascii.eqb_spec "+" c) as [e|]; [subst c|discriminate].
  reflexivity.
Qed.

(** The scan from index [i] returns a position beyond [i] whose line is
    the one whose turn returned. *)
Lemma scanFrom_Some targetLine lines :
  forall i st p,
    0 <= i ->
    Diff.scanFrom targetLine i lines st = Some p ->
    i < p
    /\ exists line,
         nth_error lines (Z.to_nat (p - 1 - i)) = Some line
         /\ Diff.hunkMatch line = None
         /\ Js.startsWith line "+" = true.
Proof.
  induction lines as [|line rest IH]; intros i st p Hi H; simpl in H.
  - discriminate.
  - destruct (Diff.step targetLine i line st) as [q|st'] eqn:Hstep.
    + inversion H; subst q; clear H.
      apply step_Return in Hstep as (-> & Hm & Hplus & _).
      split; [lia|].
      exists line. replace (i + 1 - 1 - i) with 0 by lia. auto.
    + apply IH in H as (Hlt & l & Hnth & Hm & Hplus); [|lia].
      split; [lia|].
      exists l. split; [|auto].
      replace (Z.to_nat (p - 1 - i)) with (S (Z.to_nat (p - 1 - (i + 1))))
        by lia.
      exact Hnth.
Qed.

(** The line at a returned position: no header, and an added line. *)
Lemma mapLineToDiff_Some targetLine patchLines p :
  Diff.mapLineToDiff targetLine patchLines = Some p ->
  1 <= p
  /\ exists line,
       Diff.lineAt patchLines (p - 1) = Some line
       /\ Diff.hunkMatch line = None
       /\ Js.startsWith line "+" = true.
Proof.
  unfold Diff.mapLineToDiff. intros H.
  apply scanFrom_Some in H as (Hlt & line & Hnth & Hm & Hplus); [|lia].
  split; [lia|].
  exists line. unfold Diff.lineAt.
  destruct (Z.ltb_spec (p - 1) 0); [lia|].
  replace (p - 1 - 0) with (p - 1) in Hnth by lia.
  auto.
Qed.

(** C6: whenever the line-to-position mapping returns a position, the
    blob line at that 1-indexed position begins with [+], and so does not
    begin with [-]. *)
Theorem mapLineToDiff_position_is_added_line
  (targetLine : Z) (patchLines : list string) (p : Z) :
  Diff.mapLineToDiff targetLine patchLines = Some p ->
  1 <= p
  /\ exists line,
       Diff.lineAt patchLines (p - 1) = Some line
       /\ Js.startsWith line "+" = true
       /\ Js.startsWith line "-" = false.
Proof.
  intros H.
  apply mapLineToDiff_Some in H as (Hp & line & Hat & _ & Hplus).
  split; [exact Hp|].
  exists line. auto using startsWith_plus_not_minus.
Qed.

Lemma mapLineToDiff_position_is_added_line_witness :
  Diff.mapLineToDiff 2 (Js.split "010" exampleBlob) = Some 3
  /\ 1 <= 3
  /\ exists line,
       Diff.lineAt (Js.split "010" exampleBlob) (3 - 1) = Some line
       /\ Js.startsWith line "+" = true
       /\ Js.startsWith line "-" = false.
Proof.
  split; [reflexivity|].
  apply (mapLineToDiff_position_is_added_line 2 (Js.split "010" exampleBlob) 3).
  reflexivity.
Defined.

(** A line that holds a hunk header is a header to the loop, whatever
    else it holds and whatever the loop has seen: the counter restarts
    from the header's [newStart]. *)
Lemma step_header targetLine i line st newStart :
  Diff.hunkMatch line = Some newStart ->
  Diff.step targetLine i line st
  = Diff.Continue {| Diff.currentLine := Js.parseInt newStart - 1;
                     Diff.inHunk := true |}.
Proof. unfold Diff.step. intros ->. reflexivity. Qed.

(** The position of such a line is never returned. *)
Lemma mapLineToDiff_never_header targetLine patchLines p line newStart :
  Diff.lineAt patchLines (p - 1) = Some line ->
  Diff.hunkMatch line = Some newStart ->
  Diff.mapLineToDiff targetLine patchLines <> Some p.
Proof.
  intros Hat Hm H.
  apply mapLineToDiff_Some in H as (_ & line' & Hat' & Hm' & _).
  congruence.
Qed.

(** C9: for some blob, a line that is no header but holds a match of the
    header pattern inside it (here an added line quoting a header) is
    taken for a hunk header: the pattern matches it although not at its
    head, its turn of the loop resets the new-file line counter from the
    quoted [newStart] (50) whatever the state, its own position is
    returned for no target line, and the added line after it is found
    under line 50 instead of line 3. *)
Theorem quoted_header_is_taken_for_a_header :
  Js.startsWith quotingLine "+" = true
  /\ Diff.headerAt quotingLine = None
  /\ Diff.hunkMatch quotingLine = Some "50"
  /\ (forall targetLine i st,
        Diff.step targetLine i quotingLine st
        = Diff.Continue {| Diff.currentLine := 50 - 1; Diff.inHunk := true |})
  /\ Diff.lineAt quotingBlob (3 - 1) = Some quotingLine
  /\ (forall targetLine, Diff.mapLineToDiff targetLine quotingBlob <> Some 3)
  /\ Diff.mapLineToDiff 1 quotingBlob = Some 2
  /\ Diff.mapLineToDiff 2 quotingBlob = None
  /\ Diff.mapLineToDiff 3 quotingBlob = None
  /\ Diff.mapLineToDiff 50 quotingBlob = Some 4.
Proof.
  assert (Hm : Diff.hunkMatch quotingLine = Some "50") by reflexivity.
  repeat match goal with |- _ /\ _ => split end;
    try (intros targetLine i st;
         exact (step_header targetLine i quotingLine st "50" Hm));
    try reflexivity.
  intros targetLine.
  apply (mapLineToDiff_never_header targetLine quotingBlob 3
             quotingLine "50"); reflexivity.
Qed.

(** ** The matcher and the pattern *)

Lemma literal_iff lit : forall s r,
  Js.literal lit s = Some r <-> s = lit ++ r.
Proof.
  induction lit as [|a lit IH]; intros s r; cbn [Js.literal append].
  - split; [intros H; now inversion H|now intros ->].
  - destruct s as [|b s]; [split; discriminate|].
    destruct (Ascii.eqb_spec a b) as [<-|Hne].
    + rewrite IH. split; [now intros ->|intros H; now inversion H].
    + split; [discriminate|intros H; inversion H; congruence].
Qed.

Lemma spanDigits_spec s : forall d r,
  Js.spanDigits s = (d, r) ->
  s = d ++ r
  /\ HeaderPattern.allDigits d = true
  /\ HeaderPattern.noDigitAhead r.
Proof.
  induction s as [|c s IH]; intros d r; cbn [Js.spanDigits].
  - intros H; inversion H; subst. repeat split.
  - destruct (Js.isDigit c) eqn:Hc.
    + destruct (Js.spanDigits s) as [d' r'].
      intros H; inversion H; subst.
      destruct (IH d' r eq_refl) as (-> & Hd & Hr).
      cbn [append HeaderPattern.allDigits]. rewrite Hc, Hd. repeat split.
      exact Hr.
    + intros H; inversion H; subst. repeat split. exact Hc.
Qed.

Lemma spanDigits_append d : forall r,
  HeaderPattern.allDigits d = true ->
  HeaderPattern.noDigitAhead r ->
  Js.spanDigits (d ++ r) = (d, r).
Proof.
  induction d as [|c d IH]; intros r Hd Hr; cbn [append].
  - destruct r as [|c r]; [reflexivity|].
    cbn [Js.spanDigits HeaderPattern.noDigitAhead] in *. now rewrite Hr.
  - cbn [HeaderPattern.allDigits] in Hd.
    apply andb_true_iff in Hd as [Hc Hd].
    cbn [Js.spanDigits]. now rewrite Hc, (IH r Hd Hr).
Qed.

Lemma digits1_iff s d r :
  Js.digits1 s = Some (d, r) <->
  s = d ++ r /\ HeaderPattern.number d /\ HeaderPattern.noDigitAhead r.
Proof.
  unfold Js.digits1, HeaderPattern.number. split.
  - destruct (Js.spanDigits s) as [d' r'] eqn:E.
    apply spanDigits_spec in E as (-> & Hd & Hr).
    destruct d' as [|c d']; [discriminate|].
    intros H; inversion H; subst. repeat split; auto. discriminate.
  - intros (-> & (Hne & Hd) & Hr).
    rewrite (spanDigits_append d r Hd Hr).
    destruct d; [contradiction|reflexivity].
Qed.

(** The optional group is taken whenever it can be, and there is then no
    other way on: what follows it cannot start with a comma. *)
Lemma optCount_taken d r :
  HeaderPattern.number d -> HeaderPattern.noDigitAhead r ->
  Js.optCount ("," ++ d ++ r) = r.
Proof.
  intros Hd Hr. cbn [append Js.optCount].
  change (Ascii.eqb "," ",") with true. cbn iota.
  now rewrite (proj2 (digits1_iff (d ++ r) d r) (conj eq_refl (conj Hd Hr))).
Qed.

Lemma optCount_spec s :
  exists g, HeaderPattern.optionalCount g
            /\ s = g ++ Js.optCount s
            /\ (g = "" -> Js.optCount s = s).
Proof.
  unfold Js.optCount.
  destruct s as [|c r]; [exists ""; repeat split; now left|].
  destruct (Ascii.eqb_spec c ",") as [->|Hc];
    [|exists ""; repeat split; now left].
  destruct (Js.digits1 r) as [[d rest]|] eqn:E;
    [|exists ""; repeat split; now left].
  apply digits1_iff in E as (-> & Hd & Hr).
  exists ("," ++ d). split; [right; eauto|].
  split; [reflexivity|discriminate].
Qed.

(** The matcher finds a match at the head exactly when the pattern has
    one there, and the capture is then the same. *)
Theorem headerAt_iff s newStart :
  Diff.headerAt s = Some newStart <->
  exists rest, HeaderPattern.matchesAtHead s newStart rest.
Proof.
  unfold Diff.headerAt, HeaderPattern.matchesAtHead. split.
  - destruct (Js.literal "@@ -" s) as [r1|] eqn:E1; [|discriminate].
    apply literal_iff in E1 as ->.
    destruct (Js.digits1 r1) as [[oldStart r2]|] eqn:E2; [|discriminate].
    apply digits1_iff in E2 as (-> & Ha & _).
    destruct (optCount_spec r2) as (g1 & Hg1 & Hr2 & _).
    destruct (Js.literal " +" (Js.optCount r2)) as [r4|] eqn:E3;
      [|discriminate].
    apply literal_iff in E3. rewrite E3 in Hr2. subst r2.
    destruct (Js.digits1 r4) as [[c r5]|] eqn:E4; [|discriminate].
    apply digits1_iff in E4 as (-> & Hc & _).
    destruct (optCount_spec r5) as (g2 & Hg2 & Hr5 & _).
    destruct (Js.literal " @@" (Js.optCount r5)) as [rest|] eqn:E5;
      [|discriminate].
    apply literal_iff in E5. rewrite E5 in Hr5. subst r5.
    intros H; inversion H; subst c.
    exists rest, oldStart, g1, g2.
    repeat split; auto; try apply Ha; apply Hc.
  - intros (rest & oldStart & g1 & g2 & Ha & Hg1 & Hc & Hg2 & ->).
    rewrite (proj2 (literal_iff "@@ -" _ _) eq_refl).
    assert (Hstep : forall d g tail (lit : string) c0 lit',
               lit = String c0 lit' -> Js.isDigit c0 = false ->
               Ascii.eqb c0 "," = false ->
               HeaderPattern.number d -> HeaderPattern.optionalCount g ->
               Js.digits1 (d ++ g ++ lit ++ tail) = Some (d, g ++ lit ++ tail)
               /\ Js.optCount (g ++ lit ++ tail) = lit ++ tail).
    { intros d g tail lit c0 lit' -> Hc0 Hcomma Hd Hg.
      destruct Hg as [->|(d' & -> & Hd')].
      - split.
        + apply digits1_iff. repeat split; auto; apply Hd.
        + cbn [append Js.optCount]. now rewrite Hcomma.
      - split.
        + apply digits1_iff. repeat split; auto; apply Hd.
        + change ("," ++ d' ++ String c0 lit' ++ tail)
          with ("," ++ d' ++ (String c0 lit' ++ tail)). apply optCount_taken; auto. }
    destruct (Hstep oldStart g1 (newStart ++ g2 ++ " @@" ++ rest) " +"
                " "%char "+" eq_refl eq_refl eq_refl Ha Hg1) as [-> ->].
    rewrite (proj2 (literal_iff " +" _ _) eq_refl).
    destruct (Hstep newStart g2 rest " @@" " "%char "@@" eq_refl eq_refl
                eq_refl Hc Hg2) as [-> ->].
    now rewrite (proj2 (literal_iff " @@" _ _) eq_refl).
Qed.

(** The search takes the leftmost offset at which there is a match. *)
Theorem hunkMatch_iff line newStart :
  Diff.hunkMatch line = Some newStart <->
  exists before after,
    line = before ++ after
    /\ Diff.headerAt after = Some newStart
    /\ forall before' after',
         line = before' ++ after' ->
         (String.length before' < String.length before)%nat ->
         Diff.headerAt after' = None.
Proof.
  induction line as [|c line IH]; cbn [Diff.hunkMatch].
  - split.
    + destruct (Diff.headerAt "") eqn:E; [|discriminate].
      intros H; inversion H; subst. exists "", "".
      repeat split; auto. intros ? ? _ Hlt. cbn in Hlt. lia.
    + intros ([|? ?] & after & Heq & Hat & _); [|discriminate].
      cbn in Heq. subst after. now rewrite Hat.
  - destruct (Diff.headerAt (String c line)) as [d|] eqn:E.
    + split.
      * intros H; inversion H; subst. exists "", (String c line).
        repeat split; auto. intros ? ? _ Hlt. cbn in Hlt. lia.
      * intros ([|b before] & after & Heq & Hat & Hleft).
        -- cbn in Heq. subst after. congruence.
        -- specialize (Hleft "" (String c line) eq_refl).
           cbn in Hleft. rewrite Hleft in E by lia. discriminate.
    + rewrite IH. split.
      * intros (before & after & -> & Hat & Hleft).
        exists (String c before), after. repeat split; auto.
        intros [|b before'] after' Heq Hlt.
        -- cbn in Heq. subst after'. exact E.
        -- cbn in Heq. inversion Heq; subst.
           apply (Hleft before' after' H1). cbn in Hlt. lia.
      * intros ([|b before] & after & Heq & Hat & Hleft).
        -- cbn in Heq. subst after. congruence.
        -- cbn in Heq. inversion Heq; subst.
           exists before, after. repeat split; auto.
           intros before' after' Heq' Hlt.
           apply (Hleft (String b before') after'); [now rewrite Heq'|].
           cbn. lia.
Qed.

(** ** Facts about the string primitives *)

Lemma unitsOf_pos c : 1 <= Js.unitsOf c <= 2.
Proof. unfold Js.unitsOf. destruct (N_of_ascii c <? 240)%N; lia. Qed.

Lemma lenFrom_nonneg s : forall pending, 0 <= Js.lenFrom pending s.
Proof.
  induction s as [|c r IH]; intros pending; cbn [Js.lenFrom]; [lia|].
  destruct (Js.continues pending c); [apply IH|].
  pose proof (unitsOf_pos c). pose proof (IH (Js.followers c)). lia.
Qed.

Lemma continues_0 c : Js.continues 0 c = false.
Proof. reflexivity. Qed.

Lemma len_cons c r :
  Js.len (String c r) = Js.unitsOf c + Js.lenFrom (Js.followers c) r.
Proof. reflexivity. Qed.

Lemma len_zero s : (Js.len s =? 0) = negb (Js.truthy s).
Proof.
  destruct s as [|c r]; [reflexivity|].
  rewrite len_cons. cbn [Js.truthy String.eqb negb].
  pose proof (unitsOf_pos c). pose proof (lenFrom_nonneg r (Js.followers c)).
  apply Z.eqb_neq. lia.
Qed.

Lemma continues_head pending c :
  Js.isContinuation c = false -> Js.continues pending c = false.
Proof. intros H. unfold Js.continues. rewrite H. apply andb_false_r. Qed.

Lemma lenFrom_start pending b :
  startsCharacter b -> Js.lenFrom pending b = Js.len b.
Proof.
  destruct b as [|c r]; [reflexivity|]. cbn [startsCharacter]. intros H.
  unfold Js.len. cbn [Js.lenFrom].
  now rewrite (continues_head pending c H), (continues_head 0 c H).
Qed.

(** Lengths add up where the second string begins a character. *)
Lemma lenFrom_append a b : forall pending,
  startsCharacter b ->
  Js.lenFrom pending (a ++ b) = Js.lenFrom pending a + Js.len b.
Proof.
  induction a as [|c r IH]; intros pending Hb.
  - cbn [append Js.lenFrom]. now rewrite lenFrom_start.
  - cbn [append Js.lenFrom].
    destruct (Js.continues pending c); rewrite IH by exact Hb; lia.
Qed.

Lemma len_append a b :
  startsCharacter b -> Js.len (a ++ b) = Js.len a + Js.len b.
Proof. apply lenFrom_append. Qed.

Lemma isContinuation_low x :
  Js.isContinuation (ascii_of_N (128 + x mod 64)) = true.
Proof.
  unfold Js.isContinuation.
  assert (Hx : (x mod 64 < 64)%N) by (apply N.mod_lt; discriminate).
  rewrite N_ascii_embedding by lia.
  apply andb_true_iff. split; [apply N.leb_le|apply N.ltb_lt].
  - apply N.le_add_r.
  - lia.
Qed.

(** The high surrogate left by a cut is one code unit, whatever it is
    read after, and nothing of what follows it belongs to it. *)
Lemma highSurrogate_shape c r :
  exists x y,
    Js.highSurrogate c r = String (ascii_of_N 237) (String x (String y ""))
    /\ Js.isContinuation x = true /\ Js.isContinuation y = true.
Proof.
  unfold Js.highSurrogate. cbv zeta.
  eexists _, _. split; [reflexivity|].
  split; apply isContinuation_low.
Qed.

Lemma takeFrom_stop pending n b :
  n <= 0 -> startsCharacter b -> Js.takeFrom pending n b = "".
Proof.
  destruct b as [|c r]; [reflexivity|]. cbn [startsCharacter].
  intros Hn Hc. cbn [Js.takeFrom]. rewrite (continues_head pending c Hc).
  destruct (Z.leb_spec n 0); [reflexivity|lia].
Qed.

(** A string within [n] code units is taken whole. *)
Lemma takeFrom_all s : forall pending n,
  Js.lenFrom pending s <= n -> Js.takeFrom pending n s = s.
Proof.
  induction s as [|c r IH]; intros pending n; [reflexivity|].
  cbn [Js.lenFrom Js.takeFrom].
  destruct (Js.continues pending c); intros H; [now rewrite IH|].
  pose proof (unitsOf_pos c). pose proof (lenFrom_nonneg r (Js.followers c)).
  destruct (Z.leb_spec n 0); [lia|].
  destruct (Z.leb_spec (Js.unitsOf c) n); [|lia].
  rewrite IH by lia. reflexivity.
Qed.

(** What is taken of a longer string is [n] code units long, and taking
    again from it, whatever is appended, gives it back. *)
Lemma takeFrom_cut s : forall pending n,
  0 <= n <= Js.lenFrom pending s ->
  Js.lenFrom pending (Js.takeFrom pending n s) = n
  /\ forall b, startsCharacter b ->
       Js.takeFrom pending n (Js.takeFrom pending n s ++ b)
       = Js.takeFrom pending n s.
Proof.
  induction s as [|c r IH]; intros pending n.
  - cbn [Js.lenFrom Js.takeFrom append]. intros Hn. split; [lia|].
    intros b Hb. apply takeFrom_stop; [lia|exact Hb].
  - cbn [Js.lenFrom Js.takeFrom].
    destruct (Js.continues pending c) eqn:Hcont.
    + intros Hn. destruct (IH (Nat.pred pending) n Hn) as [Hlen Hagain].
      cbn [Js.lenFrom append Js.takeFrom]. rewrite Hcont.
      split; [exact Hlen|]. intros b Hb. now rewrite Hagain.
    + intros Hn. pose proof (unitsOf_pos c) as Hu.
      destruct (Z.leb_spec n 0) as [H0|Hpos].
      * cbn [Js.lenFrom append]. split; [lia|].
        intros b Hb. apply takeFrom_stop; [lia|exact Hb].
      * destruct (Z.leb_spec (Js.unitsOf c) n) as [Hfit|Hsplit].
        -- destruct (IH (Js.followers c) (n - Js.unitsOf c)) as [Hlen Hagain];
             [lia|].
           cbn [Js.lenFrom append Js.takeFrom]. rewrite Hcont.
           split; [lia|]. intros b Hb.
           destruct (Z.leb_spec n 0); [lia|].
           destruct (Z.leb_spec (Js.unitsOf c) n); [|lia].
           now rewrite Hagain.
        -- assert (Hn1 : n = 1) by lia. subst n.
           destruct (highSurrogate_shape c r) as (x & y & -> & Hx & Hy).
           assert (H237 : Js.continues pending (ascii_of_N 237) = false)
             by (apply continues_head; reflexivity).
           cbn [Js.lenFrom append Js.takeFrom]. rewrite H237.
           change (Js.followers (ascii_of_N 237)) with 2%nat.
           change (Js.unitsOf (ascii_of_N 237)) with 1.
           unfold Js.continues. rewrite Hx, Hy. cbn.
           split; [reflexivity|]. intros b Hb.
           rewrite (takeFrom_stop 0 0 b) by (lia || exact Hb).
           reflexivity.
Qed.

Lemma len_substring0 n s :
  0 <= n <= Js.len s -> Js.len (Js.substring0 n s) = n.
Proof. intros H. now apply (takeFrom_cut s 0 n). Qed.

Lemma substring0_all n s : Js.len s <= n -> Js.substring0 n s = s.
Proof. apply takeFrom_all. Qed.

Lemma substring0_again n s b :
  0 <= n <= Js.len s -> startsCharacter b ->
  Js.substring0 n (Js.substring0 n s ++ b) = Js.substring0 n s.
Proof. intros H. now apply (takeFrom_cut s 0 n). Qed.

Lemma truthy_false s : Js.truthy s = false <-> s = "".
Proof. destruct s; cbn; split; intros H; try reflexivity; discriminate. Qed.

(** [":"] is no white space, and white space is no [":"]. *)
Lemma isSpace_not_colon c : Js.isSpace c = true -> Ascii.eqb c ":" = false.
Proof.
  destruct (Ascii.eqb_spec c ":") as [->|]; [|reflexivity].
  vm_compute. discriminate.
Qed.

(** [trimEnd] one character at a time. *)
Lemma trimEnd_cons c r :
  Js.trimEnd (String c r)
  = if Js.truthy (Js.trimEnd r) || negb (Js.isSpace c)
    then String c (Js.trimEnd r) else "".
Proof.
  cbn [Js.trimEnd].
  destruct (Js.trimEnd r); cbn [Js.truthy String.eqb negb orb];
    [destruct (Js.isSpace c)|]; reflexivity.
Qed.

Lemma split_nonempty sep x : Js.split sep x <> [].
Proof.
  destruct x as [|c r]; cbn [Js.split]; [discriminate|].
  destruct (Ascii.eqb c sep); [discriminate|].
  destruct (Js.split sep r); discriminate.
Qed.

Lemma hd_split_colon x : hd "" (Js.split ":" x) = Rules.beforeColon x.
Proof.
  induction x as [|c r IH]; cbn [Js.split Rules.beforeColon]; [reflexivity|].
  destruct (Ascii.eqb c ":"); [reflexivity|].
  destruct (Js.split ":" r) as [|p ps] eqn:E.
  - exfalso. exact (split_nonempty _ _ E).
  - cbn [hd] in *. now rewrite IH.
Qed.

Lemma includes_colon_cons c r :
  Js.includes (String c r) ":" = Ascii.eqb c ":" || Js.includes r ":".
Proof.
  cbn [Js.includes Js.isPrefix].
  rewrite andb_true_r, Ascii.eqb_sym. reflexivity.
Qed.

Lemma includes_colon_trimStart x :
  Js.includes (Js.trimStart x) ":" = Js.includes x ":".
Proof.
  induction x as [|c r IH]; [reflexivity|].
  cbn [Js.trimStart].
  destruct (Js.isSpace c) eqn:Hc; [|reflexivity].
  rewrite includes_colon_cons, (isSpace_not_colon _ Hc). exact IH.
Qed.

Lemma includes_colon_trimEnd x :
  Js.includes (Js.trimEnd x) ":" = Js.includes x ":".
Proof.
  induction x as [|c r IH]; [reflexivity|].
  rewrite trimEnd_cons, (includes_colon_cons c r), <- IH.
  destruct (Js.truthy (Js.trimEnd r)) eqn:Ht; cbn [orb].
  - apply includes_colon_cons.
  - apply truthy_false in Ht. rewrite Ht.
    destruct (Js.isSpace c) eqn:Hc; cbn [negb].
    + rewrite (isSpace_not_colon _ Hc). reflexivity.
    + apply includes_colon_cons.
Qed.

Lemma includes_colon_trim x : Js.includes (Js.trim x) ":" = Js.includes x ":".
Proof.
  unfold Js.trim. now rewrite includes_colon_trimEnd, includes_colon_trimStart.
Qed.

Lemma beforeColon_trimStart x :
  Rules.beforeColon (Js.trimStart x) = Js.trimStart (Rules.beforeColon x).
Proof.
  induction x as [|c r IH]; [reflexivity|].
  cbn [Js.trimStart Rules.beforeColon].
  destruct (Js.isSpace c) eqn:Hc.
  - rewrite (isSpace_not_colon _ Hc). cbn [Js.trimStart]. now rewrite Hc.
  - cbn [Rules.beforeColon].
    destruct (Ascii.eqb c ":"); [reflexivity|].
    cbn [Js.trimStart]. now rewrite Hc.
Qed.

Lemma trimEnd_beforeColon_trimEnd y :
  Js.trimEnd (Rules.beforeColon (Js.trimEnd y)) = Js.trimEnd (Rules.beforeColon y).
Proof.
  induction y as [|c r IH]; [reflexivity|].
  rewrite trimEnd_cons. cbn [Rules.beforeColon].
  destruct (Ascii.eqb c ":") eqn:Hcolon.
  - assert (Hs : Js.isSpace c = false).
    { destruct (Js.isSpace c) eqn:Hc; [|reflexivity].
      rewrite (isSpace_not_colon _ Hc) in Hcolon. discriminate. }
    rewrite Hs, orb_true_r. cbn [Rules.beforeColon]. now rewrite Hcolon.
  - rewrite (trimEnd_cons c (Rules.beforeColon r)), <- IH.
    destruct (Js.truthy (Js.trimEnd r) || negb (Js.isSpace c)) eqn:Hk.
    + cbn [Rules.beforeColon]. rewrite Hcolon, trimEnd_cons.
      destruct (Js.truthy (Js.trimEnd r)) eqn:Ht; cbn [orb] in *.
      * reflexivity.
      * rewrite Hk. rewrite orb_true_r. reflexivity.
    + apply orb_false_iff in Hk as [Ht Hc].
      apply truthy_false in Ht. rewrite Ht, Hc. reflexivity.
Qed.

Lemma trimStart_headNotSpace x : headNotSpace (Js.trimStart x).
Proof.
  induction x as [|c r IH]; [exact I|].
  cbn [Js.trimStart]. destruct (Js.isSpace c) eqn:Hc; [exact IH|exact Hc].
Qed.

Lemma trimStart_id y : headNotSpace y -> Js.trimStart y = y.
Proof.
  destruct y as [|c r]; [reflexivity|].
  cbn [headNotSpace Js.trimStart]. now intros ->.
Qed.

Lemma trimEnd_headNotSpace y : headNotSpace y -> headNotSpace (Js.trimEnd y).
Proof.
  destruct y as [|c r]; [intros; exact I|].
  cbn [headNotSpace]. intros Hc. rewrite trimEnd_cons, Hc, orb_true_r.
  exact Hc.
Qed.

(** The key of a trimmed line is the key of the line. *)
Lemma keyOf_trim x : Suggestion.keyOf (Js.trim x) = Suggestion.keyOf x.
Proof.
  unfold Suggestion.keyOf. rewrite !hd_split_colon.
  unfold Js.trim.
  rewrite <- !beforeColon_trimStart.
  rewrite (trimStart_id (Js.trimEnd (Js.trimStart x)))
    by (apply trimEnd_headNotSpace, trimStart_headNotSpace).
  apply trimEnd_beforeColon_trimEnd.
Qed.

(** What [trim] keeps is a part of the string: a substring of the trimmed
    string is a substring of the string. *)
Lemma includes_trimStart_sub x sub :
  Js.includes (Js.trimStart x) sub = true -> Js.includes x sub = true.
Proof.
  induction x as [|c r IH]; [auto|].
  cbn [Js.trimStart].
  destruct (Js.isSpace c); [|auto].
  intros H. cbn [Js.includes]. rewrite (IH H). apply orb_true_r.
Qed.

Lemma isPrefix_trimEnd p : forall r,
  Js.isPrefix p (Js.trimEnd r) = true -> Js.isPrefix p r = true.
Proof.
  induction p as [|a p' IH]; intros r; [reflexivity|].
  destruct r as [|c r']; [auto|].
  rewrite trimEnd_cons.
  destruct (Js.truthy (Js.trimEnd r') || negb (Js.isSpace c));
    cbn [Js.isPrefix]; [|discriminate].
  intros H. apply andb_true_iff in H as [-> H].
  now rewrite (IH _ H).
Qed.

Lemma includes_nil x : Js.includes x "" = true.
Proof. destruct x; reflexivity. Qed.

Lemma includes_trimEnd_sub x sub :
  Js.includes (Js.trimEnd x) sub = true -> Js.includes x sub = true.
Proof.
  induction x as [|c r IH]; [auto|].
  rewrite trimEnd_cons.
  destruct (Js.truthy (Js.trimEnd r) || negb (Js.isSpace c)).
  - cbn [Js.includes]. intros H.
    apply orb_true_iff in H as [H|H].
    + assert (Hp : Js.isPrefix sub (String c r) = true).
      { destruct sub as [|a sub']; [reflexivity|].
        cbn [Js.isPrefix] in *.
        apply andb_true_iff in H as [-> H].
        now rewrite (isPrefix_trimEnd _ _ H). }
      now rewrite Hp.
    + rewrite (IH H). apply orb_true_r.
  - destruct sub as [|a sub']; [intros _; apply includes_nil|].
    cbn. discriminate.
Qed.

Lemma includes_trim_sub x sub :
  Js.includes (Js.trim x) sub = true -> Js.includes x sub = true.
Proof.
  unfold Js.trim. intros H.
  now apply includes_trimStart_sub, includes_trimEnd_sub.
Qed.

(** Changing the case of a letter does not make or unmake white space. *)
Lemma isSpace_lowerChar c : Js.isSpace (Js.lowerChar c) = Js.isSpace c.
Proof. destruct c as [[] [] [] [] [] [] [] []]; reflexivity. Qed.

Lemma truthy_mapChars f x : Js.truthy (Js.mapChars f x) = Js.truthy x.
Proof. destruct x; reflexivity. Qed.

Lemma toLowerCase_trimStart x :
  Js.toLowerCase (Js.trimStart x) = Js.trimStart (Js.toLowerCase x).
Proof.
  unfold Js.toLowerCase.
  induction x as [|c r IH]; [reflexivity|].
  cbn [Js.trimStart Js.mapChars]. rewrite isSpace_lowerChar.
  destruct (Js.isSpace c); [exact IH|reflexivity].
Qed.

Lemma toLowerCase_trimEnd x :
  Js.toLowerCase (Js.trimEnd x) = Js.trimEnd (Js.toLowerCase x).
Proof.
  unfold Js.toLowerCase.
  induction x as [|c r IH]; [reflexivity|].
  cbn [Js.mapChars]. rewrite !trimEnd_cons, <- IH, truthy_mapChars,
    isSpace_lowerChar.
  destruct (Js.truthy (Js.trimEnd r) || negb (Js.isSpace c)); reflexivity.
Qed.

Lemma toLowerCase_trim x :
  Js.toLowerCase (Js.trim x) = Js.trim (Js.toLowerCase x).
Proof.
  unfold Js.trim. now rewrite toLowerCase_trimEnd, toLowerCase_trimStart.
Qed.

(** A phrase found in the trimmed suggestion is found in the suggestion. *)
Lemma advisory_trim suggestion :
  existsb (fun indicator =>
             Js.includes (Js.toLowerCase (Js.trim suggestion)) indicator)
    Suggestion.adviceIndicators = true ->
  Rules.advisory suggestion = true.
Proof.
  unfold Rules.advisory. rewrite toLowerCase_trim.
  induction Suggestion.adviceIndicators as [|ind l IH]; [auto|].
  cbn [existsb]. intros H. apply orb_true_iff in H as [H|H].
  - now rewrite (includes_trim_sub _ _ H).
  - rewrite (IH H). apply orb_true_r.
Qed.

Lemma trim_nil_of_nil x : x = "" -> Js.trim x = "".
Proof. now intros ->. Qed.

Lemma includes_colon_truthy x : Js.includes x ":" = true -> Js.truthy x = true.
Proof. destruct x; [discriminate|reflexivity]. Qed.

(** ** SuggestionValidator *)

(** C8: for a suggestion and an original line that pass rules 1 to 5 and
    both hold a colon, the suggestion is admissible if and only if the
    substrings before the first colon, trimmed, are equal; so
    ["timeout-minutes: 10"] is admissible against ["timeout-minutes: 5"]
    and ["runs-on: ubuntu-latest"] is not. *)
Theorem isValidSuggestion_key_rule :
  (forall suggestion original : string,
      Rules.passes1to5 suggestion (Some original) = true ->
      Js.includes suggestion ":" = true ->
      Js.includes original ":" = true ->
      (Suggestion.isValidSuggestion suggestion (Some original) = true
       <-> Rules.key suggestion = Rules.key original))
  /\ Suggestion.isValidSuggestion "timeout-minutes: 10"
       (Some "timeout-minutes: 5") = true
  /\ Suggestion.isValidSuggestion "runs-on: ubuntu-latest"
       (Some "timeout-minutes: 5") = false.
Proof.
  split; [|split; reflexivity].
  intros suggestion original Hpass Hs Ho.
  unfold Rules.passes1to5 in Hpass.
  apply andb_true_iff in Hpass as [Hpass H45].
  apply andb_true_iff in Hpass as [H1 H2].
  apply andb_true_iff in H45 as [H4 H5].
  apply negb_true_iff in H1, H2, H4, H5.
  unfold Rules.emptySuggestion in H1. unfold Rules.multiLine in H2.
  unfold Rules.unchanged in H4.
  unfold Suggestion.isValidSuggestion.
  rewrite len_zero.
  assert (Ht : Js.truthy (Js.trim suggestion) = true).
  { unfold Js.truthy. now rewrite H1. }
  rewrite (includes_colon_truthy _ Hs), Ht. cbn [negb orb].
  rewrite H2, (includes_colon_truthy _ Ho). cbn [negb].
  rewrite H4.
  destruct (existsb _ Suggestion.adviceIndicators) eqn:Hadv.
  { apply advisory_trim in Hadv. congruence. }
  rewrite !includes_colon_trim, Hs, Ho, !keyOf_trim. cbn [andb].
  unfold Suggestion.keyOf. rewrite !hd_split_colon.
  fold (Rules.key original). fold (Rules.key suggestion).
  destruct (String.eqb_spec (Rules.key original) (Rules.key suggestion))
    as [E|E]; cbn [negb]; split; intros H; try congruence.
Qed.

Lemma isValidSuggestion_key_rule_witness :
  Suggestion.isValidSuggestion "timeout-minutes: 10"
    (Some "timeout-minutes: 5") = true
  <-> Rules.key "timeout-minutes: 10" = Rules.key "timeout-minutes: 5".
Proof.
  apply (proj1 isValidSuggestion_key_rule
           "timeout-minutes: 10" "timeout-minutes: 5"); reflexivity.
Defined.

(** C10: against an original line that is the empty string every
    suggestion is inadmissible, as it is against an unknown original: the
    check of the original tests falsiness.  The empty string is the
    content of a blank added line: position 2 of [blankLineBlob], to which
    new-file line 1 maps. *)
Theorem isValidSuggestion_empty_original :
  (forall suggestion : string,
      Suggestion.isValidSuggestion suggestion (Some "") = false
      /\ Suggestion.isValidSuggestion suggestion None = false)
  /\ Diff.mapLineToDiff 1 blankLineBlob = Some 2
  /\ Diff.getOriginalLineContent 2 blankLineBlob = Some "".
Proof.
  split; [|split; reflexivity].
  intros suggestion. unfold Suggestion.isValidSuggestion.
  destruct (negb (Js.truthy suggestion) || (Js.len (Js.trim suggestion) =? 0));
    [auto|].
  destruct (Js.includes suggestion Suggestion.LF
            || Js.includes suggestion Suggestion.CR); auto.
Qed.

(** ** CommentSynthesizer *)

Lemma append_assoc (a b c : string) : (a ++ b) ++ c = a ++ b ++ c.
Proof. induction a as [|x a IH]; cbn; [reflexivity|now rewrite IH]. Qed.

Lemma append_nil_r (a : string) : a ++ "" = a.
Proof. induction a as [|x a IH]; cbn; [reflexivity|now rewrite IH]. Qed.

Lemma truthy_append_cons a c b : Js.truthy (a ++ String c b) = true.
Proof. destruct a; reflexivity. Qed.

Lemma truthy_header issue : Js.truthy (Body.header issue) = true.
Proof. unfold Body.header. apply truthy_append_cons. Qed.

Lemma truthy_suggestionBlock s : Js.truthy (Synth.suggestionBlock s) = true.
Proof. reflexivity. Qed.

(** The validity flag of the loop is the validator's verdict on the
    suggestion, and false where there is none. *)
Lemma suggestionIsValid_eq issue originalLine :
  Synth.suggestionIsValid issue originalLine
  = match ReviewIssue.suggestion issue with
    | Some s => Suggestion.isValidSuggestion s originalLine
    | None => false
    end.
Proof.
  unfold Synth.suggestionIsValid.
  destruct (ReviewIssue.suggestion issue) as [s|]; [|reflexivity].
  destruct s; reflexivity.
Qed.

(** The assembled body: the prose, and the block after it exactly when
    the flag is set. *)
Lemma buildBody_eq issue valid :
  Synth.buildBody issue valid
  = if valid then Body.withBlock issue (Synth.suggestionText issue)
    else Body.prose issue.
Proof.
  unfold Synth.buildBody, Synth.sections, Body.withBlock, Body.prose.
  fold (Body.header issue).
  cbn [filter]. rewrite truthy_header.
  change (Js.truthy "") with false. cbn iota.
  destruct (Js.truthy (ReviewIssue.message issue)); destruct valid;
    rewrite ?truthy_suggestionBlock; change (Js.truthy "") with false;
    cbn iota; unfold Js.join; cbn [String.concat];
    rewrite ?append_assoc, ?append_nil_r; reflexivity.
Qed.

Lemma commentFor_emittedFor filePath patchLines issue c :
  Synth.commentFor filePath patchLines issue = Some c ->
  emittedFor filePath patchLines issue c.
Proof.
  unfold Synth.commentFor, emittedFor.
  destruct (Diff.mapLineToDiff (ReviewIssue.line issue) patchLines) as [p|];
    [|discriminate].
  intros H. inversion H; subst c; clear H.
  cbn [ReviewComment.line ReviewComment.path ReviewComment.body].
  repeat split.
  rewrite buildBody_eq, suggestionIsValid_eq. unfold Synth.suggestionText.
  destruct (ReviewIssue.suggestion issue); reflexivity.
Qed.

Lemma commentFor_mapped filePath patchLines issue p :
  Diff.mapLineToDiff (ReviewIssue.line issue) patchLines = Some p ->
  exists c, Synth.commentFor filePath patchLines issue = Some c.
Proof. unfold Synth.commentFor. intros ->. eauto. Qed.

Lemma pushComments_In filePath patchLines issues c :
  In c (Synth.pushComments filePath patchLines issues) <->
  exists issue,
    In issue issues /\ Synth.commentFor filePath patchLines issue = Some c.
Proof.
  induction issues as [|i rest IH]; cbn [Synth.pushComments].
  - split; [intros []|intros (? & [] & _)].
  - destruct (Synth.commentFor filePath patchLines i) as [ci|] eqn:E.
    + cbn [In]. rewrite IH. split.
      * intros [<-|(issue & Hin & Hc)];
          [exists i; split; [now left|exact E]
          |exists issue; split; [now right|exact Hc]].
      * intros (issue & [<-|Hin] & Hc);
          [left; congruence|right; eauto].
    + rewrite IH. split.
      * intros (issue & Hin & Hc). exists issue. split; [now right|exact Hc].
      * intros (issue & [<-|Hin] & Hc); [congruence|eauto].
Qed.

(** *** Where the opening fence of a block can occur *)

Lemma occurs_append c a b : occurs c (a ++ b) = occurs c a || occurs c b.
Proof.
  induction a as [|x a IH]; cbn [append occurs]; [reflexivity|].
  now rewrite IH, orb_assoc.
Qed.

Lemma isPrefix_occurs c sub : forall x,
  Js.isPrefix sub x = true -> occurs c sub = true -> occurs c x = true.
Proof.
  induction sub as [|a sub IH]; intros x Hp Hc; [discriminate|].
  destruct x as [|b x]; [discriminate|].
  cbn [Js.isPrefix occurs] in *.
  apply andb_true_iff in Hp as [Hab Hp].
  apply Ascii.eqb_eq in Hab as <-.
  apply orb_true_iff in Hc as [->|Hc]; [reflexivity|].
  rewrite (IH _ Hp Hc). apply orb_true_r.
Qed.

Lemma includes_occurs c sub x :
  Js.includes x sub = true -> occurs c sub = true -> occurs c x = true.
Proof.
  induction x as [|b x IH]; cbn [Js.includes]; intros H Hc.
  - rewrite orb_false_r in H. exact (isPrefix_occurs c sub _ H Hc).
  - apply orb_true_iff in H as [H|H].
    + exact (isPrefix_occurs c sub _ H Hc).
    + cbn [occurs]. rewrite (IH H Hc). apply orb_true_r.
Qed.

Lemma isPrefix_append sub rest : Js.isPrefix sub (sub ++ rest) = true.
Proof.
  induction sub as [|a sub IH]; cbn [append Js.isPrefix]; [reflexivity|].
  now rewrite Ascii.eqb_refl, IH.
Qed.

Lemma includes_append_r x y sub :
  Js.includes y sub = true -> Js.includes (x ++ y) sub = true.
Proof.
  intros H. induction x as [|a x IH]; cbn [append Js.includes]; [exact H|].
  rewrite IH. apply orb_true_r.
Qed.

(** A substring found in [a ++ c :: b] that does not hold [c] lies in [a]
    or in [b]. *)
Lemma isPrefix_before c b sub : forall a,
  Js.isPrefix sub (a ++ String c b) = true ->
  occurs c sub = false ->
  Js.isPrefix sub a = true.
Proof.
  induction sub as [|x sub IH]; intros a Hp Hc; [reflexivity|].
  cbn [occurs] in Hc. apply orb_false_iff in Hc as [Hcx Hc].
  destruct a as [|y a]; cbn [append Js.isPrefix] in *.
  - apply andb_true_iff in Hp as [Hxc _].
    rewrite Ascii.eqb_sym in Hxc. congruence.
  - apply andb_true_iff in Hp as [-> Hp].
    exact (IH _ Hp Hc).
Qed.

Lemma includes_split c b sub : forall a,
  Js.includes (a ++ String c b) sub = true ->
  occurs c sub = false ->
  Js.includes a sub = true \/ Js.includes b sub = true.
Proof.
  induction a as [|y a IH]; intros H Hc.
  - change ("" ++ String c b) with (String c b) in H.
    cbn [Js.includes] in H. apply orb_true_iff in H as [H|H]; [|now right].
    left. cbn [Js.includes].
    rewrite (isPrefix_before c b sub "" H Hc). reflexivity.
  - change (String y a ++ String c b) with (String y (a ++ String c b)) in H.
    cbn [Js.includes] in H. apply orb_true_iff in H as [H|H].
    + left. cbn [Js.includes].
      rewrite (isPrefix_before c b sub (String y a) H Hc). reflexivity.
    + destruct (IH H Hc) as [Ha|Hb]; [left|now right].
      cbn [Js.includes]. rewrite Ha. apply orb_true_r.
Qed.

(** No lower-case [s] in the header of a body: the markers hold none, and
    the label is in upper case. *)
Lemma occurs_s_toUpperCase x : occurs "s" (Js.toUpperCase x) = false.
Proof.
  unfold Js.toUpperCase.
  induction x as [|c x IH]; [reflexivity|].
  cbn [Js.mapChars occurs]. rewrite IH, orb_false_r.
  destruct c as [[] [] [] [] [] [] [] []]; reflexivity.
Qed.

Lemma occurs_s_header issue : occurs "s" (Body.header issue) = false.
Proof.
  unfold Body.header, Synth.categoryLabel, Synth.getSeverityEmoji.
  rewrite !occurs_append.
  apply orb_false_iff. split; [|apply orb_false_iff; split; [reflexivity|]].
  - repeat match goal with
           | |- context [if ?b then _ else _] => destruct b
           end; reflexivity.
  - destruct (Js.truthy (ReviewIssue.category issue)); [|reflexivity].
    rewrite !occurs_append, occurs_s_toUpperCase. reflexivity.
Qed.

(** The prose of a body holds the fence only where the message does. *)
Lemma includes_prose_fence issue :
  Js.includes (ReviewIssue.message issue) Body.fence = false ->
  Js.includes (Body.prose issue) Body.fence = false.
Proof.
  intros Hm.
  assert (Hh : Js.includes (Body.header issue) Body.fence = false).
  { destruct (Js.includes (Body.header issue) Body.fence) eqn:E;
      [|reflexivity].
    apply (includes_occurs "s") in E; [|reflexivity].
    now rewrite occurs_s_header in E. }
  unfold Body.prose.
  destruct (Js.truthy (ReviewIssue.message issue)).
  - destruct (Js.includes (Body.header issue ++ _) Body.fence) eqn:E;
      [|reflexivity].
    apply includes_split in E; [|reflexivity].
    destruct E; congruence.
  - now rewrite append_nil_r.
Qed.

Lemma includes_self_append sub rest : Js.includes (sub ++ rest) sub = true.
Proof.
  destruct (sub ++ rest) eqn:E; cbn [Js.includes];
    rewrite <- E, isPrefix_append; reflexivity.
Qed.

(** A body with a block holds the fence. *)
Lemma includes_withBlock_fence issue s :
  Js.includes (Body.withBlock issue s) Body.fence = true.
Proof.
  unfold Body.withBlock, Synth.suggestionBlock.
  do 5 apply includes_append_r.
  apply includes_self_append.
Qed.

(** C7, as stated, fails for a message that quotes a block: the message
    is copied into the body as it is, so the body of the comment holds
    the opening fence of a suggestion block although the issue carries
    no suggestion, and also although its suggestion fails validation. *)
Lemma message_block_not_validated :
  (exists c,
      Synth.createReviewComments "ci.yml" [fencedMessageIssue None]
        exampleBlob = [c]
      /\ ReviewComment.line c = 3
      /\ Js.includes (ReviewComment.body c) Body.fence = true)
  /\ (exists c,
        Synth.createReviewComments "ci.yml"
          [fencedMessageIssue (Some "You should add a constant here")]
          exampleBlob = [c]
        /\ ReviewComment.line c = 3
        /\ Suggestion.isValidSuggestion "You should add a constant here"
             (Diff.getOriginalLineContent 3 (Js.split "010" exampleBlob))
           = false
        /\ Js.includes (ReviewComment.body c) Body.fence = true).
Proof.
  split; eexists; (split; [reflexivity|]); repeat split.
Qed.

(** C7 (amended): every issue whose line maps to a diff position gets a
    comment at that position, also when its suggestion fails validation,
    and the body of that comment is then the prose alone; every emitted
    comment comes from such an issue, and its body is the prose followed
    by the block of the issue's suggestion exactly when that suggestion
    passed validation against the original line content.  Where the
    message does not itself hold the opening fence of a block, the body
    holds one if and only if the suggestion passed. *)
Theorem createReviewComments_suggestion_block
  (filePath : string) (issues : list ReviewIssue.t) (patch : string) :
  (forall issue p,
      In issue issues ->
      Diff.mapLineToDiff (ReviewIssue.line issue) (Js.split "010" patch)
      = Some p ->
      exists c,
        In c (Synth.createReviewComments filePath issues patch)
        /\ ReviewComment.line c = p
        /\ emittedFor filePath (Js.split "010" patch) issue c)
  /\ (forall c,
        In c (Synth.createReviewComments filePath issues patch) ->
        exists issue,
          In issue issues
          /\ emittedFor filePath (Js.split "010" patch) issue c
          /\ (Js.includes (ReviewIssue.message issue) Body.fence = false ->
              (Js.includes (ReviewComment.body c) Body.fence = true
               <-> exists s,
                     ReviewIssue.suggestion issue = Some s
                     /\ Suggestion.isValidSuggestion s
                          (Diff.getOriginalLineContent (ReviewComment.line c)
                             (Js.split "010" patch)) = true))).
Proof.
  unfold Synth.createReviewComments. split.
  - intros issue p Hin Hmap.
    destruct (commentFor_mapped filePath _ issue p Hmap) as [c Hc].
    exists c.
    pose proof (commentFor_emittedFor _ _ _ _ Hc) as He.
    split; [apply pushComments_In; eauto|].
    split; [|exact He].
    destruct He as (Hl & _). congruence.
  - intros c Hin.
    apply pushComments_In in Hin as (issue & Hin & Hc).
    exists issue.
    pose proof (commentFor_emittedFor _ _ _ _ Hc) as He.
    split; [exact Hin|]. split; [exact He|].
    intros Hmsg. destruct He as (_ & _ & Hbody). rewrite Hbody.
    pose proof (includes_prose_fence issue Hmsg) as Hprose.
    destruct (ReviewIssue.suggestion issue) as [s|].
    + destruct (Suggestion.isValidSuggestion s _) eqn:Hv.
      * rewrite includes_withBlock_fence. split; eauto.
      * rewrite Hprose. split; [discriminate|].
        intros (s' & Hs' & Hv'). congruence.
    + rewrite Hprose. split; [discriminate|].
      intros (s' & Hs' & _). discriminate.
Qed.

Lemma createReviewComments_suggestion_block_witness :
  exists c,
    In c (Synth.createReviewComments "ci.yml" [adviceIssue] exampleBlob)
    /\ ReviewComment.line c = 3
    /\ emittedFor "ci.yml" (Js.split "010" exampleBlob) adviceIssue c.
Proof.
  apply (proj1 (createReviewComments_suggestion_block
                  "ci.yml" [adviceIssue] exampleBlob) adviceIssue 3).
  - left. reflexivity.
  - reflexivity.
Defined.

(** ** RetryExecutor *)

Section RetryLoop.
Context {T St : Type}.
Variable operation : St -> Exn.result T * St.
Variable config : Retry.RetryOptions.

(** With more fuel than turns are left the loop ends, and it invokes
    the operation once a turn at most. *)
Lemma retryLoop_total :
  forall fuel attempt lastError st calls sleeps warnings,
    Z.max 0 (Retry.maxAttempts config + 1 - attempt) < Z.of_nat fuel ->
    exists r,
      Retry.retryLoop operation config fuel attempt lastError st
        calls sleeps warnings = Some r
      /\ calls <= Retry.calls r
      /\ Retry.calls r
         <= calls + Z.max 0 (Retry.maxAttempts config + 1 - attempt).
Proof.
  induction fuel as [|fuel IH]; intros attempt lastError st calls sleeps
    warnings Hfuel; [lia|].
  cbn [Retry.retryLoop].
  destruct (Z.leb_spec attempt (Retry.maxAttempts config)) as [Hle|Hgt].
  - destruct (operation st) as [[v|e] st'].
    + eexists; split; [reflexivity|]. cbn [Retry.calls]. lia.
    + destruct (Z.eqb_spec attempt (Retry.maxAttempts config)).
      * eexists; split; [reflexivity|]. cbn [Retry.calls]. lia.
      * destruct (negb (Retry.isRetryable e (Retry.retryableErrors config))).
        -- eexists; split; [reflexivity|]. cbn [Retry.calls]. lia.
        -- destruct (IH (attempt + 1) (Some (Retry.asError e)) st'
                       (calls + 1)
                       (sleeps ++ [Retry.delayOf config attempt])%list
                       (warnings ++
                          [Retry.warningOf attempt (Retry.asError e)
                             (Retry.delayOf config attempt)])%list)
             as (r & Hr & Hlo & Hhi); [lia|].
           exists r. split; [exact Hr|]. lia.
  - eexists; split; [reflexivity|]. cbn [Retry.calls]. lia.
Qed.


(** The failure of the last attempt is wrapped, retryable or not. *)
Lemma retryLoop_last_attempt :
  forall fuel lastError st calls sleeps warnings e st',
    operation st = (Exn.Throw e, st') ->
    Retry.retryLoop operation config (S fuel) (Retry.maxAttempts config)
      lastError st calls sleeps warnings
    = Some {| Retry.outcome :=
                Exn.Throw
                  (Exn.ErrorValue
                     (Exn.RetryExhaustedError (Retry.asError e)
                        (Retry.maxAttempts config)));
              Retry.final := st'; Retry.calls := calls + 1;
              Retry.sleeps := sleeps; Retry.warnings := warnings |}.
Proof.
  intros fuel lastError st calls sleeps warnings e st' Hop.
  cbn [Retry.retryLoop]. rewrite Hop, Z.leb_refl, Z.eqb_refl. reflexivity.
Qed.

(** The invocations that are left all fail with a retryable error: with
    [n] turns left after this one, the loop takes them all and ends on
    the last. *)
Lemma retryLoop_all_fail :
  forall n fuel attempt lastError st calls sleeps warnings,
    Retry.maxAttempts config - attempt = Z.of_nat n ->
    (n < fuel)%nat ->
    (forall k, (k <= n)%nat ->
       exists e,
         fst (operation (stateAfter operation k st)) = Exn.Throw e
         /\ Retry.isRetryable e (Retry.retryableErrors config) = true) ->
    exists r e,
      Retry.retryLoop operation config fuel attempt lastError st
        calls sleeps warnings = Some r
      /\ fst (operation (stateAfter operation n st)) = Exn.Throw e
      /\ Retry.outcome r
         = Exn.Throw
             (Exn.ErrorValue
                (Exn.RetryExhaustedError (Retry.asError e)
                   (Retry.maxAttempts config)))
      /\ Retry.final r = stateAfter operation (S n) st
      /\ Retry.calls r = calls + Z.of_nat n + 1
      /\ List.length (Retry.sleeps r) = (List.length sleeps + n)%nat.
Proof.
  induction n as [|n IH]; intros fuel attempt lastError st calls sleeps
    warnings Hn Hfuel Hfail;
    (destruct fuel as [|fuel]; [lia|]);
    (destruct (Hfail 0%nat) as (e & He & Hre); [lia|]);
    cbn [stateAfter] in He;
    destruct (operation st) as [res st'] eqn:Hop; cbn [fst] in He;
    subst res.
  - replace attempt with (Retry.maxAttempts config) by lia.
    rewrite (retryLoop_last_attempt _ _ _ _ _ _ _ _ Hop).
    eexists; exists e. split; [reflexivity|].
    cbn [stateAfter Retry.outcome Retry.final Retry.calls Retry.sleeps].
    rewrite Hop. cbn [fst snd].
    repeat split; try reflexivity; lia.
  - cbn [Retry.retryLoop]. rewrite Hop, Hre. cbn [negb].
    destruct (Z.leb_spec attempt (Retry.maxAttempts config)); [|lia].
    destruct (Z.eqb_spec attempt (Retry.maxAttempts config)); [lia|].
    destruct (IH fuel (attempt + 1) (Some (Retry.asError e)) st'
                (calls + 1)
                (sleeps ++ [Retry.delayOf config attempt])%list
                (warnings ++
                   [Retry.warningOf attempt (Retry.asError e)
                      (Retry.delayOf config attempt)])%list)
      as (r & e' & Hr & Hlast & Hout & Hfin & Hcalls & Hsl); [lia|lia| |].
    { intros k Hk. destruct (Hfail (S k)) as (ek & Hek & Hrk); [lia|].
      cbn [stateAfter] in Hek. rewrite Hop in Hek. cbn [snd] in Hek.
      eauto. }
    exists r, e'. cbn [stateAfter]. rewrite Hop. cbn [snd].
    rewrite length_app in Hsl. cbn [List.length] in Hsl.
    repeat split; try assumption; lia.
Qed.

End RetryLoop.




(** What the configuration holds is what the caller gave, or the
    default. *)
Lemma configOf_maxAttempts options n :
  givenOr (Retry.maxAttempts_opt options) 3 n ->
  Retry.maxAttempts (Retry.configOf options) = n.
Proof.
  unfold Retry.configOf. cbn [Retry.maxAttempts].
  intros [H|[H ->]]; now rewrite H.
Qed.

Lemma configOf_retryableErrors options markers :
  givenOr (Retry.retryableErrors_opt options) defaultMarkers markers ->
  Retry.retryableErrors (Retry.configOf options) = markers.
Proof.
  unfold Retry.configOf. cbn [Retry.retryableErrors].
  intros [H|[H ->]]; now rewrite H.
Qed.

Lemma configOf_backoffMs options b :
  givenOr (Retry.backoffMs_opt options) 1000 b ->
  Retry.backoffMs (Retry.configOf options) = b.
Proof.
  unfold Retry.configOf. cbn [Retry.backoffMs].
  intros [H|[H ->]]; now rewrite H.
Qed.

Lemma configOf_maxBackoffMs options m :
  givenOr (Retry.maxBackoffMs_opt options) 30000 m ->
  Retry.maxBackoffMs (Retry.configOf options) = m.
Proof.
  unfold Retry.configOf. cbn [Retry.maxBackoffMs].
  intros [H|[H ->]]; now rewrite H.
Qed.

(** The classifier takes for retryable the [Error]s whose message holds
    a marker, letter case apart, and nothing else. *)
Lemma isRetryable_holdsMarker thrown markers :
  Retry.isRetryable thrown markers = true
  <-> exists e, thrown = Exn.ErrorValue e /\ holdsMarker markers e.
Proof.
  unfold holdsMarker. destruct thrown as [e|other]; cbn [Retry.isRetryable].
  - rewrite existsb_exists. split.
    + intros (marker & Hin & Hinc). exists e. split; [reflexivity|].
      now exists marker.
    + intros (e' & He & marker & Hin & Hinc). inversion He; subst e'.
      now exists marker.
  - split; [discriminate|]. intros (e & He & _). discriminate.
Qed.

(** The loop ends, and an operation that fails retryably throughout is
    invoked as often as the configuration allows. *)
Lemma withRetry_exhausted_config {T St : Type}
  (operation : St -> Exn.result T * St) (options : Retry.PartialRetryOptions)
  (st : St) :
  (exists r,
      Retry.withRetry operation options st = Some r
      /\ 0 <= Retry.calls r
         <= Z.max 0 (Retry.maxAttempts (Retry.configOf options)))
  /\ (1 <= Retry.maxAttempts (Retry.configOf options) ->
      (forall k,
          (k < Z.to_nat (Retry.maxAttempts (Retry.configOf options)))%nat ->
          exists e,
            fst (operation (stateAfter operation k st)) = Exn.Throw e
            /\ Retry.isRetryable e
                 (Retry.retryableErrors (Retry.configOf options)) = true) ->
      exists r lastError,
        Retry.withRetry operation options st = Some r
        /\ Retry.calls r = Retry.maxAttempts (Retry.configOf options)
        /\ fst (operation
                  (stateAfter operation
                     (Z.to_nat (Retry.maxAttempts (Retry.configOf options) - 1))
                     st))
           = Exn.Throw lastError
        /\ Retry.outcome r
           = Exn.Throw
               (Exn.ErrorValue
                  (Exn.RetryExhaustedError (Retry.asError lastError)
                     (Retry.maxAttempts (Retry.configOf options))))
        /\ Retry.final r
           = stateAfter operation
               (Z.to_nat (Retry.maxAttempts (Retry.configOf options))) st
        /\ Z.of_nat (List.length (Retry.sleeps r))
           = Retry.maxAttempts (Retry.configOf options) - 1).
Proof.
  unfold Retry.withRetry, Retry.fuelFor. split.
  - destruct (retryLoop_total operation (Retry.configOf options)
                (S (Z.to_nat (Retry.maxAttempts (Retry.configOf options))))
                1 None st 0 [] []) as (r & Hr & Hlo & Hhi); [lia|].
    exists r. split; [exact Hr|]. lia.
  - intros Hmax Hfail.
    destruct (retryLoop_all_fail operation (Retry.configOf options)
                (Z.to_nat (Retry.maxAttempts (Retry.configOf options) - 1))
                (S (Z.to_nat (Retry.maxAttempts (Retry.configOf options))))
                1 None st 0 [] [])
      as (r & e & Hr & Hlast & Hout & Hfin & Hcalls & Hsl); [lia|lia| |].
    { intros k Hk. apply Hfail. lia. }
    exists r, e. split; [exact Hr|].
    replace (S (Z.to_nat (Retry.maxAttempts (Retry.configOf options) - 1)))
      with (Z.to_nat (Retry.maxAttempts (Retry.configOf options)))
      in Hfin by lia.
    cbn [List.length] in Hsl.
    repeat split; try assumption; lia.
Qed.

(** C5: the retry loop ends for every operation and every options
    value, after [maxAttempts] invocations at most, [maxAttempts] being
    what the caller gives and else 3; and for [maxAttempts >= 1] and an
    operation whose first [maxAttempts] invocations all throw an [Error]
    whose message holds one of the retryable markers, the operation is
    invoked exactly [maxAttempts] times and the call then fails with a
    [RetryExhaustedError] that wraps the error of the last invocation
    and the attempt count [maxAttempts], after [maxAttempts - 1]
    suspensions. *)
Theorem withRetry_exhausted {T St : Type}
  (operation : St -> Exn.result T * St) (options : Retry.PartialRetryOptions)
  (st : St) (maxAttempts : Z) (markers : list string) :
  givenOr (Retry.maxAttempts_opt options) 3 maxAttempts ->
  givenOr (Retry.retryableErrors_opt options) defaultMarkers markers ->
  (exists r,
      Retry.withRetry operation options st = Some r
      /\ 0 <= Retry.calls r <= Z.max 0 maxAttempts)
  /\ (1 <= maxAttempts ->
      (forall k,
          (k < Z.to_nat maxAttempts)%nat ->
          exists e,
            fst (operation (stateAfter operation k st))
            = Exn.Throw (Exn.ErrorValue e)
            /\ holdsMarker markers e) ->
      exists r lastError,
        Retry.withRetry operation options st = Some r
        /\ Retry.calls r = maxAttempts
        /\ fst (operation
                  (stateAfter operation (Z.to_nat (maxAttempts - 1)) st))
           = Exn.Throw (Exn.ErrorValue lastError)
        /\ Retry.outcome r
           = Exn.Throw
               (Exn.ErrorValue
                  (Exn.RetryExhaustedError lastError maxAttempts))
        /\ Exn.message (Exn.RetryExhaustedError lastError maxAttempts)
           = "Failed after " ++ Js.ofNumber maxAttempts ++ " attempts: "
             ++ Exn.message lastError
        /\ Retry.final r = stateAfter operation (Z.to_nat maxAttempts) st
        /\ Z.of_nat (List.length (Retry.sleeps r)) = maxAttempts - 1).
Proof.
  intros Hmax Hmarkers.
  apply configOf_maxAttempts in Hmax.
  apply configOf_retryableErrors in Hmarkers.
  destruct (withRetry_exhausted_config operation options st) as [Hend Hall].
  rewrite Hmax, Hmarkers in *. split; [exact Hend|].
  intros H1 Hfail.
  destruct (Hall H1) as (r & thrown & Hr & Hcalls & Hlast & Hout & Hfin & Hsl).
  { intros k Hk. destruct (Hfail k Hk) as (e & He & Hm).
    exists (Exn.ErrorValue e). split; [exact He|].
    apply isRetryable_holdsMarker. eauto. }
  destruct (Hfail (Z.to_nat (maxAttempts - 1))) as (e & He & _); [lia|].
  rewrite He in Hlast. inversion Hlast; subst thrown.
  exists r, e. cbn [Retry.asError] in Hout.
  split; [exact Hr|]. split; [exact Hcalls|]. split; [exact He|].
  split; [exact Hout|]. split; [reflexivity|]. split; assumption.
Qed.

Lemma withRetry_exhausted_witness :
  exists r,
    Retry.withRetry (alwaysThrows (Exn.PlainError "connect ETIMEDOUT"))
      (attempts 3) 0 = Some r
    /\ Retry.calls r = 3
    /\ Retry.outcome r
       = Exn.Throw
           (Exn.ErrorValue
              (Exn.RetryExhaustedError (Exn.PlainError "connect ETIMEDOUT")
                 3))
    /\ Retry.final r = 3
    /\ List.length (Retry.sleeps r) = 2%nat.
Proof.
  destruct (proj2 (withRetry_exhausted
                     (alwaysThrows (Exn.PlainError "connect ETIMEDOUT"))
                     (attempts 3) 0 3 defaultMarkers
                     (or_introl eq_refl) (or_intror (conj eq_refl eq_refl))))
    as (r & lastError & Hr & Hcalls & Hlast & Hout & _ & Hfin & Hsl).
  - lia.
  - intros k _. exists (Exn.PlainError "connect ETIMEDOUT").
    split; [reflexivity|].
    exists "ETIMEDOUT". split; [left; reflexivity|reflexivity].
  - inversion Hlast; subst lastError.
    exists r. split; [exact Hr|]. split; [exact Hcalls|].
    split; [exact Hout|]. split; [exact Hfin|]. lia.
Defined.


(** ** Delivery *)

(** A run of one ASCII character is as long as it has characters. *)
Lemma len_repeatChar c n :
  (N_of_ascii c <? 128)%N = true ->
  Js.len (repeatChar c n) = Z.of_nat n.
Proof.
  intros Hc. apply N.ltb_lt in Hc.
  assert (Hu : Js.unitsOf c = 1).
  { unfold Js.unitsOf. destruct (N.ltb_spec (N_of_ascii c) 240); [reflexivity|lia]. }
  assert (Hf : Js.followers c = 0%nat).
  { unfold Js.followers.
    destruct (N.ltb_spec (N_of_ascii c) 192); [reflexivity|lia]. }
  unfold Js.len.
  induction n as [|n IH]; [reflexivity|].
  cbn [repeatChar Js.lenFrom]. rewrite continues_0, Hu, Hf, IH. lia.
Qed.

Lemma startsCharacter_truncationMarker :
  startsCharacter GitHub.truncationMarker.
Proof. reflexivity. Qed.

Lemma len_truncationMarker : Js.len GitHub.truncationMarker = 17.
Proof. reflexivity. Qed.

(** [length] counts code units, not bytes or characters: a character
    outside the basic plane counts two, and the approval body around an
    empty summary, with its two emoji, is 66 long. *)
Lemma len_code_units :
  Js.len "✅" = 1 /\ Js.len "🎉" = 2
  /\ Js.len (Orchestrator.approvalBody "") = 66
  /\ Js.substring0 3 "a🎉b" = "a🎉"
  /\ Js.len (Js.substring0 2 "a🎉b") = 2.
Proof. repeat split. Qed.

(** Truncation: a body within the ceiling is left as it is, a longer one
    is cut at 65000 characters and marked. *)
Lemma truncateBody_spec body :
  (Js.len body <= 65000 -> GitHub.truncateBody body = body)
  /\ (65000 < Js.len body ->
      GitHub.truncateBody body
      = Js.substring0 65000 body ++ GitHub.truncationMarker
      /\ Js.len (GitHub.truncateBody body)
         = 65000 + Js.len GitHub.truncationMarker)
  /\ Js.len (GitHub.truncateBody body)
     <= 65000 + Js.len GitHub.truncationMarker.
Proof.
  unfold GitHub.truncateBody.
  rewrite len_truncationMarker.
  destruct (Z.gtb_spec (Js.len body) 65000) as [Hgt|Hle].
  - assert (Hlen : Js.len (Js.substring0 65000 body ++ GitHub.truncationMarker)
                   = 65000 + 17).
    { rewrite (len_append _ _ startsCharacter_truncationMarker).
      rewrite len_substring0 by lia.
      now rewrite len_truncationMarker. }
    repeat split; try lia; auto.
  - repeat split; try lia; auto.
Qed.

(** The count of invocations only grows, and the first turn of the loop,
    when there is one, invokes the operation. *)
Lemma retryLoop_calls_mono {T St : Type}
  (operation : St -> Exn.result T * St) (config : Retry.RetryOptions) :
  forall fuel attempt lastError st calls sleeps warnings r,
    Retry.retryLoop operation config fuel attempt lastError st
      calls sleeps warnings = Some r ->
    calls <= Retry.calls r
    /\ (attempt <= Retry.maxAttempts config -> calls + 1 <= Retry.calls r).
Proof.
  induction fuel as [|fuel IH]; intros attempt lastError st calls sleeps
    warnings r; cbn [Retry.retryLoop]; [discriminate|].
  destruct (Z.leb_spec attempt (Retry.maxAttempts config)) as [Hle|Hgt].
  - destruct (operation st) as [[v|e] st'].
    + intros H; inversion H; subst r. cbn [Retry.calls]. lia.
    + destruct (attempt =? Retry.maxAttempts config).
      * intros H; inversion H; subst r. cbn [Retry.calls]. lia.
      * destruct (negb (Retry.isRetryable e (Retry.retryableErrors config))).
        -- intros H; inversion H; subst r. cbn [Retry.calls]. lia.
        -- intros H. apply IH in H as [Hmono _]. lia.
  - intros H; inversion H; subst r. cbn [Retry.calls]. lia.
Qed.

Section Sent.
Variable host : GitHub.remote.

(** A retried request leaves behind one copy of that request for each
    invocation. *)
Lemma retryLoop_send req config :
  forall fuel attempt lastError sent calls sleeps warnings r,
    Retry.retryLoop (GitHub.send host req) config fuel attempt lastError
      sent calls sleeps warnings = Some r ->
    Retry.final r
    = (sent ++ repeat req (Z.to_nat (Retry.calls r - calls)))%list.
Proof.
  induction fuel as [|fuel IH]; intros attempt lastError sent calls sleeps
    warnings r; cbn [Retry.retryLoop]; [discriminate|].
  destruct (attempt <=? Retry.maxAttempts config).
  - unfold GitHub.send at 1.
    destruct (GitHub.write host sent req) as [v|e].
    + intros H; inversion H; subst r. cbn [Retry.final Retry.calls].
      now replace (calls + 1 - calls) with 1 by lia.
    + destruct (attempt =? Retry.maxAttempts config).
      * intros H; inversion H; subst r. cbn [Retry.final Retry.calls].
        now replace (calls + 1 - calls) with 1 by lia.
      * destruct (negb (Retry.isRetryable e (Retry.retryableErrors config))).
        -- intros H; inversion H; subst r. cbn [Retry.final Retry.calls].
           now replace (calls + 1 - calls) with 1 by lia.
        -- intros H.
           pose proof (proj1 (retryLoop_calls_mono _ _ _ _ _ _ _ _ _ _ H))
             as Hmono.
           apply IH in H. rewrite H, <- app_assoc. f_equal.
           replace (Z.to_nat (Retry.calls r - calls))
             with (S (Z.to_nat (Retry.calls r - (calls + 1)))) by lia.
           reflexivity.
  - intros H; inversion H; subst r. cbn [Retry.final Retry.calls].
    replace (calls - calls) with 0 by lia. cbn [Z.to_nat repeat].
    now rewrite app_nil_r.
Qed.

(** A request sent with retry always returns or throws, and is sent once
    at least and three times at most. *)
Lemma sendWithRetry_sent req sent0 :
  exists res k,
    GitHub.sendWithRetry host req sent0
    = Some (res, (sent0 ++ repeat req k)%list)
    /\ (1 <= k <= 3)%nat.
Proof.
  unfold GitHub.sendWithRetry, Retry.withRetry.
  destruct (retryLoop_total (GitHub.send host req)
              (Retry.configOf GitHub.threeAttempts)
              (Retry.fuelFor (Retry.configOf GitHub.threeAttempts))
              1 None sent0 0 [] []) as (r & Hr & _ & Hhi);
    [cbn; lia|].
  rewrite Hr.
  pose proof (proj2 (retryLoop_calls_mono _ _ _ _ _ _ _ _ _ _ Hr)) as Hlo.
  apply retryLoop_send in Hr.
  exists (Retry.outcome r), (Z.to_nat (Retry.calls r - 0)).
  rewrite Hr. split; [reflexivity|].
  change (Retry.maxAttempts (Retry.configOf GitHub.threeAttempts)) with 3
    in *.
  lia.
Qed.

(** The requests [createReview] sends: a read of the pull request, then
    the review, its body truncated and the bodies of its comments as
    they were given. *)
Lemma createReview_sent comments body event sent0 :
  exists res added,
    GitHub.createReview host comments body event sent0
    = Some (res, (sent0 ++ added)%list)
    /\ forall req, In req added ->
         req = GitHub.PullsGet
         \/ exists sha,
              req = GitHub.PullsCreateReview sha (GitHub.truncateBody body)
                      event (map GitHub.payloadOf comments).
Proof.
  unfold GitHub.createReview.
  destruct (Z.of_nat (List.length comments) =? 0).
  - exists (Exn.Ok tt), []. rewrite app_nil_r.
    split; [reflexivity|intros ? []].
  - unfold GitHub.bind, GitHub.getCommitSha, GitHub.bind, GitHub.getPull,
      GitHub.ret.
    destruct (GitHub.pullsGet host sent0) as [pr|e].
    + destruct (sendWithRetry_sent
                  (GitHub.PullsCreateReview (GitHub.head_sha pr)
                     (GitHub.truncateBody body) event
                     (map GitHub.payloadOf comments))
                  (sent0 ++ [GitHub.PullsGet])%list) as (res & k & Hs & _).
      exists res,
        (GitHub.PullsGet :: repeat
           (GitHub.PullsCreateReview (GitHub.head_sha pr)
              (GitHub.truncateBody body) event
              (map GitHub.payloadOf comments)) k).
      split.
      * rewrite Hs, <- app_assoc. reflexivity.
      * intros req [<-|Hin]; [now left|].
        apply repeat_spec in Hin. right. eauto.
    + exists (Exn.Throw e), [GitHub.PullsGet].
      split; [reflexivity|]. intros req [<-|[]]. now left.
Qed.

(** The requests [postGeneralComment] sends: the comment, its body
    truncated, once at least. *)
Lemma postGeneralComment_sent body sent0 :
  exists res k,
    GitHub.postGeneralComment host body sent0
    = Some (res,
            (sent0 ++ repeat
               (GitHub.IssuesCreateComment (GitHub.truncateBody body)) k)%list)
    /\ (1 <= k <= 3)%nat.
Proof. unfold GitHub.postGeneralComment. apply sendWithRetry_sent. Qed.

Lemma postEach_sent sha comments : forall sent0,
  exists added,
    GitHub.postEach host sha comments sent0
    = Some (Exn.Ok tt, (sent0 ++ added)%list)
    /\ forall req, In req added ->
         exists c, In c comments
                   /\ req = GitHub.PullsCreateReviewComment sha
                              (GitHub.payloadOf c).
Proof.
  induction comments as [|c rest IH]; intros sent0; cbn [GitHub.postEach].
  - exists []. rewrite app_nil_r. split; [reflexivity|intros ? []].
  - unfold GitHub.bind, GitHub.catchAndWarn.
    destruct (sendWithRetry_sent
                (GitHub.PullsCreateReviewComment sha (GitHub.payloadOf c))
                sent0) as (res1 & k & -> & _).
    destruct (IH (sent0 ++ repeat
                    (GitHub.PullsCreateReviewComment sha (GitHub.payloadOf c))
                    k)%list) as (added & -> & Hadded).
    exists (repeat (GitHub.PullsCreateReviewComment sha (GitHub.payloadOf c)) k
              ++ added)%list.
    split; [now rewrite app_assoc|].
    intros req Hin. apply in_app_or in Hin as [Hin|Hin].
    + apply repeat_spec in Hin. exists c. split; [now left|exact Hin].
    + destruct (Hadded req Hin) as (c' & Hc' & ->).
      exists c'. split; [now right|reflexivity].
Qed.

(** The requests [postReviewComments] sends: a read of the pull
    request, then one request a comment, each with the body the comment
    was given. *)
Lemma postReviewComments_sent comments sent0 :
  exists res added,
    GitHub.postReviewComments host comments sent0
    = Some (res, (sent0 ++ added)%list)
    /\ forall req, In req added ->
         req = GitHub.PullsGet
         \/ exists sha c,
              In c comments
              /\ req = GitHub.PullsCreateReviewComment sha
                         (GitHub.payloadOf c).
Proof.
  unfold GitHub.postReviewComments.
  destruct (Z.of_nat (List.length comments) =? 0).
  - exists (Exn.Ok tt), []. rewrite app_nil_r.
    split; [reflexivity|intros ? []].
  - unfold GitHub.bind, GitHub.getCommitSha, GitHub.bind, GitHub.getPull,
      GitHub.ret.
    destruct (GitHub.pullsGet host sent0) as [pr|e].
    + destruct (postEach_sent (GitHub.head_sha pr) comments
                  (sent0 ++ [GitHub.PullsGet])%list)
        as (added & -> & Hadded).
      exists (Exn.Ok tt), (GitHub.PullsGet :: added).
      split; [now rewrite <- app_assoc|].
      intros req [<-|Hin]; [now left|].
      right. destruct (Hadded req Hin) as (c & Hc & ->). eauto.
    + exists (Exn.Throw e), [GitHub.PullsGet].
      split; [reflexivity|]. intros req [<-|[]]. now left.
Qed.

End Sent.

Lemma postReviewComments_accepted c :
  GitHub.postReviewComments acceptingHost [c] []
  = Some (Exn.Ok tt,
          [GitHub.PullsGet;
           GitHub.PullsCreateReviewComment "c0ffee" (GitHub.payloadOf c)]).
Proof. reflexivity. Qed.

Lemma len_longComment :
  Js.len (ReviewComment.body (GitHub.payloadOf longComment)) = 70000.
Proof.
  change (ReviewComment.body (GitHub.payloadOf longComment))
    with (repeatChar "a" (Z.to_nat 70000)).
  rewrite len_repeatChar by reflexivity. lia.
Qed.

(** C2, as stated, fails for the body of a comment: a comment whose body
    is 70000 characters long is handed to the host with that body, longer
    than 65000 characters plus the truncation marker. *)
Lemma comment_body_not_truncated :
  GitHub.postReviewComments acceptingHost [longComment] []
  = Some (Exn.Ok tt,
          [GitHub.PullsGet;
           GitHub.PullsCreateReviewComment "c0ffee"
             (GitHub.payloadOf longComment)])
  /\ ~ Js.len (ReviewComment.body (GitHub.payloadOf longComment))
       <= 65000 + Js.len GitHub.truncationMarker.
Proof.
  split; [apply postReviewComments_accepted|].
  rewrite len_longComment, len_truncationMarker. lia.
Qed.

(** C2 (amended): the body of a review and the body of a general comment
    are handed over truncated: as they are when within 65000 characters,
    else cut at 65000 characters with the marker appended, so never
    longer than 65000 characters plus the marker.  [createReview] and
    [postGeneralComment] always come back, and every request they have
    sent carries that truncated body; a general comment is sent once at
    least.  The body of each comment, in a review or posted on its own,
    is handed over as it is, whatever its length. *)
Theorem delivered_bodies (host : GitHub.remote) :
  (forall body,
      Js.len (GitHub.truncateBody body)
      <= 65000 + Js.len GitHub.truncationMarker
      /\ (Js.len body <= 65000 -> GitHub.truncateBody body = body)
      /\ (65000 < Js.len body ->
          GitHub.truncateBody body
          = Js.substring0 65000 body ++ GitHub.truncationMarker))
  /\ (forall comments body event sent0,
         exists res added,
           GitHub.createReview host comments body event sent0
           = Some (res, (sent0 ++ added)%list)
           /\ forall req, In req added ->
                req = GitHub.PullsGet
                \/ exists sha,
                     req = GitHub.PullsCreateReview sha
                             (GitHub.truncateBody body) event
                             (map GitHub.payloadOf comments))
  /\ (forall body sent0,
         exists res k,
           GitHub.postGeneralComment host body sent0
           = Some (res,
                   (sent0 ++ repeat
                      (GitHub.IssuesCreateComment (GitHub.truncateBody body))
                      k)%list)
           /\ (1 <= k <= 3)%nat)
  /\ (forall comments sent0,
         exists res added,
           GitHub.postReviewComments host comments sent0
           = Some (res, (sent0 ++ added)%list)
           /\ forall req, In req added ->
                req = GitHub.PullsGet
                \/ exists sha c,
                     In c comments
                     /\ req = GitHub.PullsCreateReviewComment sha
                                (GitHub.payloadOf c))
  /\ (forall c,
         ReviewComment.body (GitHub.payloadOf c) = ReviewComment.body c).
Proof.
  split; [|split; [|split; [|split]]].
  - intros body. destruct (truncateBody_spec body) as (H1 & H2 & H3).
    split; [exact H3|]. split; [exact H1|]. intros H. now apply H2.
  - intros comments body event sent0. apply createReview_sent.
  - intros body sent0. apply postGeneralComment_sent.
  - intros comments sent0. apply postReviewComments_sent.
  - reflexivity.
Qed.

Lemma delivered_bodies_witness :
  (Js.len fullBody = 65000
   /\ GitHub.truncateBody fullBody = fullBody)
  /\ (Js.len overlongBody = 65002
      /\ GitHub.truncateBody overlongBody
         = Js.substring0 65000 overlongBody ++ GitHub.truncationMarker
      /\ Js.substring0 65000 overlongBody
         = "🎉" ++ repeatChar "a" (Z.to_nat 64998)
      /\ Js.len (GitHub.truncateBody overlongBody) = 65017).
Proof.
  split; [split; [vm_compute; reflexivity|]|].
  - apply (proj1 (proj2 (proj1 (delivered_bodies acceptingHost) fullBody))).
    vm_compute. discriminate.
  - split; [vm_compute; reflexivity|]. split.
    + apply (proj2 (proj2 (proj1 (delivered_bodies acceptingHost)
                              overlongBody))).
      vm_compute. reflexivity.
    + split; [apply String.eqb_eq|]; vm_compute; reflexivity.
Defined.

(** ** Orchestrator *)

(** C1 fails on the code with [postAsReview] enabled: the orchestrator
    calls [createReview] with no comments, the approval body and
    [APPROVE], and [createReview] returns before it sends anything when
    it is given no comments; so the "Post review" step sends no request
    at all, where with [postAsReview] disabled it sends the approval body
    as a general comment, once at least.  In a run over one changed file
    in which the analysis finds nothing, the only requests are the two
    reads. *)
Theorem approval_review_not_sent :
  (forall host body event sent,
      GitHub.createReview host [] body event sent = Some (Exn.Ok tt, sent))
  /\ (forall prompt maxFiles excludePatterns host fileResults overallSummary
             criticalIssues warnings suggestions sent,
         Orchestrator.postReview
           {| Orchestrator.prompt := prompt;
              Orchestrator.maxFiles := maxFiles;
              Orchestrator.excludePatterns := excludePatterns;
              Orchestrator.postAsReview := true |}
           host [] fileResults overallSummary
           criticalIssues warnings suggestions sent
         = Some (Exn.Ok tt, sent))
  /\ (forall prompt maxFiles excludePatterns host fileResults overallSummary
             criticalIssues warnings suggestions sent,
         exists res k,
           Orchestrator.postReview
             {| Orchestrator.prompt := prompt;
                Orchestrator.maxFiles := maxFiles;
                Orchestrator.excludePatterns := excludePatterns;
                Orchestrator.postAsReview := false |}
             host [] fileResults overallSummary
             criticalIssues warnings suggestions sent
           = Some (res,
                   (sent ++ repeat
                      (GitHub.IssuesCreateComment
                         (GitHub.truncateBody
                            (Orchestrator.approvalBody overallSummary)))
                      k)%list)
           /\ (1 <= k <= 3)%nat)
  /\ Orchestrator.runReview (configWith true) acceptingHost quietLLM
       (fun _ _ => false) []
     = Some (Exn.Ok {| ReviewSummary.totalFiles := 1;
                       ReviewSummary.filesReviewed := 1;
                       ReviewSummary.totalComments := 0;
                       ReviewSummary.criticalIssues := 0;
                       ReviewSummary.warnings := 0;
                       ReviewSummary.suggestions := 0;
                       ReviewSummary.summary := "Nothing to report." |},
             [GitHub.PullsGet; GitHub.PullsListFiles])
  /\ Orchestrator.runReview (configWith false) acceptingHost quietLLM
       (fun _ _ => false) []
     = Some (Exn.Ok {| ReviewSummary.totalFiles := 1;
                       ReviewSummary.filesReviewed := 1;
                       ReviewSummary.totalComments := 0;
                       ReviewSummary.criticalIssues := 0;
                       ReviewSummary.warnings := 0;
                       ReviewSummary.suggestions := 0;
                       ReviewSummary.summary := "Nothing to report." |},
             [GitHub.PullsGet; GitHub.PullsListFiles;
              GitHub.IssuesCreateComment
                (Orchestrator.approvalBody "Nothing to report.")]).
Proof.
  split; [|split; [|split; [|split]]]; try reflexivity.
  intros prompt maxFiles excludePatterns host fileResults overallSummary
    criticalIssues warnings suggestions sent.
  unfold Orchestrator.postReview.
  cbn [Orchestrator.postAsReview Orchestrator.lengthZ List.length Z.of_nat
       Z.gtb Z.compare].
  apply postGeneralComment_sent.
Qed.

(* ===================================================================== *)
(** * Further properties                                                  *)
(* ===================================================================== *)

(** ** DiffIndexer: what the returned position means *)

Lemma step_Continue targetLine i line st st' :
  Diff.step targetLine i line st = Diff.Continue st' ->
  st' = advance line st.
Proof.
  unfold Diff.step, advance; cbv zeta.
  destruct (Diff.hunkMatch line); [intros H; now inversion H|].
  destruct (Diff.inHunk st) eqn:Hin; cbn [negb];
    [|intros H; now inversion H].
  destruct (Js.startsWith line "+") eqn:Hplus.
  - rewrite (startsWith_plus_not_minus _ Hplus).
    destruct (Diff.currentLine st + 1 =? targetLine); [discriminate|].
    intros H; now inversion H.
  - destruct (Js.startsWith line "-"); cbn [negb];
      intros H; now inversion H.
Qed.

Lemma advanceAll_app l1 l2 st :
  advanceAll (l1 ++ l2)%list st = advanceAll l2 (advanceAll l1 st).
Proof. unfold advanceAll. apply fold_left_app. Qed.

Lemma countNew_nonneg lines : 0 <= countNew lines.
Proof.
  induction lines as [|l rest IH]; cbn [countNew]; [lia|].
  destruct (Js.startsWith l "-"); lia.
Qed.

Lemma countNew_app l1 l2 : countNew (l1 ++ l2)%list = countNew l1 + countNew l2.
Proof.
  induction l1 as [|l rest IH]; cbn [countNew app]; [lia|].
  rewrite IH. lia.
Qed.

Lemma headerFree_cons l rest :
  headerFree (l :: rest) <-> Diff.hunkMatch l = None /\ headerFree rest.
Proof.
  unfold headerFree. split.
  - intros H. split; [apply H; now left|intros l' Hl'; apply H; now right].
  - intros [Hl Hrest] l' [<-|Hin]; auto.
Qed.

(** Outside a hunk, lines without a header change nothing; inside one,
    they add the lines of the new file to the counter. *)
Lemma advanceAll_outside lines st :
  headerFree lines -> Diff.inHunk st = false -> advanceAll lines st = st.
Proof.
  revert st. induction lines as [|l rest IH]; intros st Hfree Hin;
    [reflexivity|].
  apply headerFree_cons in Hfree as [Hl Hrest].
  cbn [advanceAll fold_left]. fold (advanceAll rest (advance l st)).
  unfold advance at 1. rewrite Hl, Hin. cbn [negb]. now apply IH.
Qed.

Lemma advanceAll_inside lines st :
  headerFree lines -> Diff.inHunk st = true ->
  advanceAll lines st
  = {| Diff.currentLine := Diff.currentLine st + countNew lines;
       Diff.inHunk := true |}.
Proof.
  revert st. induction lines as [|l rest IH]; intros st Hfree Hin.
  - cbn [advanceAll fold_left countNew]. destruct st as [c h].
    cbn in *. subst h. f_equal. lia.
  - apply headerFree_cons in Hfree as [Hl Hrest].
    cbn [advanceAll fold_left countNew]. fold (advanceAll rest (advance l st)).
    unfold advance at 1. rewrite Hl, Hin. cbn [negb].
    destruct (Js.startsWith l "-").
    + rewrite (IH st Hrest Hin). f_equal.
    + rewrite IH by (auto; now rewrite ?Hin).
      cbn [Diff.currentLine]. f_equal. lia.
Qed.

(** Every list of lines is free of headers or has a last header. *)
Lemma last_header lines :
  headerFree lines
  \/ exists before header newStart body,
       lines = (before ++ header :: body)%list
       /\ Diff.hunkMatch header = Some newStart
       /\ headerFree body.
Proof.
  induction lines as [|l rest IH]; [left; intros ? []|].
  destruct IH as [Hfree|(before & header & d & body & -> & Hh & Hbody)].
  - destruct (Diff.hunkMatch l) as [d|] eqn:Hl.
    + right. exists [], l, d, rest. auto.
    + left. now apply headerFree_cons.
  - right. exists (l :: before), header, d, body. auto.
Qed.

(** The scan returns at the first added line on which the counter reaches
    the target. *)
Lemma scanFrom_returns targetLine lines :
  forall i st p,
    Diff.scanFrom targetLine i lines st = Some p ->
    exists before line after,
      lines = (before ++ line :: after)%list
      /\ p = i + lenZ before + 1
      /\ Diff.hunkMatch line = None
      /\ Js.startsWith line "+" = true
      /\ Diff.inHunk (advanceAll before st) = true
      /\ Diff.currentLine (advanceAll before st) + 1 = targetLine.
Proof.
  induction lines as [|l rest IH]; intros i st p H; cbn [Diff.scanFrom] in H;
    [discriminate|].
  destruct (Diff.step targetLine i l st) as [q|st'] eqn:Hstep.
  - inversion H; subst q; clear H.
    apply step_Return in Hstep as (-> & Hm & Hplus & Hin & Hc).
    exists [], l, rest. cbn [app advanceAll fold_left lenZ List.length].
    repeat split; auto. cbn. lia.
  - apply step_Continue in Hstep as ->.
    apply IH in H as (before & line & after & -> & -> & Hm & Hplus & Hin & Hc).
    exists (l :: before), line, after.
    cbn [advanceAll fold_left]. fold (advanceAll before (advance l st)).
    repeat split; auto. unfold lenZ. cbn [List.length]. lia.
Qed.

Lemma scanFrom_app_None targetLine before : forall i st rest,
  Diff.scanFrom targetLine i before st = None ->
  Diff.scanFrom targetLine i (before ++ rest)%list st
  = Diff.scanFrom targetLine (i + lenZ before) rest (advanceAll before st).
Proof.
  induction before as [|l before IH]; intros i st rest H.
  - cbn [app advanceAll fold_left lenZ List.length Z.of_nat].
    now rewrite Z.add_0_r.
  - cbn [Diff.scanFrom app] in *.
    destruct (Diff.step targetLine i l st) as [q|st'] eqn:Hstep;
      [discriminate|].
    apply step_Continue in Hstep as ->.
    rewrite (IH _ _ rest H).
    cbn [advanceAll fold_left]. fold (advanceAll before (advance l st)).
    f_equal. unfold lenZ. cbn [List.length]. lia.
Qed.

(** Inside a hunk, the scan over lines without a header, then an added
    line: it returns at that line when the counter reaches the target
    there. *)
Lemma scanFrom_reaches targetLine body line after : forall i st,
  headerFree body ->
  Diff.hunkMatch line = None ->
  Js.startsWith line "+" = true ->
  Diff.inHunk st = true ->
  Diff.currentLine st + countNew body + 1 = targetLine ->
  Diff.scanFrom targetLine i (body ++ line :: after)%list st
  = Some (i + lenZ body + 1).
Proof.
  induction body as [|l body IH]; intros i st Hfree Hm Hplus Hin Hc.
  - cbn [app Diff.scanFrom countNew lenZ List.length Z.of_nat] in *.
    unfold Diff.step; cbv zeta. rewrite Hm, Hin, Hplus. cbn [negb].
    replace (Diff.currentLine st + 1 =? targetLine) with true
      by (symmetry; apply Z.eqb_eq; lia).
    f_equal. lia.
  - apply headerFree_cons in Hfree as [Hl Hbody].
    cbn [app Diff.scanFrom countNew] in *.
    pose proof (countNew_nonneg body) as Hnn.
    assert (Hstep : Diff.step targetLine i l st
                    = Diff.Continue (advance l st)).
    { unfold Diff.step, advance; cbv zeta. rewrite Hl, Hin. cbn [negb].
      destruct (Js.startsWith l "+") eqn:Hlp.
      - rewrite (startsWith_plus_not_minus _ Hlp) in *.
        destruct (Z.eqb_spec (Diff.currentLine st + 1) targetLine); [lia|].
        reflexivity.
      - destruct (Js.startsWith l "-"); reflexivity. }
    rewrite Hstep.
    rewrite IH; auto.
    + f_equal. unfold lenZ. cbn [List.length]. lia.
    + unfold advance. rewrite Hl, Hin. cbn [negb].
      destruct (Js.startsWith l "-"); auto.
    + unfold advance. rewrite Hl, Hin. cbn [negb].
      destruct (Js.startsWith l "-"); cbn [Diff.currentLine]; lia.
Qed.

Lemma headerFree_app l1 l2 :
  headerFree (l1 ++ l2)%list <-> headerFree l1 /\ headerFree l2.
Proof.
  unfold headerFree. split.
  - intros H. split; intros l Hl; apply H, in_or_app; auto.
  - intros [H1 H2] l Hl. apply in_app_or in Hl as [Hl|Hl]; auto.
Qed.

Lemma lenZ_app {A : Type} (l1 l2 : list A) :
  lenZ (l1 ++ l2)%list = lenZ l1 + lenZ l2.
Proof. unfold lenZ. rewrite length_app. lia. Qed.

(** X1: lines that hold no hunk header are not addressable: the mapping
    returns no position for any target line, and no comment is made on a
    patch without a header, whatever the issues. *)
Theorem no_header_no_position :
  (forall patchLines targetLine,
      headerFree patchLines ->
      Diff.mapLineToDiff targetLine patchLines = None)
  /\ (forall filePath issues patch,
         headerFree (Js.split "010" patch) ->
         Synth.createReviewComments filePath issues patch = []).
Proof.
  assert (H1 : forall patchLines targetLine,
             headerFree patchLines ->
             Diff.mapLineToDiff targetLine patchLines = None).
  { intros patchLines targetLine Hfree.
    destruct (Diff.mapLineToDiff targetLine patchLines) as [p|] eqn:E;
      [|reflexivity].
    unfold Diff.mapLineToDiff in E.
    apply scanFrom_returns in E
      as (before & line & after & -> & _ & _ & _ & Hin & _).
    apply headerFree_app in Hfree as [Hbefore _].
    rewrite (advanceAll_outside before
               {| Diff.currentLine := 0; Diff.inHunk := false |} Hbefore eq_refl) in Hin.
    discriminate. }
  split; [exact H1|].
  intros filePath issues patch Hfree. unfold Synth.createReviewComments.
  induction issues as [|issue rest IH]; [reflexivity|].
  cbn [Synth.pushComments]. unfold Synth.commentFor.
  now rewrite (H1 _ (ReviewIssue.line issue) Hfree).
Qed.

Lemma no_header_no_position_witness :
  Diff.mapLineToDiff 1 noHunk = None.
Proof.
  apply (proj1 no_header_no_position noHunk 1).
  intros line [<-|[<-|[<-|[]]]]; reflexivity.
Defined.

(** X2: a returned position is the position of an added line inside a
    hunk, and the target is that line's number in the new file: the
    [newStart] of the last header before it plus the number of lines
    between the header and it that are not removed lines. *)
Theorem mapLineToDiff_sound targetLine patchLines p :
  Diff.mapLineToDiff targetLine patchLines = Some p ->
  exists before header newStart body line after,
    patchLines = (before ++ header :: body ++ line :: after)%list
    /\ Diff.hunkMatch header = Some newStart
    /\ headerFree body
    /\ Diff.hunkMatch line = None
    /\ Js.startsWith line "+" = true
    /\ p = lenZ before + lenZ body + 2
    /\ targetLine = Js.parseInt newStart + countNew body.
Proof.
  unfold Diff.mapLineToDiff. intros H.
  apply scanFrom_returns in H
    as (pre & line & after & -> & -> & Hm & Hplus & Hin & Hc).
  destruct (last_header pre)
    as [Hfree|(before & header & d & body & -> & Hh & Hbody)].
  - rewrite (advanceAll_outside pre
               {| Diff.currentLine := 0; Diff.inHunk := false |} Hfree eq_refl) in Hin.
    discriminate.
  - exists before, header, d, body, line, after.
    rewrite <- app_assoc. cbn [app].
    repeat split; auto.
    + rewrite lenZ_app. unfold lenZ. cbn [List.length]. lia.
    + rewrite advanceAll_app in Hc.
      cbn [advanceAll fold_left] in Hc.
      fold (advanceAll body
              (advance header
                 (advanceAll before
                    {| Diff.currentLine := 0; Diff.inHunk := false |})))
        in Hc.
      unfold advance at 1 in Hc. rewrite Hh in Hc.
      rewrite (advanceAll_inside body
                 {| Diff.currentLine := Js.parseInt d - 1;
                    Diff.inHunk := true |} Hbody eq_refl) in Hc.
      cbn [Diff.currentLine] in Hc. lia.
Qed.

Lemma mapLineToDiff_sound_witness :
  exists before header newStart body line after,
    oneHunk = (before ++ header :: body ++ line :: after)%list
    /\ Diff.hunkMatch header = Some newStart
    /\ headerFree body
    /\ Diff.hunkMatch line = None
    /\ Js.startsWith line "+" = true
    /\ 5 = lenZ before + lenZ body + 2
    /\ 9 = Js.parseInt newStart + countNew body.
Proof.
  apply (mapLineToDiff_sound 9 oneHunk 5). reflexivity.
Defined.

(** X3: every added line of a hunk is addressable by its number in the
    new file: for an added line after a header and lines without a
    header, when the lines before the header give the target no
    position, the mapping returns the position of that line. *)
Theorem mapLineToDiff_complete
  targetLine before header newStart body line after :
  Diff.mapLineToDiff targetLine before = None ->
  Diff.hunkMatch header = Some newStart ->
  headerFree body ->
  Diff.hunkMatch line = None ->
  Js.startsWith line "+" = true ->
  targetLine = Js.parseInt newStart + countNew body ->
  Diff.mapLineToDiff targetLine
    (before ++ header :: body ++ line :: after)%list
  = Some (lenZ before + lenZ body + 2).
Proof.
  unfold Diff.mapLineToDiff. intros Hbefore Hh Hbody Hm Hplus Ht.
  rewrite (scanFrom_app_None _ _ _ _ _ Hbefore).
  cbn [Diff.scanFrom]. rewrite (step_header _ _ _ _ _ Hh).
  rewrite (scanFrom_reaches targetLine body line after); auto.
  - f_equal. lia.
  - cbn [Diff.currentLine]. lia.
Qed.

Lemma mapLineToDiff_complete_witness :
  Diff.mapLineToDiff 9
    ([] ++ "@@ -7,3 +7,4 @@" :: [" kept"; "-old"; "+new"]
        ++ "+more" :: [" tail"])%list
  = Some (lenZ (@nil string) + lenZ [" kept"; "-old"; "+new"] + 2).
Proof.
  apply (mapLineToDiff_complete 9 [] "@@ -7,3 +7,4 @@" "7"
           [" kept"; "-old"; "+new"] "+more" [" tail"]);
    try reflexivity.
  intros l [<-|[<-|[<-|[]]]]; reflexivity.
Defined.

(** X4: in a patch of one hunk (a header, then lines without a header)
    the returned position grows strictly with the target line. *)
Theorem mapLineToDiff_monotone header newStart body t1 t2 p1 p2 :
  Diff.hunkMatch header = Some newStart ->
  headerFree body ->
  Diff.mapLineToDiff t1 (header :: body) = Some p1 ->
  Diff.mapLineToDiff t2 (header :: body) = Some p2 ->
  t1 < t2 ->
  p1 < p2.
Proof.
  unfold Diff.mapLineToDiff. cbn [Diff.scanFrom]. intros Hh Hbody H1 H2 Hlt.
  rewrite (step_header t1 0 header _ newStart Hh) in H1.
  rewrite (step_header t2 0 header _ newStart Hh) in H2.
  apply scanFrom_returns in H1
    as (pre1 & l1 & a1 & E1 & -> & _ & _ & _ & Hc1).
  apply scanFrom_returns in H2
    as (pre2 & l2 & a2 & E2 & -> & _ & _ & _ & Hc2).
  assert (Hf1 : headerFree pre1).
  { rewrite E1 in Hbody. now apply headerFree_app in Hbody. }
  assert (Hf2 : headerFree pre2).
  { rewrite E2 in Hbody. now apply headerFree_app in Hbody. }
  rewrite (advanceAll_inside pre1
             {| Diff.currentLine := Js.parseInt newStart - 1;
                Diff.inHunk := true |} Hf1 eq_refl) in Hc1.
  rewrite (advanceAll_inside pre2
             {| Diff.currentLine := Js.parseInt newStart - 1;
                Diff.inHunk := true |} Hf2 eq_refl) in Hc2.
  cbn [Diff.currentLine] in Hc1, Hc2.
  assert (Hcount : countNew pre1 < countNew pre2) by lia.
  rewrite E2 in E1. symmetry in E1.
  apply app_eq_app in E1 as [x [[-> _]|[-> _]]].
  - rewrite countNew_app in Hcount.
    pose proof (countNew_nonneg x). lia.
  - rewrite countNew_app in Hcount. rewrite lenZ_app.
    destruct x as [|y x]; [cbn [countNew] in Hcount; lia|].
    unfold lenZ. cbn [List.length]. lia.
Qed.

Lemma mapLineToDiff_monotone_witness :
  Diff.mapLineToDiff 8 oneHunk = Some 4
  /\ Diff.mapLineToDiff 9 oneHunk = Some 5
  /\ 4 < 5.
Proof.
  split; [reflexivity|]. split; [reflexivity|].
  apply (mapLineToDiff_monotone "@@ -7,3 +7,4 @@" "7"
           [" kept"; "-old"; "+new"; "+more"; " tail"] 8 9 4 5);
    try reflexivity.
  intros l [<-|[<-|[<-|[<-|[<-|[]]]]]]; reflexivity.
Defined.

(** X5: the position the mapping returns is within the patch, and the
    content lookup at that position gives the text of the added line
    without its [+]; so a comment is never validated against an unknown
    original. *)
Theorem mapLineToDiff_then_content targetLine patchLines p :
  Diff.mapLineToDiff targetLine patchLines = Some p ->
  1 <= p <= lenZ patchLines
  /\ exists content,
       Diff.lineAt patchLines (p - 1) = Some (String "+" content)
       /\ Diff.getOriginalLineContent p patchLines = Some content.
Proof.
  intros H.
  apply mapLineToDiff_Some in H as (Hp & line & Hat & _ & Hplus).
  assert (Hle : p <= lenZ patchLines).
  { unfold Diff.lineAt in Hat.
    destruct (p - 1 <? 0); [discriminate|].
    assert (Hn : nth_error patchLines (Z.to_nat (p - 1)) <> None)
      by congruence.
    apply nth_error_Some in Hn. unfold lenZ. lia. }
  split; [lia|].
  destruct line as [|c content]; [discriminate|].
  unfold Js.startsWith in Hplus. cbn [Js.isPrefix] in Hplus.
  apply andb_true_iff in Hplus as [Hc _].
  apply Ascii.eqb_eq in Hc. subst c.
  exists content. split; [exact Hat|].
  unfold Diff.getOriginalLineContent. fold (lenZ patchLines).
  destruct (Z.ltb_spec p 1); [lia|].
  destruct (Z.gtb_spec p (lenZ patchLines)); [lia|].
  cbn [orb]. rewrite Hat. reflexivity.
Qed.

Lemma mapLineToDiff_then_content_witness :
  1 <= 5 <= lenZ oneHunk
  /\ exists content,
       Diff.lineAt oneHunk (5 - 1) = Some (String "+" content)
       /\ Diff.getOriginalLineContent 5 oneHunk = Some content.
Proof.
  apply (mapLineToDiff_then_content 9 oneHunk 5). reflexivity.
Defined.

(** X6: the header test of the scanning loop finds the leftmost place of
    a line at which the text [@@ -n[,n] +n[,n] @@] stands, [n] being
    non-empty runs of digits, and takes the third of these numbers as
    [newStart]; it fails exactly on the lines that hold no such text. *)
Theorem hunkMatch_pattern line :
  (forall newStart,
      Diff.hunkMatch line = Some newStart <->
      exists before after rest,
        line = before ++ after
        /\ HeaderPattern.matchesAtHead after newStart rest
        /\ forall before' after' d rest',
             line = before' ++ after' ->
             (String.length before' < String.length before)%nat ->
             ~ HeaderPattern.matchesAtHead after' d rest')
  /\ (Diff.hunkMatch line = None <->
      forall before after d rest,
        line = before ++ after ->
        ~ HeaderPattern.matchesAtHead after d rest).
Proof.
  assert (Hnone : forall s,
             Diff.headerAt s = None <->
             forall d rest, ~ HeaderPattern.matchesAtHead s d rest).
  { intros s. split.
    - intros H d rest Hm.
      assert (Diff.headerAt s = Some d) by (apply headerAt_iff; eauto).
      congruence.
    - intros H. destruct (Diff.headerAt s) as [d|] eqn:E; [|reflexivity].
      apply headerAt_iff in E as [rest Hm]. now apply H in Hm. }
  assert (Hsome : forall newStart,
      Diff.hunkMatch line = Some newStart <->
      exists before after rest,
        line = before ++ after
        /\ HeaderPattern.matchesAtHead after newStart rest
        /\ forall before' after' d rest',
             line = before' ++ after' ->
             (String.length before' < String.length before)%nat ->
             ~ HeaderPattern.matchesAtHead after' d rest').
  { intros newStart. rewrite hunkMatch_iff. split.
    - intros (before & after & Heq & Hat & Hleft).
      apply headerAt_iff in Hat as [rest Hm].
      exists before, after, rest. repeat split; auto.
      intros before' after' d rest' Heq' Hlt.
      exact (proj1 (Hnone after') (Hleft _ _ Heq' Hlt) d rest').
    - intros (before & after & rest & Heq & Hm & Hleft).
      exists before, after. repeat split; auto.
      + apply headerAt_iff. eauto.
      + intros before' after' Heq' Hlt. apply Hnone.
        intros d rest'. exact (Hleft _ _ d rest' Heq' Hlt). }
  split; [exact Hsome|].
  split.
  - intros H before after d rest Heq Hm.
    assert (Hex : exists newStart, Diff.hunkMatch line = Some newStart).
    { clear H Hsome. subst line.
      induction before as [|c before IH]; cbn [append Diff.hunkMatch].
      - assert (E : Diff.headerAt after = Some d)
          by (apply headerAt_iff; eauto).
        destruct after; cbn [Diff.hunkMatch]; rewrite E; eauto.
      - destruct (Diff.headerAt (String c (before ++ after))); eauto. }
    destruct Hex as [n Hn]. congruence.
  - intros H. destruct (Diff.hunkMatch line) as [d|] eqn:E; [|reflexivity].
    destruct (proj1 (Hsome d) eq_refl)
      as (before & after & rest & Heq & Hm & _).
    now apply (H before after d rest) in Hm.
Qed.

(** ** SuggestionValidator: the rules as a whole *)

Lemma trimEnd_idem y : Js.trimEnd (Js.trimEnd y) = Js.trimEnd y.
Proof.
  induction y as [|c r IH]; [reflexivity|].
  rewrite trimEnd_cons.
  destruct (Js.truthy (Js.trimEnd r) || negb (Js.isSpace c)) eqn:Hk;
    [|reflexivity].
  rewrite trimEnd_cons, IH, Hk. reflexivity.
Qed.

Lemma trim_idem x : Js.trim (Js.trim x) = Js.trim x.
Proof.
  unfold Js.trim.
  rewrite (trimStart_id (Js.trimEnd (Js.trimStart x)))
    by (apply trimEnd_headNotSpace, trimStart_headNotSpace).
  apply trimEnd_idem.
Qed.

Lemma includes_cons_nonempty c r a sub :
  Js.includes (String c r) (String a sub)
  = Js.isPrefix (String a sub) (String c r) || Js.includes r (String a sub).
Proof. reflexivity. Qed.

(** A substring whose ends are no white space survives trimming. *)
Lemma includes_into_trimStart x sub :
  firstNotSpace sub = true ->
  Js.includes x sub = true -> Js.includes (Js.trimStart x) sub = true.
Proof.
  destruct sub as [|a sub]; [discriminate|]. cbn [firstNotSpace].
  intros Ha. induction x as [|c r IH]; [auto|].
  cbn [Js.trimStart]. destruct (Js.isSpace c) eqn:Hc; [|auto].
  rewrite includes_cons_nonempty. cbn [Js.isPrefix].
  destruct (Ascii.eqb_spec a c) as [->|_].
  - rewrite Hc in Ha. discriminate.
  - cbn [andb orb]. exact IH.
Qed.

Lemma truthy_of_includes x a sub :
  Js.includes x (String a sub) = true -> Js.truthy x = true.
Proof. destruct x; [discriminate|reflexivity]. Qed.

Lemma isPrefix_truthy y a sub :
  Js.isPrefix (String a sub) y = true -> Js.truthy y = true.
Proof. destruct y; [discriminate|reflexivity]. Qed.

Lemma isPrefix_into_trimEnd sub : forall y,
  lastNotSpace sub = true ->
  Js.isPrefix sub y = true -> Js.isPrefix sub (Js.trimEnd y) = true.
Proof.
  induction sub as [|a sub IH]; intros y Hlast Hp; [discriminate|].
  destruct y as [|b y]; [discriminate|].
  cbn [Js.isPrefix] in Hp. apply andb_true_iff in Hp as [Hab Hp].
  apply Ascii.eqb_eq in Hab. subst b.
  rewrite trimEnd_cons.
  destruct sub as [|a' sub'].
  - cbn [lastNotSpace] in Hlast. rewrite Hlast, orb_true_r.
    cbn [Js.isPrefix]. now rewrite Ascii.eqb_refl.
  - assert (Hrec : Js.isPrefix (String a' sub') (Js.trimEnd y) = true)
      by (apply IH; auto).
    rewrite (isPrefix_truthy _ _ _ Hrec). cbn [orb Js.isPrefix] in *.
    now rewrite Ascii.eqb_refl, Hrec.
Qed.

Lemma includes_into_trimEnd x sub :
  lastNotSpace sub = true ->
  Js.includes x sub = true -> Js.includes (Js.trimEnd x) sub = true.
Proof.
  destruct sub as [|a sub]; [discriminate|].
  intros Hlast. induction x as [|c r IH]; [auto|].
  rewrite includes_cons_nonempty. intros H.
  apply orb_true_iff in H as [H|H].
  - apply (isPrefix_into_trimEnd _ _ Hlast) in H.
    destruct (Js.trimEnd (String c r)) eqn:E; [discriminate|].
    rewrite includes_cons_nonempty, H. reflexivity.
  - specialize (IH H). rewrite trimEnd_cons.
    rewrite (truthy_of_includes _ _ _ IH). cbn [orb].
    rewrite includes_cons_nonempty, IH. apply orb_true_r.
Qed.

Lemma includes_into_trim x sub :
  firstNotSpace sub = true -> lastNotSpace sub = true ->
  Js.includes x sub = true -> Js.includes (Js.trim x) sub = true.
Proof.
  intros Hf Hl H. unfold Js.trim.
  now apply includes_into_trimEnd, includes_into_trimStart.
Qed.

(** The phrase test of the code, on the trimmed suggestion, is rule 5 on
    the suggestion. *)
Lemma advisory_eq suggestion :
  existsb (fun indicator =>
             Js.includes (Js.toLowerCase (Js.trim suggestion)) indicator)
    Suggestion.adviceIndicators
  = Rules.advisory suggestion.
Proof.
  destruct (existsb _ Suggestion.adviceIndicators) eqn:E.
  - symmetry. now apply advisory_trim.
  - symmetry. apply not_true_is_false. intros H. revert E.
    unfold Rules.advisory in H. rewrite toLowerCase_trim.
    assert (Hedges : forallb (fun i => firstNotSpace i && lastNotSpace i)
                       Suggestion.adviceIndicators = true) by reflexivity.
    induction Suggestion.adviceIndicators as [|ind l IH];
      [discriminate|].
    cbn [existsb forallb] in *.
    apply andb_true_iff in Hedges as [Hind Hl].
    apply andb_true_iff in Hind as [Hf Hlast].
    apply orb_true_iff in H as [H|H].
    + rewrite (includes_into_trim _ _ Hf Hlast H). discriminate.
    + intros E. apply orb_false_iff in E as [_ E]. now apply IH.
Qed.

Lemma emptySuggestion_eq suggestion :
  negb (Js.truthy suggestion) || (Js.len (Js.trim suggestion) =? 0)
  = Rules.emptySuggestion suggestion.
Proof.
  unfold Rules.emptySuggestion. rewrite len_zero.
  destruct suggestion as [|c r]; [reflexivity|].
  cbn [Js.truthy String.eqb negb orb].
  destruct (Js.trim (String c r)); reflexivity.
Qed.

(** The validator as one expression over the rules. *)
Lemma isValidSuggestion_eq suggestion original :
  Suggestion.isValidSuggestion suggestion (Some original)
  = Js.truthy original
    && Rules.passes1to5 suggestion (Some original)
    && (negb (Js.includes original ":" && Js.includes suggestion ":")
        || String.eqb (Rules.key original) (Rules.key suggestion)).
Proof.
  unfold Suggestion.isValidSuggestion, Rules.passes1to5.
  rewrite emptySuggestion_eq, advisory_eq, !includes_colon_trim, !keyOf_trim.
  unfold Suggestion.keyOf. rewrite !hd_split_colon.
  fold (Rules.key original). fold (Rules.key suggestion).
  fold (Rules.multiLine suggestion).
  fold (Rules.unchanged suggestion original).
  destruct (Rules.emptySuggestion suggestion);
    [now rewrite andb_false_r|].
  destruct (Rules.multiLine suggestion); [now rewrite andb_false_r|].
  destruct (Js.truthy original); [|reflexivity].
  destruct (Rules.unchanged suggestion original); [reflexivity|].
  destruct (Rules.advisory suggestion); [reflexivity|].
  destruct (Js.includes original ":" && Js.includes suggestion ":");
    [|reflexivity].
  destruct (String.eqb (Rules.key original) (Rules.key suggestion));
    reflexivity.
Qed.

(** X7: a suggestion is admissible exactly when the original is known
    and not the empty string, none of rules 1 to 5 rejects it (rule 5 read
    on the suggestion as given, in any case of letters), and, when both
    lines hold a colon, the trimmed texts before their first colons are
    equal. *)
Theorem isValidSuggestion_iff suggestion originalLine :
  Suggestion.isValidSuggestion suggestion originalLine = true <->
  exists original,
    originalLine = Some original
    /\ original <> ""
    /\ Rules.passes1to5 suggestion (Some original) = true
    /\ (Js.includes original ":" = true ->
        Js.includes suggestion ":" = true ->
        Rules.key original = Rules.key suggestion).
Proof.
  destruct originalLine as [original|].
  - rewrite isValidSuggestion_eq. split.
    + intros H. apply andb_true_iff in H as [H Hkey].
      apply andb_true_iff in H as [Ht Hpass].
      exists original. repeat split; auto.
      * intros ->. discriminate.
      * intros Ho Hs. rewrite Ho, Hs in Hkey. cbn in Hkey.
        now apply String.eqb_eq.
    + intros (o & Ho & Hne & Hpass & Hkey). inversion Ho; subst o.
      rewrite Hpass.
      assert (Ht : Js.truthy original = true)
        by (destruct original; [contradiction|reflexivity]).
      rewrite Ht. cbn [andb].
      destruct (Js.includes original ":"); [|reflexivity].
      destruct (Js.includes suggestion ":"); [|reflexivity].
      cbn [andb negb orb]. apply String.eqb_eq. auto.
  - split.
    + intros H. exfalso. revert H. unfold Suggestion.isValidSuggestion.
      destruct (negb (Js.truthy suggestion)
                || (Js.len (Js.trim suggestion) =? 0)); [discriminate|].
      destruct (Js.includes suggestion Suggestion.LF
                || Js.includes suggestion Suggestion.CR); discriminate.
    + intros (o & Ho & _). discriminate.
Qed.

Lemma multiLine_trim suggestion :
  Rules.multiLine suggestion = false ->
  Rules.multiLine (Js.trim suggestion) = false.
Proof.
  unfold Rules.multiLine. intros H. apply orb_false_iff in H as [H1 H2].
  apply orb_false_iff. split; apply not_true_is_false; intros H.
  - apply includes_trim_sub in H. congruence.
  - apply includes_trim_sub in H. congruence.
Qed.

Lemma key_trim x : Rules.key (Js.trim x) = Rules.key x.
Proof.
  pose proof (keyOf_trim x) as H. unfold Suggestion.keyOf in H.
  now rewrite !hd_split_colon in H.
Qed.

Lemma passes1to5_trim suggestion original :
  Rules.multiLine suggestion = false ->
  Rules.passes1to5 (Js.trim suggestion) (Some (Js.trim original))
  = Rules.passes1to5 suggestion (Some original).
Proof.
  intros Hm. unfold Rules.passes1to5.
  rewrite (multiLine_trim _ Hm), Hm.
  unfold Rules.emptySuggestion, Rules.unchanged. rewrite !trim_idem.
  replace (Rules.advisory (Js.trim suggestion))
    with (Rules.advisory suggestion); [reflexivity|].
  symmetry. apply advisory_eq.
Qed.

(** X8: surrounding white space does not matter to the validator: for a
    suggestion without a line break and an original that is not blank,
    the verdict is that on the two trimmed texts. *)
Theorem isValidSuggestion_trim suggestion original :
  Js.includes suggestion Suggestion.LF = false ->
  Js.includes suggestion Suggestion.CR = false ->
  Js.trim original <> "" ->
  Suggestion.isValidSuggestion suggestion (Some original)
  = Suggestion.isValidSuggestion (Js.trim suggestion)
      (Some (Js.trim original)).
Proof.
  intros HLF HCR Hne.
  assert (Hm : Rules.multiLine suggestion = false)
    by (unfold Rules.multiLine; now rewrite HLF, HCR).
  rewrite !isValidSuggestion_eq, (passes1to5_trim _ _ Hm),
    !includes_colon_trim, !key_trim.
  assert (Ht : Js.truthy (Js.trim original) = true)
    by (destruct (Js.trim original); [contradiction|reflexivity]).
  assert (Ho : Js.truthy original = true).
  { destruct original; [|reflexivity]. now contradiction Hne. }
  now rewrite Ht, Ho.
Qed.

Lemma isValidSuggestion_trim_witness :
  Suggestion.isValidSuggestion "  retries: 3 " (Some "    retries: 5")
  = Suggestion.isValidSuggestion (Js.trim "  retries: 3 ")
      (Some (Js.trim "    retries: 5")).
Proof.
  apply (isValidSuggestion_trim "  retries: 3 " "    retries: 5");
    [reflexivity|reflexivity|discriminate].
Defined.

(** X9: against an original line of white space only (not the empty
    string) rules 3, 4 and 6 reject nothing: a suggestion is admissible
    exactly when it is not blank, holds no line break and holds no
    advisory phrase. *)
Theorem isValidSuggestion_blank_original suggestion original :
  original <> "" ->
  Js.trim original = "" ->
  Suggestion.isValidSuggestion suggestion (Some original)
  = negb (Rules.emptySuggestion suggestion)
    && negb (Rules.multiLine suggestion)
    && negb (Rules.advisory suggestion).
Proof.
  intros Hne Hblank. rewrite isValidSuggestion_eq.
  assert (Ho : Js.truthy original = true)
    by (destruct original; [contradiction|reflexivity]).
  assert (Hc : Js.includes original ":" = false).
  { rewrite <- includes_colon_trim, Hblank. reflexivity. }
  rewrite Ho, Hc. cbn [andb negb orb]. rewrite andb_true_r.
  unfold Rules.passes1to5, Rules.unchanged, Rules.emptySuggestion.
  rewrite Hblank.
  destruct (String.eqb (Js.trim suggestion) ""); [reflexivity|].
  cbn [negb andb]. reflexivity.
Qed.

Lemma isValidSuggestion_blank_original_witness :
  Suggestion.isValidSuggestion "return x;" (Some "    ")
  = negb (Rules.emptySuggestion "return x;")
    && negb (Rules.multiLine "return x;")
    && negb (Rules.advisory "return x;").
Proof.
  apply (isValidSuggestion_blank_original "return x;" "    ");
    [discriminate|reflexivity].
Defined.

(** ** CommentSynthesizer: what the list of comments looks like *)

Lemma pushComments_app filePath patchLines is1 is2 :
  Synth.pushComments filePath patchLines (is1 ++ is2)%list
  = (Synth.pushComments filePath patchLines is1
     ++ Synth.pushComments filePath patchLines is2)%list.
Proof.
  induction is1 as [|i rest IH]; [reflexivity|].
  cbn [app Synth.pushComments].
  destruct (Synth.commentFor filePath patchLines i); [|exact IH].
  cbn [app]. now rewrite IH.
Qed.

Lemma pushComments_length filePath patchLines issues :
  (List.length (Synth.pushComments filePath patchLines issues)
   <= List.length issues)%nat.
Proof.
  induction issues as [|i rest IH]; [reflexivity|].
  cbn [Synth.pushComments List.length].
  destruct (Synth.commentFor filePath patchLines i); cbn [List.length]; lia.
Qed.

(** X10: there is one comment at most an issue, and every comment names
    the file, sits on the RIGHT side, and has for its line a position
    inside the patch at which the patch has an added line. *)
Theorem createReviewComments_bounds filePath issues patch :
  (List.length (Synth.createReviewComments filePath issues patch)
   <= List.length issues)%nat
  /\ forall c,
       In c (Synth.createReviewComments filePath issues patch) ->
       ReviewComment.path c = filePath
       /\ ReviewComment.side c = Some "RIGHT"
       /\ ReviewComment.start_line c = None
       /\ 1 <= ReviewComment.line c <= lenZ (Js.split "010" patch)
       /\ exists content,
            Diff.lineAt (Js.split "010" patch) (ReviewComment.line c - 1)
            = Some (String "+" content).
Proof.
  unfold Synth.createReviewComments. split; [apply pushComments_length|].
  intros c Hin. apply pushComments_In in Hin as (issue & _ & Hc).
  unfold Synth.commentFor in Hc.
  destruct (Diff.mapLineToDiff (ReviewIssue.line issue) (Js.split "010" patch))
    as [p|] eqn:Hmap; [|discriminate].
  inversion Hc; subst c; clear Hc.
  cbn [ReviewComment.path ReviewComment.side ReviewComment.start_line
       ReviewComment.line].
  apply mapLineToDiff_Some in Hmap as (Hp & line & Hat & _ & Hplus).
  assert (Hle : p <= lenZ (Js.split "010" patch)).
  { unfold Diff.lineAt in Hat. destruct (p - 1 <? 0); [discriminate|].
    assert (Hn : nth_error (Js.split "010" patch) (Z.to_nat (p - 1)) <> None)
      by congruence.
    apply nth_error_Some in Hn. unfold lenZ. lia. }
  split; [reflexivity|]. split; [reflexivity|]. split; [reflexivity|].
  split; [lia|].
  destruct line as [|ch content]; [discriminate|].
  unfold Js.startsWith in Hplus. cbn [Js.isPrefix] in Hplus.
  apply andb_true_iff in Hplus as [Hch _].
  apply Ascii.eqb_eq in Hch. subst ch. eauto.
Qed.

Lemma createReviewComments_bounds_witness :
  exists c,
    In c (Synth.createReviewComments "a.txt" [replaceIssue] oneHunkPatch)
    /\ ReviewComment.path c = "a.txt"
    /\ ReviewComment.side c = Some "RIGHT"
    /\ ReviewComment.start_line c = None
    /\ 1 <= ReviewComment.line c <= lenZ (Js.split "010" oneHunkPatch)
    /\ exists content,
         Diff.lineAt (Js.split "010" oneHunkPatch) (ReviewComment.line c - 1)
         = Some (String "+" content).
Proof.
  eexists. split; [left; reflexivity|].
  apply (proj2 (createReviewComments_bounds "a.txt" [replaceIssue]
                  oneHunkPatch)).
  left. reflexivity.
Defined.

(** X11: the issues are turned into comments one by one and in order:
    the comments of two lists of issues joined are the comments of the
    first followed by those of the second, and the lines of the comments
    are the positions of the issues that map, duplicates included. *)
Theorem createReviewComments_in_order filePath patch :
  (forall is1 is2,
      Synth.createReviewComments filePath (is1 ++ is2)%list patch
      = (Synth.createReviewComments filePath is1 patch
         ++ Synth.createReviewComments filePath is2 patch)%list)
  /\ (forall issues,
         map ReviewComment.line
           (Synth.createReviewComments filePath issues patch)
         = positionsOf (Js.split "010" patch) issues).
Proof.
  unfold Synth.createReviewComments. split.
  - intros is1 is2. apply pushComments_app.
  - intros issues. unfold positionsOf.
    induction issues as [|i rest IH]; [reflexivity|].
    cbn [Synth.pushComments flat_map]. unfold Synth.commentFor at 1.
    destruct (Diff.mapLineToDiff (ReviewIssue.line i) (Js.split "010" patch));
      cbn [map app ReviewComment.line]; now rewrite IH.
Qed.

(** ** RetryExecutor: every run accounted for *)

Lemma delaysFrom_S config first n :
  delaysFrom config first (S n)
  = Retry.delayOf config first :: delaysFrom config (first + 1) n.
Proof.
  unfold delaysFrom. cbn [seq map]. rewrite Z.add_0_r. f_equal.
  rewrite <- seq_shift, map_map. apply map_ext. intros j.
  f_equal. lia.
Qed.

Section RetrySpec.
Context {T St : Type}.
Variable operation : St -> Exn.result T * St.
Variable config : Retry.RetryOptions.

(** What the loop has done when it ends: it has invoked the operation [n]
    times, all but the last invocation failed with a retryable error and
    were followed by a suspension and a warning, and the last invocation
    decides the outcome. *)
Lemma retryLoop_spec :
  forall fuel attempt lastError st calls sleeps warnings r,
    Retry.retryLoop operation config fuel attempt lastError st
      calls sleeps warnings = Some r ->
    exists n : nat,
      Retry.calls r = calls + Z.of_nat n
      /\ Retry.final r = stateAfter operation n st
      /\ Retry.sleeps r = (sleeps ++ delaysFrom config attempt (pred n))%list
      /\ List.length (Retry.warnings r)
         = (List.length warnings + pred n)%nat
      /\ (forall j, (j < pred n)%nat ->
            exists e,
              invocation operation st j = Exn.Throw e
              /\ Retry.isRetryable e (Retry.retryableErrors config) = true)
      /\ match n with
         | O =>
             Retry.maxAttempts config < attempt
             /\ Retry.outcome r
                = Exn.Throw
                    (Exn.ErrorValue
                       (Retry.orDefault lastError
                          (Exn.PlainError "Unknown error in retry loop")))
         | S m =>
             attempt + Z.of_nat m <= Retry.maxAttempts config
             /\ match invocation operation st m with
                | Exn.Ok v => Retry.outcome r = Exn.Ok v
                | Exn.Throw e =>
                    (attempt + Z.of_nat m = Retry.maxAttempts config
                     /\ Retry.outcome r
                        = Exn.Throw
                            (Exn.ErrorValue
                               (Exn.RetryExhaustedError (Retry.asError e)
                                  (Retry.maxAttempts config))))
                    \/ (attempt + Z.of_nat m < Retry.maxAttempts config
                        /\ Retry.isRetryable e (Retry.retryableErrors config)
                           = false
                        /\ Retry.outcome r = Exn.Throw e)
                end
         end.
Proof.
  unfold invocation.
  induction fuel as [|fuel IH]; intros attempt lastError st calls sleeps
    warnings r; cbn [Retry.retryLoop]; [discriminate|].
  destruct (Z.leb_spec attempt (Retry.maxAttempts config)) as [Hle|Hgt].
  - destruct (operation st) as [[v|e] st'] eqn:Hop.
    + intros H; inversion H; subst r; clear H. exists 1%nat.
      cbn [Retry.calls Retry.final Retry.sleeps Retry.warnings Retry.outcome
           stateAfter pred delaysFrom seq map].
      rewrite Hop, app_nil_r. cbn [fst snd].
      split; [lia|]. split; [reflexivity|]. split; [reflexivity|].
      split; [lia|]. split; [intros j Hj; lia|]. split; [lia|reflexivity].
    + destruct (Z.eqb_spec attempt (Retry.maxAttempts config)) as [Heq|Hne].
      * intros H; inversion H; subst r; clear H. exists 1%nat.
        cbn [Retry.calls Retry.final Retry.sleeps Retry.warnings
             Retry.outcome stateAfter pred delaysFrom seq map].
        rewrite Hop, app_nil_r. cbn [fst snd].
        split; [lia|]. split; [reflexivity|]. split; [reflexivity|].
        split; [lia|]. split; [intros j Hj; lia|]. split; [lia|].
        left. split; [lia|]. now rewrite Heq.
      * destruct (Retry.isRetryable e (Retry.retryableErrors config))
          eqn:Hre; cbn [negb].
        -- intros H. apply IH in H
             as (n & Hcalls & Hfin & Hsl & Hw & Hprev & Hlast).
           destruct n as [|m]; [destruct Hlast; lia|].
           exists (S (S m)).
           cbn [pred] in *. cbn [stateAfter]. rewrite Hop. cbn [snd].
           rewrite delaysFrom_S, Hsl, <- app_assoc.
           rewrite length_app in Hw. cbn [List.length] in Hw.
           split; [lia|]. split; [exact Hfin|]. split; [reflexivity|].
           split; [lia|]. split.
           ++ intros [|j] Hj.
              ** cbn [stateAfter]. rewrite Hop. cbn [fst]. eauto.
              ** cbn [stateAfter]. rewrite Hop. cbn [snd].
                 apply Hprev. lia.
           ++ destruct Hlast as [Hm Hlast]. split; [lia|].
              destruct (fst (operation (stateAfter operation m st')))
                as [v|e']; [exact Hlast|].
              destruct Hlast as [[Hmax Hout]|(Hlt & Hnr & Hout)];
                [left; split; [lia|exact Hout]
                |right; split; [lia|split; [exact Hnr|exact Hout]]].
        -- intros H; inversion H; subst r; clear H. exists 1%nat.
           cbn [Retry.calls Retry.final Retry.sleeps Retry.warnings
                Retry.outcome stateAfter pred delaysFrom seq map].
           rewrite Hop, app_nil_r. cbn [fst snd].
           split; [lia|]. split; [reflexivity|]. split; [reflexivity|].
           split; [lia|]. split; [intros j Hj; lia|]. split; [lia|].
           right. split; [lia|]. split; [exact Hre|reflexivity].
  - intros H; inversion H; subst r; clear H. exists 0%nat.
    cbn [Retry.calls Retry.final Retry.sleeps Retry.warnings Retry.outcome
         stateAfter pred delaysFrom seq map].
    rewrite app_nil_r.
    split; [lia|]. split; [reflexivity|]. split; [reflexivity|].
    split; [lia|]. split; [intros j Hj; lia|]. split; [lia|reflexivity].
Qed.

End RetrySpec.

Lemma delaysFrom_length config first n :
  List.length (delaysFrom config first n) = n.
Proof. unfold delaysFrom. now rewrite length_map, length_seq. Qed.

Lemma delaysFrom_capped config first n :
  Forall (fun d => d <= Retry.maxBackoffMs config) (delaysFrom config first n).
Proof.
  unfold delaysFrom. apply Forall_forall. intros d Hd.
  apply in_map_iff in Hd as (j & <- & _). unfold Retry.delayOf. lia.
Qed.

(** The suspensions, by the formula of the source. *)
Lemma delaysFrom_formula options b m k :
  givenOr (Retry.backoffMs_opt options) 1000 b ->
  givenOr (Retry.maxBackoffMs_opt options) 30000 m ->
  delaysFrom (Retry.configOf options) 1 k
  = map (fun attempt => Z.min (b * 2 ^ (attempt - 1)) m)
      (map Z.of_nat (seq 1 k)).
Proof.
  intros Hb Hm. unfold delaysFrom, Retry.delayOf.
  rewrite (configOf_backoffMs _ _ Hb), (configOf_maxBackoffMs _ _ Hm).
  rewrite <- seq_shift, !map_map. apply map_ext. intros j.
  do 3 f_equal. lia.
Qed.

(** Every call comes back, and what it did adds up. *)
Lemma withRetry_accounts_config {T St : Type}
  (operation : St -> Exn.result T * St) (options : Retry.PartialRetryOptions)
  (st : St) :
  exists r,
    Retry.withRetry operation options st = Some r
    /\ 0 <= Retry.calls r
    /\ Retry.final r = stateAfter operation (Z.to_nat (Retry.calls r)) st
    /\ Retry.sleeps r
       = delaysFrom (Retry.configOf options) 1
           (Z.to_nat (Retry.calls r - 1))
    /\ List.length (Retry.warnings r) = List.length (Retry.sleeps r)
    /\ Forall (fun d => d <= Retry.maxBackoffMs (Retry.configOf options))
         (Retry.sleeps r).
Proof.
  unfold Retry.withRetry.
  destruct (retryLoop_total operation (Retry.configOf options)
              (Retry.fuelFor (Retry.configOf options)) 1 None st 0 [] [])
    as (r & Hr & _ & _); [unfold Retry.fuelFor; lia|].
  exists r. split; [exact Hr|].
  apply retryLoop_spec in Hr as (n & Hcalls & Hfin & Hsl & Hw & _ & _).
  cbn [app List.length] in *.
  replace (Z.to_nat (Retry.calls r)) with n by lia.
  replace (Z.to_nat (Retry.calls r - 1)) with (pred n) by lia.
  rewrite Hsl, delaysFrom_length.
  repeat split; auto; try lia. apply delaysFrom_capped.
Qed.

(** X12: every call of the retry executor comes back, and the books
    balance: the state is that after as many invocations as were counted,
    there is one suspension and one warning for each invocation but the
    last, the suspension after attempt [a] lasts
    [min (backoffMs * 2^(a-1)) maxBackoffMs], and none lasts longer than
    [maxBackoffMs]; [backoffMs] and [maxBackoffMs] are what the caller
    gives, and else 1000 and 30000. *)
Theorem withRetry_accounts {T St : Type}
  (operation : St -> Exn.result T * St) (options : Retry.PartialRetryOptions)
  (st : St) (backoffMs maxBackoffMs : Z) :
  givenOr (Retry.backoffMs_opt options) 1000 backoffMs ->
  givenOr (Retry.maxBackoffMs_opt options) 30000 maxBackoffMs ->
  exists r,
    Retry.withRetry operation options st = Some r
    /\ 0 <= Retry.calls r
    /\ Retry.final r = stateAfter operation (Z.to_nat (Retry.calls r)) st
    /\ Retry.sleeps r
       = map (fun attempt =>
                Z.min (backoffMs * 2 ^ (attempt - 1)) maxBackoffMs)
           (map Z.of_nat (seq 1 (Z.to_nat (Retry.calls r - 1))))
    /\ List.length (Retry.sleeps r) = Z.to_nat (Retry.calls r - 1)
    /\ List.length (Retry.warnings r) = List.length (Retry.sleeps r)
    /\ Forall (fun d => d <= maxBackoffMs) (Retry.sleeps r).
Proof.
  intros Hb Hm.
  destruct (withRetry_accounts_config operation options st)
    as (r & Hr & Hcalls & Hfin & Hsl & Hw & Hcap).
  exists r. split; [exact Hr|]. split; [exact Hcalls|]. split; [exact Hfin|].
  rewrite (configOf_maxBackoffMs _ _ Hm) in Hcap.
  split; [|split; [|split; assumption]].
  - rewrite Hsl. now apply delaysFrom_formula.
  - rewrite Hsl. apply delaysFrom_length.
Qed.

Lemma withRetry_accounts_witness :
  exists r,
    Retry.withRetry flaky Retry.noOptions 0 = Some r
    /\ Retry.calls r = 3
    /\ Retry.sleeps r = [1000; 2000]
    /\ List.length (Retry.warnings r) = 2%nat.
Proof.
  destruct (withRetry_accounts flaky Retry.noOptions 0 1000 30000
              (or_intror (conj eq_refl eq_refl))
              (or_intror (conj eq_refl eq_refl)))
    as (r & Hr & _ & _ & Hsl & _ & Hw & _).
  assert (Hcalls : Retry.calls r = 3).
  { vm_compute in Hr. inversion Hr. reflexivity. }
  rewrite Hcalls in Hsl. exists r.
  split; [exact Hr|]. split; [exact Hcalls|]. split; [exact Hsl|].
  rewrite Hw, Hsl. reflexivity.
Defined.


(** Failures that are retryable, then a return. *)
Lemma withRetry_recovers_config {T St : Type}
  (operation : St -> Exn.result T * St) (options : Retry.PartialRetryOptions)
  (st : St) (k : nat) (v : T) :
  Z.of_nat k < Retry.maxAttempts (Retry.configOf options) ->
  (forall j, (j < k)%nat ->
     exists e,
       invocation operation st j = Exn.Throw e
       /\ Retry.isRetryable e
            (Retry.retryableErrors (Retry.configOf options)) = true) ->
  invocation operation st k = Exn.Ok v ->
  exists r,
    Retry.withRetry operation options st = Some r
    /\ Retry.outcome r = Exn.Ok v
    /\ Retry.calls r = Z.of_nat k + 1
    /\ Retry.final r = stateAfter operation (S k) st
    /\ Retry.sleeps r = delaysFrom (Retry.configOf options) 1 k.
Proof.
  intros Hk Hfail Hok. unfold Retry.withRetry.
  destruct (retryLoop_total operation (Retry.configOf options)
              (Retry.fuelFor (Retry.configOf options)) 1 None st 0 [] [])
    as (r & Hr & _ & _); [unfold Retry.fuelFor; lia|].
  exists r. split; [exact Hr|].
  apply retryLoop_spec in Hr as (n & Hcalls & Hfin & Hsl & _ & Hprev & Hlast).
  assert (Hn : n = S k).
  { destruct n as [|m]; [destruct Hlast; lia|].
    f_equal. destruct Hlast as [Hm Hlast]. cbn [pred] in Hprev.
    destruct (Nat.lt_trichotomy m k) as [Hlt|[Heq|Hgt]]; [|exact Heq|].
    - destruct (Hfail m Hlt) as (e & He & Hre). rewrite He in Hlast.
      destruct Hlast as [[Hmax _]|(_ & Hnr & _)]; [lia|congruence].
    - destruct (Hprev k Hgt) as (e & He & _). congruence. }
  subst n. cbn [pred app] in *. rewrite Hok in Hlast.
  destruct Hlast as [_ Hout].
  repeat split; auto. lia.
Qed.

(** X14: an operation whose first [k] invocations throw an [Error]
    whose message holds a retryable marker and whose next invocation
    returns [v], with [k] less than [maxAttempts]: the call returns [v]
    after [k + 1] invocations and [k] suspensions, of
    [min (backoffMs * 2^(a-1)) maxBackoffMs] after attempt [a].  The
    four settings are what the caller gives, and else 3 attempts, the
    seven default markers, 1000 and 30000. *)
Theorem withRetry_recovers {T St : Type}
  (operation : St -> Exn.result T * St) (options : Retry.PartialRetryOptions)
  (st : St) (k : nat) (v : T)
  (maxAttempts : Z) (markers : list string) (backoffMs maxBackoffMs : Z) :
  givenOr (Retry.maxAttempts_opt options) 3 maxAttempts ->
  givenOr (Retry.retryableErrors_opt options) defaultMarkers markers ->
  givenOr (Retry.backoffMs_opt options) 1000 backoffMs ->
  givenOr (Retry.maxBackoffMs_opt options) 30000 maxBackoffMs ->
  Z.of_nat k < maxAttempts ->
  (forall j, (j < k)%nat ->
     exists e,
       invocation operation st j = Exn.Throw (Exn.ErrorValue e)
       /\ holdsMarker markers e) ->
  invocation operation st k = Exn.Ok v ->
  exists r,
    Retry.withRetry operation options st = Some r
    /\ Retry.outcome r = Exn.Ok v
    /\ Retry.calls r = Z.of_nat k + 1
    /\ Retry.final r = stateAfter operation (S k) st
    /\ Retry.sleeps r
       = map (fun attempt =>
                Z.min (backoffMs * 2 ^ (attempt - 1)) maxBackoffMs)
           (map Z.of_nat (seq 1 k)).
Proof.
  intros Hmax Hmarkers Hb Hm Hk Hfail Hok.
  apply configOf_maxAttempts in Hmax.
  apply configOf_retryableErrors in Hmarkers.
  destruct (withRetry_recovers_config operation options st k v)
    as (r & Hr & Hout & Hcalls & Hfin & Hsl).
  - now rewrite Hmax.
  - intros j Hj. destruct (Hfail j Hj) as (e & He & Hhold).
    exists (Exn.ErrorValue e). split; [exact He|].
    rewrite Hmarkers. apply isRetryable_holdsMarker. eauto.
  - exact Hok.
  - exists r. split; [exact Hr|]. split; [exact Hout|].
    split; [exact Hcalls|]. split; [exact Hfin|].
    rewrite Hsl. now apply delaysFrom_formula.
Qed.

Lemma withRetry_recovers_witness :
  exists r,
    Retry.withRetry flaky Retry.noOptions 0 = Some r
    /\ Retry.outcome r = Exn.Ok 42
    /\ Retry.calls r = 3
    /\ Retry.final r = 3
    /\ Retry.sleeps r = [1000; 2000].
Proof.
  apply (withRetry_recovers flaky Retry.noOptions 0 2 42 3 defaultMarkers
           1000 30000).
  - right. split; reflexivity.
  - right. split; reflexivity.
  - right. split; reflexivity.
  - right. split; reflexivity.
  - reflexivity.
  - intros j Hj. exists (Exn.PlainError "connect ETIMEDOUT").
    destruct j as [|[|j]]; [| |lia];
      (split; [reflexivity|]; exists "ETIMEDOUT";
       split; [left; reflexivity|reflexivity]).
  - reflexivity.
Defined.


(** ** Delivery: truncation and what a return means *)

(** X15: truncating twice is truncating once, and the result of
    truncation starts with the same 65000 characters as the body. *)
Theorem truncateBody_idempotent body :
  GitHub.truncateBody (GitHub.truncateBody body) = GitHub.truncateBody body
  /\ Js.substring0 65000 (GitHub.truncateBody body)
     = Js.substring0 65000 body.
Proof.
  destruct (truncateBody_spec body) as (Hshort & Hlong & _).
  destruct (Z.le_gt_cases (Js.len body) 65000) as [Hle|Hgt].
  - rewrite (Hshort Hle). split; [exact (Hshort Hle)|reflexivity].
  - destruct (Hlong Hgt) as [Heq Hlen]. rewrite Heq.
    assert (Hsub : Js.substring0 65000
                     (Js.substring0 65000 body ++ GitHub.truncationMarker)
                   = Js.substring0 65000 body).
    { apply substring0_again; [lia|apply startsCharacter_truncationMarker]. }
    split; [|exact Hsub].
    unfold GitHub.truncateBody at 1.
    rewrite <- Heq, Hlen, len_truncationMarker.
    change (65000 + 17 >? 65000) with true. cbn iota.
    now rewrite Heq, Hsub.
Qed.

Section Delivered.
Variable host : GitHub.remote.

Lemma stateAfter_send req n : forall sent,
  stateAfter (GitHub.send host req) n sent = (sent ++ repeat req n)%list.
Proof.
  induction n as [|n IH]; intros sent; cbn [stateAfter repeat].
  - now rewrite app_nil_r.
  - unfold GitHub.send at 2. cbn [snd]. rewrite IH, <- app_assoc.
    reflexivity.
Qed.

(** A request sent with retry: the copies sent, and, when the call
    returns, the host's acceptance of the last copy. *)
Lemma sendWithRetry_outcome req sent0 :
  exists res k,
    GitHub.sendWithRetry host req sent0
    = Some (res, (sent0 ++ repeat req (S k))%list)
    /\ (k < 3)%nat
    /\ (forall j, (j < k)%nat ->
          exists e, GitHub.write host (sent0 ++ repeat req j)%list req
                    = Exn.Throw e)
    /\ match res with
       | Exn.Ok _ =>
           GitHub.write host (sent0 ++ repeat req k)%list req = Exn.Ok tt
       | Exn.Throw _ =>
           exists e, GitHub.write host (sent0 ++ repeat req k)%list req
                     = Exn.Throw e
       end.
Proof.
  unfold GitHub.sendWithRetry, Retry.withRetry.
  destruct (retryLoop_total (GitHub.send host req)
              (Retry.configOf GitHub.threeAttempts)
              (Retry.fuelFor (Retry.configOf GitHub.threeAttempts))
              1 None sent0 0 [] []) as (r & Hr & _ & _); [cbn; lia|].
  rewrite Hr.
  apply retryLoop_spec in Hr as (n & _ & Hfin & _ & _ & Hprev & Hlast).
  change (Retry.maxAttempts (Retry.configOf GitHub.threeAttempts)) with 3
    in *.
  destruct n as [|k]; [destruct Hlast; lia|].
  exists (Retry.outcome r), k. rewrite Hfin, stateAfter_send.
  split; [reflexivity|]. destruct Hlast as [Hk Hlast]. split; [lia|].
  cbn [pred] in Hprev. unfold invocation in *.
  split.
  - intros j Hj. destruct (Hprev j Hj) as (e & He & _).
    rewrite stateAfter_send in He. unfold GitHub.send in He. cbn [fst] in He.
    eauto.
  - rewrite stateAfter_send in Hlast. unfold GitHub.send in Hlast.
    cbn [fst] in Hlast.
    destruct (GitHub.write host (sent0 ++ repeat req k)%list req) as [[]|e].
    + rewrite Hlast. reflexivity.
    + destruct Hlast as [[_ ->]|(_ & _ & ->)]; eauto.
Qed.

(** X16: when [postGeneralComment] returns, the host has accepted the
    comment with the truncated body, on the first, second or third try,
    the tries before having failed; when it throws, the host has accepted
    none of the tries. *)
Theorem postGeneralComment_outcome body sent0 :
  exists res k,
    GitHub.postGeneralComment host body sent0
    = Some (res,
            (sent0 ++ repeat
               (GitHub.IssuesCreateComment (GitHub.truncateBody body))
               (S k))%list)
    /\ (k < 3)%nat
    /\ (forall j, (j < k)%nat ->
          exists e,
            GitHub.write host
              (sent0 ++ repeat
                 (GitHub.IssuesCreateComment (GitHub.truncateBody body)) j)%list
              (GitHub.IssuesCreateComment (GitHub.truncateBody body))
            = Exn.Throw e)
    /\ match res with
       | Exn.Ok _ =>
           GitHub.write host
             (sent0 ++ repeat
                (GitHub.IssuesCreateComment (GitHub.truncateBody body)) k)%list
             (GitHub.IssuesCreateComment (GitHub.truncateBody body))
           = Exn.Ok tt
       | Exn.Throw _ =>
           exists e,
             GitHub.write host
               (sent0 ++ repeat
                  (GitHub.IssuesCreateComment (GitHub.truncateBody body))
                  k)%list
               (GitHub.IssuesCreateComment (GitHub.truncateBody body))
             = Exn.Throw e
       end.
Proof. unfold GitHub.postGeneralComment. apply sendWithRetry_outcome. Qed.

Lemma postEach_posted sha comments : forall sent0,
  exists added,
    GitHub.postEach host sha comments sent0
    = Some (Exn.Ok tt, (sent0 ++ added)%list)
    /\ postedEach sha comments added.
Proof.
  induction comments as [|c rest IH]; intros sent0; cbn [GitHub.postEach].
  - exists []. rewrite app_nil_r. split; [reflexivity|constructor].
  - unfold GitHub.bind, GitHub.catchAndWarn.
    destruct (sendWithRetry_outcome
                (GitHub.PullsCreateReviewComment sha (GitHub.payloadOf c))
                sent0) as (res & k & -> & Hk & _).
    destruct (IH (sent0 ++ repeat
                    (GitHub.PullsCreateReviewComment sha (GitHub.payloadOf c))
                    (S k))%list) as (added & -> & Hadded).
    exists (repeat (commentRequest sha c) (S k) ++ added)%list.
    split; [now rewrite app_assoc|]. now constructor.
Qed.

(** X17: [postReviewComments] does not give up on a failure: when the
    read of the commit succeeds it returns normally whatever the host
    answers to the comments, and it has then tried every comment, in the
    order given, once at least and three times at most; when the read
    fails it throws that error and tries no comment. *)
Theorem postReviewComments_tries_all comments sent0 :
  comments <> [] ->
  match GitHub.pullsGet host sent0 with
  | Exn.Ok pr =>
      exists added,
        GitHub.postReviewComments host comments sent0
        = Some (Exn.Ok tt, (sent0 ++ GitHub.PullsGet :: added)%list)
        /\ postedEach (GitHub.head_sha pr) comments added
  | Exn.Throw e =>
      GitHub.postReviewComments host comments sent0
      = Some (Exn.Throw e, (sent0 ++ [GitHub.PullsGet])%list)
  end.
Proof.
  intros Hne. unfold GitHub.postReviewComments.
  destruct comments as [|c rest]; [contradiction|].
  change (Z.of_nat (List.length (c :: rest)) =? 0) with false. cbn iota.
  unfold GitHub.bind, GitHub.getCommitSha, GitHub.bind, GitHub.getPull,
    GitHub.ret.
  destruct (GitHub.pullsGet host sent0) as [pr|e]; [|reflexivity].
  destruct (postEach_posted (GitHub.head_sha pr) (c :: rest)
              (sent0 ++ [GitHub.PullsGet])%list) as (added & -> & Hadded).
  exists added. split; [now rewrite <- app_assoc|exact Hadded].
Qed.

End Delivered.

Lemma postReviewComments_tries_all_witness :
  exists added,
    GitHub.postReviewComments failingHost [shortComment 2; shortComment 3] []
    = Some (Exn.Ok tt, ([] ++ GitHub.PullsGet :: added)%list)
    /\ postedEach "c0ffee" [shortComment 2; shortComment 3] added.
Proof.
  apply (postReviewComments_tries_all failingHost
           [shortComment 2; shortComment 3] []).
  discriminate.
Defined.

Section DeliveredReview.
Variable host : GitHub.remote.

(** X18: [createReview], given comments: when the read of the commit
    fails it throws that error and sends no review; else it sends one
    review request, with the truncated body and all the comments, up to
    three times, and it returns only when the host has accepted it. *)
Theorem createReview_outcome comments body event sent0 :
  comments <> [] ->
  match GitHub.pullsGet host sent0 with
  | Exn.Throw e =>
      GitHub.createReview host comments body event sent0
      = Some (Exn.Throw e, (sent0 ++ [GitHub.PullsGet])%list)
  | Exn.Ok pr =>
      let req :=
        GitHub.PullsCreateReview (GitHub.head_sha pr)
          (GitHub.truncateBody body) event (map GitHub.payloadOf comments) in
      exists res k,
        GitHub.createReview host comments body event sent0
        = Some (res, (sent0 ++ GitHub.PullsGet :: repeat req (S k))%list)
        /\ (k < 3)%nat
        /\ match res with
           | Exn.Ok _ =>
               GitHub.write host
                 (sent0 ++ GitHub.PullsGet :: repeat req k)%list req
               = Exn.Ok tt
           | Exn.Throw _ =>
               exists e,
                 GitHub.write host
                   (sent0 ++ GitHub.PullsGet :: repeat req k)%list req
                 = Exn.Throw e
           end
  end.
Proof.
  intros Hne. unfold GitHub.createReview.
  destruct comments as [|c rest]; [contradiction|].
  change (Z.of_nat (List.length (c :: rest)) =? 0) with false. cbn iota.
  unfold GitHub.bind, GitHub.getCommitSha, GitHub.bind, GitHub.getPull,
    GitHub.ret.
  destruct (GitHub.pullsGet host sent0) as [pr|e]; [|reflexivity].
  cbv zeta.
  destruct (sendWithRetry_outcome host
              (GitHub.PullsCreateReview (GitHub.head_sha pr)
                 (GitHub.truncateBody body) event
                 (map GitHub.payloadOf (c :: rest)))
              (sent0 ++ [GitHub.PullsGet])%list)
    as (res & k & Hs & Hk & _ & Hres).
  exists res, k. rewrite Hs.
  repeat rewrite <- app_assoc in *. cbn [app] in *.
  split; [reflexivity|]. split; [exact Hk|exact Hres].
Qed.

End DeliveredReview.

Lemma createReview_outcome_witness :
  exists res k,
    GitHub.createReview acceptingHost [shortComment 2] "Summary" "COMMENT" []
    = Some (res,
            ([] ++ GitHub.PullsGet
                :: repeat
                     (GitHub.PullsCreateReview "c0ffee"
                        (GitHub.truncateBody "Summary") "COMMENT"
                        (map GitHub.payloadOf [shortComment 2]))
                     (S k))%list)
    /\ (k < 3)%nat
    /\ match res with
       | Exn.Ok _ =>
           GitHub.write acceptingHost
             ([] ++ GitHub.PullsGet
                 :: repeat
                      (GitHub.PullsCreateReview "c0ffee"
                         (GitHub.truncateBody "Summary") "COMMENT"
                         (map GitHub.payloadOf [shortComment 2]))
                      k)%list
             (GitHub.PullsCreateReview "c0ffee"
                (GitHub.truncateBody "Summary") "COMMENT"
                (map GitHub.payloadOf [shortComment 2]))
           = Exn.Ok tt
       | Exn.Throw _ =>
           exists e,
             GitHub.write acceptingHost
               ([] ++ GitHub.PullsGet
                   :: repeat
                        (GitHub.PullsCreateReview "c0ffee"
                           (GitHub.truncateBody "Summary") "COMMENT"
                           (map GitHub.payloadOf [shortComment 2]))
                        k)%list
               (GitHub.PullsCreateReview "c0ffee"
                  (GitHub.truncateBody "Summary") "COMMENT"
                  (map GitHub.payloadOf [shortComment 2]))
             = Exn.Throw e
       end.
Proof.
  apply (createReview_outcome acceptingHost [shortComment 2] "Summary"
           "COMMENT" []).
  discriminate.
Defined.

(** ** Orchestrator: the run as a whole *)

Section RunFacts.
Variable config : Orchestrator.Config.
Variable host : GitHub.remote.
Variable llm : Orchestrator.LLMClient.
Variable minimatch : string -> string -> bool.

(** The run, step by step. *)
Lemma runReview_unfold sent :
  Orchestrator.runReview config host llm minimatch sent
  = match GitHub.pullsGet host sent with
    | Exn.Throw e => Some (Exn.Throw e, (sent ++ [GitHub.PullsGet])%list)
    | Exn.Ok pr =>
        let sent2 :=
          ((sent ++ [GitHub.PullsGet]) ++ [GitHub.PullsListFiles])%list in
        match GitHub.listFiles host (sent ++ [GitHub.PullsGet])%list with
        | Exn.Throw e => Some (Exn.Throw e, sent2)
        | Exn.Ok listed =>
            let files :=
              keptFiles minimatch (Orchestrator.excludePatterns config)
                listed in
            if Orchestrator.lengthZ files =? 0
            then Some (Exn.Ok noFilesSummary, sent2)
            else
              let results :=
                Orchestrator.reviewEach config llm pr
                  (filesToReviewOf config files) [] [] in
              match Orchestrator.generateSummary llm
                      (fileSummaries (snd results))
                      (Orchestrator.prompt config) with
              | Exn.Throw e => Some (Exn.Throw e, sent2)
              | Exn.Ok overallSummary =>
                  match Orchestrator.postReview config host
                          (fst results) (snd results) overallSummary
                          (Orchestrator.sumOf FileResult.criticalCount
                             (snd results))
                          (Orchestrator.sumOf FileResult.warningCount
                             (snd results))
                          (Orchestrator.sumOf FileResult.suggestionCount
                             (snd results))
                          sent2 with
                  | None => None
                  | Some (Exn.Ok _, sent3) =>
                      Some (Exn.Ok (summaryOf files (fst results)
                                      (snd results) overallSummary),
                            sent3)
                  | Some (Exn.Throw e, sent3) => Some (Exn.Throw e, sent3)
                  end
              end
        end
    end.
Proof.
  unfold Orchestrator.runReview, GitHub.bind, GitHub.getPRDetails,
    GitHub.getPull, GitHub.getChangedFiles, GitHub.ret.
  destruct (GitHub.pullsGet host sent) as [pr|e]; [|reflexivity].
  destruct (GitHub.listFiles host (sent ++ [GitHub.PullsGet])%list)
    as [listed|e]; [|reflexivity].
  cbv zeta. fold (keptFiles minimatch (Orchestrator.excludePatterns config)
                    listed).
  destruct (Orchestrator.lengthZ
              (keptFiles minimatch (Orchestrator.excludePatterns config)
                 listed) =? 0); [reflexivity|].
  fold (filesToReviewOf config
          (keptFiles minimatch (Orchestrator.excludePatterns config) listed)).
  destruct (Orchestrator.reviewEach config llm pr _ [] [])
    as [allComments fileResults].
  cbn [fst snd]. fold (fileSummaries fileResults).
  destruct (Orchestrator.generateSummary llm (fileSummaries fileResults)
              (Orchestrator.prompt config)); reflexivity.
Qed.

Lemma sumOf_acc f rs : forall a,
  fold_left (fun sum r => sum + f r) rs a = a + Orchestrator.sumOf f rs.
Proof.
  unfold Orchestrator.sumOf.
  induction rs as [|r rs IH]; intros a; cbn [fold_left]; [lia|].
  rewrite (IH (a + f r)), (IH (0 + f r)). lia.
Qed.

Lemma sumOf_app f rs1 rs2 :
  Orchestrator.sumOf f (rs1 ++ rs2)%list
  = Orchestrator.sumOf f rs1 + Orchestrator.sumOf f rs2.
Proof.
  unfold Orchestrator.sumOf at 1. rewrite fold_left_app.
  fold (Orchestrator.sumOf f rs1). apply sumOf_acc.
Qed.

Lemma sumOf_nonneg f rs :
  Forall (fun r => 0 <= f r) rs -> 0 <= Orchestrator.sumOf f rs.
Proof.
  induction 1 as [|r rs Hr _ IH]; [reflexivity|].
  change (r :: rs) with ([r] ++ rs)%list. rewrite sumOf_app.
  unfold Orchestrator.sumOf at 1. cbn [fold_left]. lia.
Qed.

Lemma lengthZ_nonneg {A : Type} (l : list A) : 0 <= Orchestrator.lengthZ l.
Proof. unfold Orchestrator.lengthZ. lia. Qed.

Lemma lengthZ_app {A : Type} (l1 l2 : list A) :
  Orchestrator.lengthZ (l1 ++ l2)%list
  = Orchestrator.lengthZ l1 + Orchestrator.lengthZ l2.
Proof. unfold Orchestrator.lengthZ. rewrite length_app. lia. Qed.

Lemma fromFile_cons file files name :
  fromFile files name -> fromFile (file :: files) name.
Proof. intros (f & Hin & Hs & Hn). exists f. split; [now right|auto]. Qed.

Lemma reviewFile_Ok file prTitle prDescription comments r :
  Orchestrator.reviewFile config llm file prTitle prDescription
  = Exn.Ok (comments, r) ->
  FileResult.issueCount r = Orchestrator.lengthZ comments
  /\ FileResult.filePath r = GitHub.filename file
  /\ countsNonneg r
  /\ Forall (fun c => ReviewComment.path c = GitHub.filename file) comments.
Proof.
  unfold Orchestrator.reviewFile.
  destruct (Orchestrator.reviewCode llm _ _ _ _ _) as [result|e];
    [|discriminate].
  intros H; inversion H; subst; clear H.
  cbn [FileResult.issueCount FileResult.filePath]. unfold countsNonneg.
  cbn [FileResult.issueCount FileResult.criticalCount
       FileResult.warningCount FileResult.suggestionCount].
  unfold Orchestrator.countSeverity.
  repeat split; try apply lengthZ_nonneg.
  apply Forall_forall. intros c Hc.
  apply pushComments_In in Hc as (issue & _ & Hc).
  unfold Synth.commentFor in Hc.
  destruct (Diff.mapLineToDiff _ _); [|discriminate].
  now inversion Hc.
Qed.

(** What the loop over the files adds to its two lists. *)
Lemma reviewEach_spec pr files : forall cs0 rs0,
  exists cs rs,
    Orchestrator.reviewEach config llm pr files cs0 rs0
    = ((cs0 ++ cs)%list, (rs0 ++ rs)%list)
    /\ (List.length rs <= List.length files)%nat
    /\ Orchestrator.lengthZ cs = Orchestrator.sumOf FileResult.issueCount rs
    /\ Forall countsNonneg rs
    /\ Forall (fun r => fromFile files (FileResult.filePath r)) rs
    /\ Forall (fun c => fromFile files (ReviewComment.path c)) cs.
Proof.
  induction files as [|file rest IH]; intros cs0 rs0;
    cbn [Orchestrator.reviewEach].
  - exists [], []. rewrite !app_nil_r. repeat split; auto.
  - assert (Hskip : forall cs rs,
               (List.length rs <= List.length rest)%nat
               /\ Orchestrator.lengthZ cs
                  = Orchestrator.sumOf FileResult.issueCount rs
               /\ Forall countsNonneg rs
               /\ Forall (fun r => fromFile rest (FileResult.filePath r)) rs
               /\ Forall (fun c => fromFile rest (ReviewComment.path c)) cs ->
               (List.length rs <= List.length (file :: rest))%nat
               /\ Orchestrator.lengthZ cs
                  = Orchestrator.sumOf FileResult.issueCount rs
               /\ Forall countsNonneg rs
               /\ Forall (fun r => fromFile (file :: rest)
                                     (FileResult.filePath r)) rs
               /\ Forall (fun c => fromFile (file :: rest)
                                     (ReviewComment.path c)) cs).
    { intros cs rs (Hlen & Hsum & Hnn & Hrs & Hcs). cbn [List.length].
      repeat split; auto.
      - eapply Forall_impl; [|exact Hrs]. intros r. apply fromFile_cons.
      - eapply Forall_impl; [|exact Hcs]. intros c. apply fromFile_cons. }
    destruct (Orchestrator.skipped file) eqn:Hsk.
    + destruct (IH cs0 rs0) as (cs & rs & -> & H). exists cs, rs. auto.
    + destruct (Orchestrator.reviewFile config llm file _ _)
        as [[comments r]|e] eqn:Hrf.
      * destruct (IH (cs0 ++ comments)%list (rs0 ++ [r])%list)
          as (cs & rs & -> & Hlen & Hsum & Hnn & Hrs & Hcs).
        apply reviewFile_Ok in Hrf as (Hic & Hfp & Hr & Hpaths).
        exists (comments ++ cs)%list, (r :: rs).
        rewrite <- !app_assoc. cbn [app].
        split; [reflexivity|]. split; [cbn [List.length]; lia|].
        split.
        { rewrite lengthZ_app. change (r :: rs) with ([r] ++ rs)%list.
          rewrite sumOf_app. unfold Orchestrator.sumOf at 1.
          cbn [fold_left]. lia. }
        split; [constructor; auto|].
        assert (Hfile : forall name,
                   name = GitHub.filename file ->
                   fromFile (file :: rest) name).
        { intros name ->. exists file. split; [now left|auto]. }
        split.
        { constructor; [now apply Hfile|].
          eapply Forall_impl; [|exact Hrs]. intros x. apply fromFile_cons. }
        apply Forall_app. split.
        { eapply Forall_impl; [|exact Hpaths]. intros c Hc.
          now apply Hfile. }
        { eapply Forall_impl; [|exact Hcs]. intros x. apply fromFile_cons. }
      * destruct (IH cs0 rs0) as (cs & rs & -> & H). exists cs, rs. auto.
Qed.

End RunFacts.

Lemma filesToReviewOf_length config files :
  (List.length (filesToReviewOf config files) <= List.length files)%nat
  /\ (0 < Orchestrator.maxFiles config ->
      Z.of_nat (List.length (filesToReviewOf config files))
      <= Orchestrator.maxFiles config).
Proof.
  unfold filesToReviewOf.
  destruct (Z.gtb_spec (Orchestrator.maxFiles config) 0) as [Hpos|Hle].
  - pose proof (firstn_le_length (Z.to_nat (Orchestrator.maxFiles config)) files).
    pose proof (length_firstn (Z.to_nat (Orchestrator.maxFiles config)) files).
    split; [lia|]. intros _. lia.
  - split; [lia|]. intros H. lia.
Qed.

Lemma filesToReviewOf_In config files file :
  In file (filesToReviewOf config files) -> In file files.
Proof.
  unfold filesToReviewOf.
  destruct (Orchestrator.maxFiles config >? 0); [|auto].
  rewrite <- (firstn_skipn (Z.to_nat (Orchestrator.maxFiles config)) files)
    at 2.
  intros H. apply in_or_app. now left.
Qed.

(** X19: the figures of a run that returns: the files reviewed are no
    more than the files changed, and no more than [maxFiles] when that is
    positive; no figure is negative; and when no file was reviewed, all
    the other figures are zero. *)
Theorem runReview_statistics config host llm minimatch sent summary sent' :
  Orchestrator.runReview config host llm minimatch sent
  = Some (Exn.Ok summary, sent') ->
  0 <= ReviewSummary.filesReviewed summary <= ReviewSummary.totalFiles summary
  /\ (0 < Orchestrator.maxFiles config ->
      ReviewSummary.filesReviewed summary <= Orchestrator.maxFiles config)
  /\ 0 <= ReviewSummary.totalComments summary
  /\ 0 <= ReviewSummary.criticalIssues summary
  /\ 0 <= ReviewSummary.warnings summary
  /\ 0 <= ReviewSummary.suggestions summary
  /\ (ReviewSummary.filesReviewed summary = 0 ->
      ReviewSummary.totalComments summary = 0
      /\ ReviewSummary.criticalIssues summary = 0
      /\ ReviewSummary.warnings summary = 0
      /\ ReviewSummary.suggestions summary = 0).
Proof.
  rewrite runReview_unfold.
  destruct (GitHub.pullsGet host sent) as [pr|e]; [|discriminate].
  destruct (GitHub.listFiles host _) as [listed|e]; [|discriminate].
  cbv zeta.
  set (files := keptFiles minimatch (Orchestrator.excludePatterns config)
                  listed).
  destruct (Orchestrator.lengthZ files =? 0).
  { intros H; inversion H; subst. cbn. repeat split; lia. }
  destruct (reviewEach_spec config llm pr (filesToReviewOf config files)
              [] [])
    as (cs & rs & -> & Hlen & Hsum & Hnn & _ & _).
  cbn [fst snd app].
  destruct (Orchestrator.generateSummary llm _ _) as [s|e]; [|discriminate].
  destruct (Orchestrator.postReview _ _ _ _ _ _ _ _ _) as [[[u|e] sent3]|];
    try discriminate.
  intros H; inversion H; subst; clear H.
  unfold summaryOf.
  cbn [ReviewSummary.filesReviewed ReviewSummary.totalFiles
       ReviewSummary.totalComments ReviewSummary.criticalIssues
       ReviewSummary.warnings ReviewSummary.suggestions].
  destruct (filesToReviewOf_length config files) as [Hle Hmax].
  assert (Hc : 0 <= Orchestrator.sumOf FileResult.criticalCount rs).
  { apply sumOf_nonneg. eapply Forall_impl; [|exact Hnn].
    intros r Hr. apply Hr. }
  assert (Hw : 0 <= Orchestrator.sumOf FileResult.warningCount rs).
  { apply sumOf_nonneg. eapply Forall_impl; [|exact Hnn].
    intros r Hr. apply Hr. }
  assert (Hs : 0 <= Orchestrator.sumOf FileResult.suggestionCount rs).
  { apply sumOf_nonneg. eapply Forall_impl; [|exact Hnn].
    intros r Hr. apply Hr. }
  pose proof (lengthZ_nonneg cs) as Hcs.
  unfold Orchestrator.lengthZ in *.
  split; [lia|]. split; [intros Hpos; specialize (Hmax Hpos); lia|].
  split; [lia|]. split; [lia|]. split; [lia|]. split; [lia|].
  intros Hzero. destruct rs as [|r rs]; [|cbn [List.length] in Hzero; lia].
  rewrite Hsum. repeat split; reflexivity.
Qed.

Lemma runReview_statistics_witness :
  Orchestrator.runReview (configWith false) acceptingHost quietLLM
    (fun _ _ => false) []
  = Some (Exn.Ok quietRunSummary,
          [GitHub.PullsGet; GitHub.PullsListFiles;
           GitHub.IssuesCreateComment
             (Orchestrator.approvalBody "Nothing to report.")])
  /\ 0 <= ReviewSummary.filesReviewed quietRunSummary
       <= ReviewSummary.totalFiles quietRunSummary
  /\ (0 < Orchestrator.maxFiles (configWith false) ->
      ReviewSummary.filesReviewed quietRunSummary
      <= Orchestrator.maxFiles (configWith false))
  /\ 0 <= ReviewSummary.totalComments quietRunSummary
  /\ 0 <= ReviewSummary.criticalIssues quietRunSummary
  /\ 0 <= ReviewSummary.warnings quietRunSummary
  /\ 0 <= ReviewSummary.suggestions quietRunSummary
  /\ (ReviewSummary.filesReviewed quietRunSummary = 0 ->
      ReviewSummary.totalComments quietRunSummary = 0
      /\ ReviewSummary.criticalIssues quietRunSummary = 0
      /\ ReviewSummary.warnings quietRunSummary = 0
      /\ ReviewSummary.suggestions quietRunSummary = 0).
Proof.
  split; [reflexivity|].
  apply (runReview_statistics (configWith false) acceptingHost quietLLM
           (fun _ _ => false) [] quietRunSummary
           [GitHub.PullsGet; GitHub.PullsListFiles;
            GitHub.IssuesCreateComment
              (Orchestrator.approvalBody "Nothing to report.")]).
  reflexivity.
Defined.

Section PostFacts.
Variable config : Orchestrator.Config.
Variable host : GitHub.remote.

(** The requests of the "Post review" step: a review only with the
    event [COMMENT] and the comments of the run, which are then not
    none; comments on their own only for comments of the run. *)
Lemma postReview_requests allComments fileResults overallSummary
  criticalIssues warnings suggestions sent :
  exists res added,
    Orchestrator.postReview config host allComments fileResults
      overallSummary criticalIssues warnings suggestions sent
    = Some (res, (sent ++ added)%list)
    /\ forall req, In req added ->
         commentReviewOnly req
         /\ forall c, In c (commentsOf req) ->
              exists c0, In c0 allComments /\ c = GitHub.payloadOf c0.
Proof.
  unfold Orchestrator.postReview.
  destruct (Z.gtb_spec (Orchestrator.lengthZ allComments) 0) as [Hpos|Hzero].
  - assert (Hne : allComments <> []).
    { intros ->. cbn in Hpos. lia. }
    destruct (Orchestrator.postAsReview config).
    + destruct (createReview_sent host allComments
                  (Orchestrator.formatReviewBody overallSummary fileResults
                     criticalIssues warnings suggestions) "COMMENT" sent)
        as (res & added & -> & Hadded).
      exists res, added. split; [reflexivity|].
      intros req Hreq. destruct (Hadded req Hreq) as [->|[sha ->]].
      * split; [exact I|intros c []].
      * cbn [commentReviewOnly commentsOf]. split.
        -- split; [reflexivity|].
           destruct allComments; [contradiction|discriminate].
        -- intros c Hc. apply in_map_iff in Hc as (c0 & <- & Hc0). eauto.
    + unfold GitHub.bind.
      destruct (postReviewComments_sent host allComments sent)
        as (res1 & added1 & -> & Hadded1).
      assert (H1 : forall req, In req added1 ->
                 commentReviewOnly req
                 /\ forall c, In c (commentsOf req) ->
                      exists c0, In c0 allComments /\ c = GitHub.payloadOf c0).
      { intros req Hreq.
        destruct (Hadded1 req Hreq) as [->|(sha & c0 & Hc0 & ->)].
        - split; [exact I|intros c []].
        - cbn [commentReviewOnly commentsOf]. split; [exact I|].
          intros c [<-|[]]. eauto. }
      destruct res1 as [u|e].
      * destruct (postGeneralComment_sent host
                    (Orchestrator.formatReviewBody overallSummary fileResults
                       criticalIssues warnings suggestions)
                    (sent ++ added1)%list) as (res & k & -> & _).
        exists res, (added1 ++ repeat
                       (GitHub.IssuesCreateComment
                          (GitHub.truncateBody
                             (Orchestrator.formatReviewBody overallSummary
                                fileResults criticalIssues warnings
                                suggestions))) k)%list.
        split; [now rewrite app_assoc|].
        intros req Hreq. apply in_app_or in Hreq as [Hreq|Hreq]; [auto|].
        apply repeat_spec in Hreq. subst req.
        split; [exact I|intros c []].
      * exists (Exn.Throw e), added1. split; [reflexivity|exact H1].
  - destruct (Orchestrator.postAsReview config).
    + exists (Exn.Ok tt), []. rewrite app_nil_r.
      split; [reflexivity|intros req []].
    + destruct (postGeneralComment_sent host
                  (Orchestrator.approvalBody overallSummary) sent)
        as (res & k & -> & _).
      eexists res, _. split; [reflexivity|].
      intros req Hreq. apply repeat_spec in Hreq. subst req.
      split; [exact I|intros c []].
Qed.

End PostFacts.

(** The requests of a run: the two reads, then those of the "Post
    review" step, whose comments are comments of files that were
    reviewed. *)
Lemma runReview_requests config host llm minimatch sent :
  exists res added,
    Orchestrator.runReview config host llm minimatch sent
    = Some (res, (sent ++ added)%list)
    /\ forall req, In req added ->
         commentReviewOnly req
         /\ forall c, In c (commentsOf req) ->
              exists listed,
                GitHub.listFiles host (sent ++ [GitHub.PullsGet])%list
                = Exn.Ok listed
                /\ fromFile
                     (filesToReviewOf config
                        (keptFiles minimatch
                           (Orchestrator.excludePatterns config) listed))
                     (ReviewComment.path c).
Proof.
  rewrite runReview_unfold.
  assert (Hreads : forall req,
             In req [GitHub.PullsGet; GitHub.PullsListFiles] ->
             commentReviewOnly req
             /\ forall c, In c (commentsOf req) ->
                  exists listed,
                    GitHub.listFiles host (sent ++ [GitHub.PullsGet])%list
                    = Exn.Ok listed
                    /\ fromFile
                         (filesToReviewOf config
                            (keptFiles minimatch
                               (Orchestrator.excludePatterns config) listed))
                         (ReviewComment.path c)).
  { intros req [<-|[<-|[]]]; (split; [exact I|intros c []]). }
  destruct (GitHub.pullsGet host sent) as [pr|e].
  2:{ exists (Exn.Throw e), [GitHub.PullsGet]. split; [reflexivity|].
      intros req Hreq. apply Hreads. destruct Hreq as [<-|[]]. now left. }
  cbv zeta.
  destruct (GitHub.listFiles host (sent ++ [GitHub.PullsGet])%list)
    as [listed|e] eqn:Hlist.
  2:{ exists (Exn.Throw e), [GitHub.PullsGet; GitHub.PullsListFiles].
      split; [now rewrite <- app_assoc|]. exact Hreads. }
  set (files := keptFiles minimatch (Orchestrator.excludePatterns config)
                  listed).
  destruct (Orchestrator.lengthZ files =? 0).
  { exists (Exn.Ok noFilesSummary), [GitHub.PullsGet; GitHub.PullsListFiles].
    split; [now rewrite <- app_assoc|]. exact Hreads. }
  destruct (reviewEach_spec config llm pr (filesToReviewOf config files)
              [] [])
    as (cs & rs & -> & _ & _ & _ & _ & Hcs).
  cbn [fst snd app].
  destruct (Orchestrator.generateSummary llm _ _) as [s|e].
  2:{ exists (Exn.Throw e), [GitHub.PullsGet; GitHub.PullsListFiles].
      split; [now rewrite <- app_assoc|]. exact Hreads. }
  destruct (postReview_requests config host cs rs s
              (Orchestrator.sumOf FileResult.criticalCount rs)
              (Orchestrator.sumOf FileResult.warningCount rs)
              (Orchestrator.sumOf FileResult.suggestionCount rs)
              ((sent ++ [GitHub.PullsGet]) ++ [GitHub.PullsListFiles])%list)
    as (res & added & -> & Hadded).
  assert (Hall : forall req,
             In req ([GitHub.PullsGet; GitHub.PullsListFiles] ++ added)%list ->
             commentReviewOnly req
             /\ forall c, In c (commentsOf req) ->
                  exists listed0,
                    Exn.Ok listed = Exn.Ok listed0
                    /\ fromFile
                         (filesToReviewOf config
                            (keptFiles minimatch
                               (Orchestrator.excludePatterns config) listed0))
                         (ReviewComment.path c)).
  { intros req Hreq. apply in_app_or in Hreq as [Hreq|Hreq].
    - destruct Hreq as [<-|[<-|[]]]; (split; [exact I|intros c []]).
    - destruct (Hadded req Hreq) as [Hev Hfrom]. split; [exact Hev|].
      intros c Hc. destruct (Hfrom c Hc) as (c0 & Hc0 & ->).
      exists listed. split; [reflexivity|].
      rewrite Forall_forall in Hcs. exact (Hcs c0 Hc0). }
  destruct res as [u|e].
  - eexists (Exn.Ok _), ([GitHub.PullsGet; GitHub.PullsListFiles] ++ added)%list.
    split; [repeat rewrite <- app_assoc; reflexivity|exact Hall].
  - exists (Exn.Throw e),
      ([GitHub.PullsGet; GitHub.PullsListFiles] ++ added)%list.
    split; [repeat rewrite <- app_assoc; reflexivity|exact Hall].
Qed.

(** X20: a run always comes back, and it never approves and never
    requests changes: every review it creates has the event [COMMENT]
    and carries at least one comment. *)
Theorem runReview_never_approves config host llm minimatch sent :
  exists res added,
    Orchestrator.runReview config host llm minimatch sent
    = Some (res, (sent ++ added)%list)
    /\ Forall commentReviewOnly added.
Proof.
  destruct (runReview_requests config host llm minimatch sent)
    as (res & added & Hrun & Hadded).
  exists res, added. split; [exact Hrun|].
  apply Forall_forall. intros req Hreq. now apply Hadded.
Qed.

Lemma skipped_false file :
  Orchestrator.skipped file = false ->
  GitHub.status file <> "removed"
  /\ exists patch, GitHub.patch file = Some patch /\ patch <> "".
Proof.
  unfold Orchestrator.skipped. intros H.
  apply orb_false_iff in H as [Hstatus Hpatch]. split.
  - intros E. rewrite E in Hstatus. discriminate.
  - destruct (GitHub.patch file) as [patch|]; [|discriminate].
    exists patch. split; [reflexivity|].
    intros E. subst patch. discriminate.
Qed.

(** X21: a run comments only on files it reviewed: every comment it
    sends, in a review or on its own, names a file that the host listed,
    that no exclude pattern matches, that is among the first [maxFiles]
    of these when [maxFiles] is positive, whose status is not
    [removed], and that has a patch which is not empty. *)
Theorem runReview_comments_on_reviewed_files
  config host llm minimatch sent :
  exists res added,
    Orchestrator.runReview config host llm minimatch sent
    = Some (res, (sent ++ added)%list)
    /\ forall req c,
         In req added -> In c (commentsOf req) ->
         exists listed file patch,
           GitHub.listFiles host (sent ++ [GitHub.PullsGet])%list
           = Exn.Ok listed
           /\ In file listed
           /\ existsb (fun pattern => minimatch (GitHub.filename file) pattern)
                (Orchestrator.excludePatterns config) = false
           /\ In file
                (filesToReviewOf config
                   (keptFiles minimatch (Orchestrator.excludePatterns config)
                      listed))
           /\ GitHub.status file <> "removed"
           /\ GitHub.patch file = Some patch
           /\ patch <> ""
           /\ ReviewComment.path c = GitHub.filename file.
Proof.
  destruct (runReview_requests config host llm minimatch sent)
    as (res & added & Hrun & Hadded).
  exists res, added. split; [exact Hrun|].
  intros req c Hreq Hc.
  destruct (proj2 (Hadded req Hreq) c Hc)
    as (listed & Hlist & file & Hin & Hskip & Hpath).
  destruct (skipped_false file Hskip) as (Hstatus & patch & Hpatch & Hne).
  exists listed, file, patch.
  pose proof (filesToReviewOf_In _ _ _ Hin) as Hkept.
  unfold keptFiles in Hkept. apply filter_In in Hkept as [Hlisted Hex].
  apply negb_true_iff in Hex.
  repeat split; auto.
Qed.

Lemma runReview_comments_on_reviewed_files_witness :
  exists listed file patch,
    GitHub.listFiles acceptingHost ([] ++ [GitHub.PullsGet])%list
    = Exn.Ok listed
    /\ In file listed
    /\ existsb (fun pattern => (fun _ _ : string => false)
                                 (GitHub.filename file) pattern)
         (Orchestrator.excludePatterns (configWith false)) = false
    /\ In file
         (filesToReviewOf (configWith false)
            (keptFiles (fun _ _ => false)
               (Orchestrator.excludePatterns (configWith false)) listed))
    /\ GitHub.status file <> "removed"
    /\ GitHub.patch file = Some patch
    /\ patch <> ""
    /\ ReviewComment.path busyComment = GitHub.filename file.
Proof.
  destruct (runReview_comments_on_reviewed_files (configWith false)
              acceptingHost busyLLM (fun _ _ => false) [])
    as (res & added & Hrun & Hadded).
  apply (Hadded (GitHub.PullsCreateReviewComment "c0ffee" busyComment)
           busyComment); [|left; reflexivity].
  vm_compute in Hrun. inversion Hrun; subst added.
  right; right; right; left. reflexivity.
Defined.

Section FailedReviews.
Variable config : Orchestrator.Config.
Variable llm : Orchestrator.LLMClient.

Lemma reviewEach_all_throw pr files :
  (forall file, In file files ->
     exists e,
       Orchestrator.reviewCode llm (GitHub.filename file)
         (Orchestrator.patchOf file) (Orchestrator.prompt config)
         (Some (GitHub.title pr)) (Orchestrator.descriptionOf pr)
       = Exn.Throw e) ->
  forall cs0 rs0,
    Orchestrator.reviewEach config llm pr files cs0 rs0 = (cs0, rs0).
Proof.
  induction files as [|file rest IH]; intros Hthrow cs0 rs0;
    cbn [Orchestrator.reviewEach]; [reflexivity|].
  assert (Hrest : forall cs rs,
             Orchestrator.reviewEach config llm pr rest cs rs = (cs, rs)).
  { apply IH. intros f Hf. apply Hthrow. now right. }
  destruct (Orchestrator.skipped file); [apply Hrest|].
  unfold Orchestrator.reviewFile.
  destruct (Hthrow file (or_introl eq_refl)) as [e ->]. apply Hrest.
Qed.

End FailedReviews.

Lemma includes_noIssuesFound overallSummary :
  Js.includes (Orchestrator.approvalBody overallSummary) noIssuesFound = true.
Proof.
  unfold Orchestrator.approvalBody.
  do 6 apply includes_append_r.
  change "**No issues found!** Great job! 🎉"
    with (noIssuesFound ++ " Great job! 🎉").
  apply includes_self_append.
Qed.

Lemma truncateBody_short body :
  Js.len body <= 65000 -> GitHub.truncateBody body = body.
Proof. apply truncateBody_spec. Qed.

Lemma posted_says_noIssuesFound overallSummary :
  Js.len (Orchestrator.approvalBody overallSummary) <= 65000 ->
  GitHub.truncateBody (Orchestrator.approvalBody overallSummary)
  = Orchestrator.approvalBody overallSummary
  /\ Js.includes
       (GitHub.truncateBody (Orchestrator.approvalBody overallSummary))
       noIssuesFound = true.
Proof.
  intros H. rewrite (truncateBody_short _ H).
  split; [reflexivity|apply includes_noIssuesFound].
Qed.

(** X22: a run in which the review of every file throws still goes on to
    the "Post review" step with nothing found: with [postAsReview]
    disabled it posts the approval body, truncated, as a general
    comment, and what it returns counts no file as reviewed.  When the
    approval body is within 65000 code units, what is posted is the
    approval body itself, and it says that no issues were found. *)
Theorem runReview_all_reviews_fail
  config host llm minimatch sent pr listed overallSummary :
  Orchestrator.postAsReview config = false ->
  GitHub.pullsGet host sent = Exn.Ok pr ->
  GitHub.listFiles host (sent ++ [GitHub.PullsGet])%list = Exn.Ok listed ->
  keptFiles minimatch (Orchestrator.excludePatterns config) listed <> [] ->
  (forall file, In file listed ->
     exists e,
       Orchestrator.reviewCode llm (GitHub.filename file)
         (Orchestrator.patchOf file) (Orchestrator.prompt config)
         (Some (GitHub.title pr)) (Orchestrator.descriptionOf pr)
       = Exn.Throw e) ->
  Orchestrator.generateSummary llm [] (Orchestrator.prompt config)
  = Exn.Ok overallSummary ->
  exists res k,
    Orchestrator.runReview config host llm minimatch sent
    = Some (res,
            (sent ++ [GitHub.PullsGet; GitHub.PullsListFiles]
               ++ repeat
                    (GitHub.IssuesCreateComment
                       (GitHub.truncateBody
                          (Orchestrator.approvalBody overallSummary)))
                    k)%list)
    /\ (1 <= k <= 3)%nat
    /\ (Js.len (Orchestrator.approvalBody overallSummary) <= 65000 ->
        GitHub.truncateBody (Orchestrator.approvalBody overallSummary)
        = Orchestrator.approvalBody overallSummary
        /\ Js.includes
             (GitHub.truncateBody (Orchestrator.approvalBody overallSummary))
             noIssuesFound = true)
    /\ forall summary,
         res = Exn.Ok summary ->
         ReviewSummary.filesReviewed summary = 0
         /\ ReviewSummary.totalComments summary = 0
         /\ ReviewSummary.totalFiles summary
            = lenZ (keptFiles minimatch
                      (Orchestrator.excludePatterns config) listed).
Proof.
  intros Hpost Hpull Hlist Hkept Hthrow Hsum.
  rewrite runReview_unfold, Hpull, Hlist. cbv zeta.
  set (files := keptFiles minimatch (Orchestrator.excludePatterns config)
                  listed) in *.
  assert (Hlen : (Orchestrator.lengthZ files =? 0) = false).
  { apply Z.eqb_neq. unfold Orchestrator.lengthZ.
    destruct files; [contradiction|cbn [List.length]; lia]. }
  rewrite Hlen.
  rewrite (reviewEach_all_throw config llm pr (filesToReviewOf config files)).
  2:{ intros file Hin. apply Hthrow.
      apply filesToReviewOf_In in Hin. unfold files, keptFiles in Hin.
      now apply filter_In in Hin. }
  cbn [fst snd fileSummaries map]. rewrite Hsum.
  unfold Orchestrator.postReview. rewrite Hpost.
  change (Orchestrator.lengthZ (@nil ReviewComment.t) >? 0) with false.
  cbn iota.
  destruct (postGeneralComment_sent host
              (Orchestrator.approvalBody overallSummary)
              ((sent ++ [GitHub.PullsGet]) ++ [GitHub.PullsListFiles])%list)
    as (res & k & -> & Hk).
  assert (Hsent :
            ((((sent ++ [GitHub.PullsGet]) ++ [GitHub.PullsListFiles])
                ++ repeat
                     (GitHub.IssuesCreateComment
                        (GitHub.truncateBody
                           (Orchestrator.approvalBody overallSummary))) k)
             = sent ++ [GitHub.PullsGet; GitHub.PullsListFiles]
                 ++ repeat
                      (GitHub.IssuesCreateComment
                         (GitHub.truncateBody
                            (Orchestrator.approvalBody overallSummary)))
                      k)%list).
  { repeat rewrite <- app_assoc. reflexivity. }
  rewrite Hsent.
  destruct res as [u|e].
  - eexists (Exn.Ok _), k. split; [reflexivity|]. split; [exact Hk|].
    split; [apply posted_says_noIssuesFound|].
    intros summary H. inversion H; subst summary. repeat split.
  - exists (Exn.Throw e), k. split; [reflexivity|]. split; [exact Hk|].
    split; [apply posted_says_noIssuesFound|]. intros summary H. discriminate.
Qed.

Lemma runReview_all_reviews_fail_witness :
  exists res k,
    Orchestrator.runReview (configWith false) acceptingHost brokenLLM
      (fun _ _ => false) []
    = Some (res,
            ([GitHub.PullsGet; GitHub.PullsListFiles]
               ++ repeat
                    (GitHub.IssuesCreateComment
                       (Orchestrator.approvalBody "Nothing to report."))
                    k)%list)
    /\ (1 <= k <= 3)%nat
    /\ Js.includes (Orchestrator.approvalBody "Nothing to report.")
         noIssuesFound = true
    /\ forall summary,
         res = Exn.Ok summary ->
         ReviewSummary.filesReviewed summary = 0
         /\ ReviewSummary.totalComments summary = 0
         /\ ReviewSummary.totalFiles summary = 1.
Proof.
  destruct (runReview_all_reviews_fail (configWith false) acceptingHost
              brokenLLM (fun _ _ => false) []
              {| GitHub.title := "Add lines"; GitHub.body := None;
                 GitHub.head_sha := "c0ffee" |}
              [ {| GitHub.filename := "notes.txt";
                   GitHub.status := "modified";
                   GitHub.patch := Some exampleBlob |} ]
              "Nothing to report.")
    as (res & k & Hrun & Hk & Hbody & Hsummary);
    try reflexivity.
  - discriminate.
  - intros file _. eexists. reflexivity.
  - destruct Hbody as [Hsame Hsays]; [vm_compute; discriminate|].
    rewrite Hsame in Hrun, Hsays.
    exists res, k. split; [exact Hrun|]. split; [exact Hk|].
    split; [exact Hsays|exact Hsummary].
Defined.

Lemma severity_classes sv :
  (if String.eqb sv "critical" then 1 else 0)
  + (if String.eqb sv "warning" then 1 else 0)
  + (if String.eqb sv "suggestion" || String.eqb sv "info" then 1 else 0)
  <= 1
  /\ (In sv ["critical"; "warning"; "suggestion"; "info"] ->
      (if String.eqb sv "critical" then 1 else 0)
      + (if String.eqb sv "warning" then 1 else 0)
      + (if String.eqb sv "suggestion" || String.eqb sv "info" then 1 else 0)
      = 1).
Proof.
  destruct (String.eqb_spec sv "critical") as [->|H1];
    [split; [cbn; lia|intros _; reflexivity]|].
  destruct (String.eqb_spec sv "warning") as [->|H2];
    [split; [cbn; lia|intros _; reflexivity]|].
  destruct (String.eqb_spec sv "suggestion") as [->|H3];
    [split; [cbn; lia|intros _; reflexivity]|].
  destruct (String.eqb_spec sv "info") as [->|H4];
    [split; [cbn; lia|intros _; reflexivity]|].
  cbn [orb]. split; [lia|].
  intros [E|[E|[E|[E|[]]]]]; congruence.
Qed.

Lemma countSeverity_cons p issue rest :
  Orchestrator.countSeverity p (issue :: rest)
  = (if p (ReviewIssue.severity issue) then 1 else 0)
    + Orchestrator.countSeverity p rest.
Proof.
  unfold Orchestrator.countSeverity, Orchestrator.lengthZ. cbn [filter].
  destruct (p (ReviewIssue.severity issue)); cbn [List.length]; lia.
Qed.

Lemma countSeverity_classes reviews :
  Orchestrator.countSeverity (fun sv => String.eqb sv "critical") reviews
  + Orchestrator.countSeverity (fun sv => String.eqb sv "warning") reviews
  + Orchestrator.countSeverity
      (fun sv => String.eqb sv "suggestion" || String.eqb sv "info") reviews
  <= Orchestrator.lengthZ reviews
  /\ (Forall knownSeverity reviews ->
      Orchestrator.countSeverity (fun sv => String.eqb sv "critical") reviews
      + Orchestrator.countSeverity (fun sv => String.eqb sv "warning") reviews
      + Orchestrator.countSeverity
          (fun sv => String.eqb sv "suggestion" || String.eqb sv "info")
          reviews
      = Orchestrator.lengthZ reviews).
Proof.
  induction reviews as [|issue rest [IHle IHeq]]; [split; reflexivity|].
  rewrite !countSeverity_cons.
  destruct (severity_classes (ReviewIssue.severity issue)) as [Hle Heq].
  replace (Orchestrator.lengthZ (issue :: rest))
    with (1 + Orchestrator.lengthZ rest)
    by (unfold Orchestrator.lengthZ; cbn [List.length]; lia).
  split; [lia|].
  intros Hall. inversion Hall as [|? ? Hk Hrest]; subst.
  specialize (IHeq Hrest). specialize (Heq Hk). lia.
Qed.

(** X23: the counts of a reviewed file are counts of the issues the
    analysis reported, whether they map to a position or not: the number
    of comments and the sum of the three severity counts are each at
    most the number of issues, and the severity counts add up to it when
    every severity is one of critical, warning, suggestion and info. *)
Theorem reviewFile_counts config llm file prTitle prDescription comments r :
  Orchestrator.reviewFile config llm file prTitle prDescription
  = Exn.Ok (comments, r) ->
  exists result,
    Orchestrator.reviewCode llm (GitHub.filename file)
      (Orchestrator.patchOf file) (Orchestrator.prompt config)
      prTitle prDescription = Exn.Ok result
    /\ FileResult.issueCount r = lenZ comments
    /\ FileResult.issueCount r <= lenZ (ReviewResult.reviews result)
    /\ FileResult.criticalCount r + FileResult.warningCount r
       + FileResult.suggestionCount r
       <= lenZ (ReviewResult.reviews result)
    /\ (Forall knownSeverity (ReviewResult.reviews result) ->
        FileResult.criticalCount r + FileResult.warningCount r
        + FileResult.suggestionCount r
        = lenZ (ReviewResult.reviews result)).
Proof.
  unfold Orchestrator.reviewFile.
  destruct (Orchestrator.reviewCode llm _ _ _ _ _) as [result|e];
    [|discriminate].
  intros H; inversion H; subst; clear H. exists result.
  cbn [FileResult.issueCount FileResult.criticalCount
       FileResult.warningCount FileResult.suggestionCount].
  destruct (countSeverity_classes (ReviewResult.reviews result))
    as [Hle Heq].
  split; [reflexivity|]. split; [reflexivity|]. split.
  { unfold Orchestrator.lengthZ, lenZ, Synth.createReviewComments.
    pose proof (pushComments_length (GitHub.filename file)
                  (Js.split "010" (Orchestrator.patchOf file))
                  (ReviewResult.reviews result)). lia. }
  split; [exact Hle|exact Heq].
Qed.

Lemma reviewFile_counts_witness :
  exists result,
    Orchestrator.reviewCode mixedLLM (GitHub.filename exampleFile)
      (Orchestrator.patchOf exampleFile)
      (Orchestrator.prompt (configWith true)) None None = Exn.Ok result
    /\ 1 = lenZ [ {| ReviewComment.path := "notes.txt";
                    ReviewComment.line := 3;
                    ReviewComment.start_line := None;
                    ReviewComment.body :=
                      Synth.buildBody (issueOf "critical" 2) false;
                    ReviewComment.side := Some "RIGHT";
                    ReviewComment.start_side := None |} ]
    /\ 1 <= lenZ (ReviewResult.reviews result)
    /\ 1 + 1 + 0 <= lenZ (ReviewResult.reviews result)
    /\ (Forall knownSeverity (ReviewResult.reviews result) ->
        1 + 1 + 0 = lenZ (ReviewResult.reviews result)).
Proof.
  apply (reviewFile_counts (configWith true) mixedLLM exampleFile None None
           [ {| ReviewComment.path := "notes.txt";
                ReviewComment.line := 3;
                ReviewComment.start_line := None;
                ReviewComment.body :=
                  Synth.buildBody (issueOf "critical" 2) false;
                ReviewComment.side := Some "RIGHT";
                ReviewComment.start_side := None |} ]
           {| FileResult.filePath := "notes.txt";
              FileResult.summary := "Mixed.";
              FileResult.issueCount := 1;
              FileResult.criticalCount := 1;
              FileResult.warningCount := 1;
              FileResult.suggestionCount := 0 |}).
  reflexivity.
Defined.

(** ** Configuration *)

Lemma split_cons sep c r :
  Js.split sep (String c r)
  = if Ascii.eqb c sep then "" :: Js.split sep r
    else String c (hd "" (Js.split sep r)) :: tl (Js.split sep r).
Proof.
  cbn [Js.split]. destruct (Ascii.eqb c sep); [reflexivity|].
  destruct (Js.split sep r) as [|p ps] eqn:E; [|reflexivity].
  exfalso. exact (split_nonempty _ _ E).
Qed.

(** The pieces of a split hold no separator, and only characters of the
    string. *)
Lemma split_pieces sep p s :
  onlyChars p s = true ->
  Forall (fun piece => occurs sep piece = false
                       /\ onlyChars p piece = true) (Js.split sep s).
Proof.
  induction s as [|c r IH]; intros Hp.
  - cbn [Js.split]. repeat constructor.
  - cbn [onlyChars] in Hp. apply andb_true_iff in Hp as [Hc Hr].
    specialize (IH Hr). rewrite split_cons.
    destruct (Ascii.eqb c sep) eqn:Hsep.
    + constructor; [split; reflexivity|exact IH].
    + destruct (Js.split sep r) as [|piece ps] eqn:E;
        [exfalso; exact (split_nonempty _ _ E)|].
      cbn [hd tl]. inversion IH as [|? ? [Ho Hq] Hps]; subst.
      constructor; [|exact Hps].
      cbn [occurs onlyChars]. rewrite Ascii.eqb_sym, Hsep, Ho, Hc, Hq.
      split; reflexivity.
Qed.

Lemma onlyChars_true s : onlyChars (fun _ => true) s = true.
Proof. induction s as [|c r IH]; [reflexivity|exact IH]. Qed.

Lemma occurs_trimStart c s :
  occurs c s = false -> occurs c (Js.trimStart s) = false.
Proof.
  induction s as [|a r IH]; [auto|].
  cbn [Js.trimStart]. destruct (Js.isSpace a); [|auto].
  cbn [occurs]. intros H. apply orb_false_iff in H as [_ H]. auto.
Qed.

Lemma occurs_trimEnd c s :
  occurs c s = false -> occurs c (Js.trimEnd s) = false.
Proof.
  induction s as [|a r IH]; [auto|].
  rewrite trimEnd_cons. cbn [occurs]. intros H.
  apply orb_false_iff in H as [Ha H].
  destruct (Js.truthy (Js.trimEnd r) || negb (Js.isSpace a));
    [|reflexivity].
  cbn [occurs]. now rewrite Ha, (IH H).
Qed.

Lemma occurs_trim c s : occurs c s = false -> occurs c (Js.trim s) = false.
Proof. intros H. unfold Js.trim. now apply occurs_trimEnd, occurs_trimStart. Qed.

(** What the loader makes of the pieces of the input: clean patterns. *)
Lemma parsed_clean pieces :
  Forall (fun piece => occurs "," piece = false) pieces ->
  Forall cleanPattern (filter Js.truthy (map Js.trim pieces)).
Proof.
  induction 1 as [|piece rest Hpiece _ IH]; [constructor|].
  cbn [map filter].
  destruct (Js.truthy (Js.trim piece)) eqn:Ht; [|exact IH].
  constructor; [|exact IH].
  repeat split.
  - intros E. rewrite E in Ht. discriminate.
  - apply trim_idem.
  - now apply occurs_trim.
Qed.

Lemma defaultExcludePatterns_clean :
  Forall cleanPattern ConfigLoader.defaultExcludePatterns.
Proof.
  unfold ConfigLoader.defaultExcludePatterns.
  repeat constructor; discriminate.
Qed.

Lemma parseExcludePatterns_clean input :
  Forall cleanPattern (ConfigLoader.parseExcludePatterns input).
Proof.
  unfold ConfigLoader.parseExcludePatterns.
  destruct (Js.truthy input); [|apply defaultExcludePatterns_clean].
  apply parsed_clean.
  eapply Forall_impl; [|apply (split_pieces "," (fun _ => true))].
  - intros piece [H _]. exact H.
  - apply onlyChars_true.
Qed.

Lemma existsb_eqb_In x l : existsb (String.eqb x) l = true <-> In x l.
Proof.
  rewrite existsb_exists. split.
  - intros (y & Hy & E). apply String.eqb_eq in E. now subst.
  - intros H. exists x. split; [exact H|apply String.eqb_refl].
Qed.

(** X24: a configuration that [loadConfig] returns has passed its
    checks: the review mode is one of the four modes, the base URL
    parses with the protocol https or http, every exclude pattern is
    non-empty, trimmed and free of commas, the prompt is the custom
    prompt when one is given and else the default of the mode, posting
    as a review is off only for the input [false], and failing on error
    is on only for the input [true]. *)
Theorem loadConfig_valid getInput DEFAULT_PROMPTS urlProtocol config log :
  ConfigLoader.loadConfig getInput DEFAULT_PROMPTS urlProtocol
  = (Exn.Ok config, log) ->
  In (ConfigLoader.reviewMode config) ConfigLoader.validModes
  /\ (urlProtocol (ConfigLoader.llmBaseUrl config) = Some "https:"
      \/ urlProtocol (ConfigLoader.llmBaseUrl config) = Some "http:")
  /\ Forall cleanPattern (ConfigLoader.excludePatterns config)
  /\ (exists customPrompt,
        getInput "PROMPT" false = Exn.Ok customPrompt
        /\ ConfigLoader.prompt config
           = if Js.truthy customPrompt then customPrompt
             else DEFAULT_PROMPTS (ConfigLoader.reviewMode config))
  /\ (ConfigLoader.postAsReview config = false <->
      getInput "POST_AS_REVIEW" false = Exn.Ok "false")
  /\ (ConfigLoader.failOnError config = true <->
      getInput "FAIL_ON_ERROR" false = Exn.Ok "true").
Proof.
  unfold ConfigLoader.loadConfig.
  destruct (getInput "LLM_BASE_URL" true) as [llmBaseUrl|e]; [|discriminate].
  destruct (getInput "LLM_MODEL" true) as [llmModel|e]; [|discriminate].
  destruct (getInput "LLM_API_KEY" true) as [llmApiKey|e]; [|discriminate].
  destruct (getInput "PROMPT" false) as [customPrompt|e]; [|discriminate].
  destruct (getInput "GITHUB_TOKEN" true) as [githubToken|e]; [|discriminate].
  destruct (getInput "REVIEW_MODE" false) as [modeInput|e]; [|discriminate].
  destruct (getInput "MAX_FILES" false) as [maxInput|e]; [|discriminate].
  destruct (getInput "EXCLUDE_PATTERNS" false) as [patternsInput|e];
    [|discriminate].
  destruct (getInput "FAIL_ON_ERROR" false) as [failInput|e]; [|discriminate].
  destruct (getInput "POST_AS_REVIEW" false) as [postInput|e];
    [|discriminate].
  cbv zeta.
  destruct (existsb (String.eqb (ConfigLoader.orElse modeInput "detailed"))
              ConfigLoader.validModes) eqn:Hmode; cbn [negb]; [|discriminate].
  destruct (ConfigLoader.urlAccepted urlProtocol llmBaseUrl) eqn:Hurl;
    cbn [negb]; [|discriminate].
  intros H; inversion H; subst; clear H.
  cbn [ConfigLoader.reviewMode ConfigLoader.llmBaseUrl
       ConfigLoader.excludePatterns ConfigLoader.prompt
       ConfigLoader.postAsReview ConfigLoader.failOnError].
  split; [now apply existsb_eqb_In|]. split.
  { unfold ConfigLoader.urlAccepted in Hurl.
    destruct (urlProtocol llmBaseUrl) as [protocol|]; [|discriminate].
    destruct (String.eqb protocol "https:") eqn:Hs;
      [apply String.eqb_eq in Hs; subst; now left|].
    destruct (String.eqb protocol "http:") eqn:Hp;
      [apply String.eqb_eq in Hp; subst; now right|].
    discriminate. }
  split; [apply parseExcludePatterns_clean|]. split.
  { exists customPrompt. split; reflexivity. }
  split.
  - rewrite negb_false_iff, String.eqb_eq.
    split; [now intros ->|intros E; now inversion E].
  - rewrite String.eqb_eq.
    split; [now intros ->|intros E; now inversion E].
Qed.

Lemma loadConfig_valid_witness :
  exists config,
    ConfigLoader.loadConfig (inputsOf someInputs) (fun mode => mode)
      protocolOf
    = (Exn.Ok config, ConfigLoader.logOf config)
    /\ In (ConfigLoader.reviewMode config) ConfigLoader.validModes
    /\ ConfigLoader.excludePatterns config = ["*.lock"; "dist/**"; "docs/*"]
    /\ Forall cleanPattern (ConfigLoader.excludePatterns config).
Proof.
  eexists. split; [reflexivity|].
  split; [|split; [reflexivity|]];
    eapply (loadConfig_valid (inputsOf someInputs) (fun mode => mode)
              protocolOf); reflexivity.
Defined.

(** X25: the loader masks before it logs, and does neither when it
    throws: when [loadConfig] throws, it has made no call to the toolkit
    besides reading inputs; when it returns, its first two calls mask
    the API key and the token, and the eight calls after them are log
    lines. *)
Theorem loadConfig_masks_first getInput DEFAULT_PROMPTS urlProtocol :
  match ConfigLoader.loadConfig getInput DEFAULT_PROMPTS urlProtocol with
  | (Exn.Throw _, log) => log = []
  | (Exn.Ok config, log) =>
      exists lines,
        log = (ConfigLoader.SetSecret (ConfigLoader.llmApiKey config)
               :: ConfigLoader.SetSecret (ConfigLoader.githubToken config)
               :: map ConfigLoader.Info lines)
        /\ List.length lines = 8%nat
        /\ getInput "LLM_API_KEY" true
           = Exn.Ok (ConfigLoader.llmApiKey config)
        /\ getInput "GITHUB_TOKEN" true
           = Exn.Ok (ConfigLoader.githubToken config)
  end.
Proof.
  unfold ConfigLoader.loadConfig.
  destruct (getInput "LLM_BASE_URL" true) as [llmBaseUrl|e]; [|reflexivity].
  destruct (getInput "LLM_MODEL" true) as [llmModel|e]; [|reflexivity].
  destruct (getInput "LLM_API_KEY" true) as [llmApiKey|e]; [|reflexivity].
  destruct (getInput "PROMPT" false) as [customPrompt|e]; [|reflexivity].
  destruct (getInput "GITHUB_TOKEN" true) as [githubToken|e]; [|reflexivity].
  destruct (getInput "REVIEW_MODE" false) as [modeInput|e]; [|reflexivity].
  destruct (getInput "MAX_FILES" false) as [maxInput|e]; [|reflexivity].
  destruct (getInput "EXCLUDE_PATTERNS" false) as [patternsInput|e];
    [|reflexivity].
  destruct (getInput "FAIL_ON_ERROR" false) as [failInput|e]; [|reflexivity].
  destruct (getInput "POST_AS_REVIEW" false) as [postInput|e]; [|reflexivity].
  cbv zeta.
  destruct (negb (existsb _ ConfigLoader.validModes)); [reflexivity|].
  destruct (negb (ConfigLoader.urlAccepted urlProtocol llmBaseUrl));
    [reflexivity|].
  unfold ConfigLoader.logOf.
  cbn [ConfigLoader.llmApiKey ConfigLoader.githubToken].
  eexists [_; _; _; _; _; _; _; _].
  split; [reflexivity|]. repeat split.
Qed.

Lemma split_whole sep a :
  occurs sep a = false -> Js.split sep a = [a].
Proof.
  induction a as [|c r IH]; [reflexivity|].
  cbn [occurs]. intros H. apply orb_false_iff in H as [Hc Hr].
  rewrite split_cons, Ascii.eqb_sym, Hc, (IH Hr). reflexivity.
Qed.

Lemma split_append sep a b :
  occurs sep a = false ->
  Js.split sep (a ++ String sep b) = a :: Js.split sep b.
Proof.
  induction a as [|c r IH].
  - intros _. cbn [append]. rewrite split_cons, Ascii.eqb_refl. reflexivity.
  - cbn [occurs append]. intros H. apply orb_false_iff in H as [Hc Hr].
    rewrite split_cons, Ascii.eqb_sym, Hc, (IH Hr). reflexivity.
Qed.

Lemma split_join sep ps :
  ps <> [] ->
  Forall (fun p => occurs sep p = false) ps ->
  Js.split sep (Js.join (String sep "") ps) = ps.
Proof.
  intros Hne H. induction H as [|p rest Hp Hrest IH]; [congruence|].
  unfold Js.join in *. destruct rest as [|q rest'].
  - cbn [String.concat]. now apply split_whole.
  - change (String.concat (String sep "") (p :: q :: rest'))
      with (p ++ String sep (String.concat (String sep "") (q :: rest'))).
    rewrite (split_append _ _ _ Hp), IH; [reflexivity|discriminate].
Qed.

Lemma truthy_iff s : Js.truthy s = true <-> s <> "".
Proof.
  unfold Js.truthy. rewrite negb_true_iff.
  destruct (String.eqb_spec s ""); split; congruence.
Qed.

Lemma clean_kept ps :
  Forall cleanPattern ps -> filter Js.truthy (map Js.trim ps) = ps.
Proof.
  induction 1 as [|p rest (Hne & Htrim & _) _ IH]; [reflexivity|].
  cbn [map filter]. rewrite Htrim, (proj2 (truthy_iff p) Hne), IH.
  reflexivity.
Qed.

(** X26: the exclude patterns survive the trip through the input: a
    non-empty list of patterns, each non-empty, trimmed and free of
    commas, joined with commas, is parsed back to the same list, in the
    same order and with its duplicates. *)
Theorem parseExcludePatterns_join ps :
  ps <> [] ->
  Forall cleanPattern ps ->
  ConfigLoader.parseExcludePatterns (Js.join "," ps) = ps.
Proof.
  intros Hne Hclean. unfold ConfigLoader.parseExcludePatterns.
  assert (Hsep : Forall (fun p => occurs "," p = false) ps).
  { eapply Forall_impl; [|exact Hclean]. intros p (_ & _ & H). exact H. }
  assert (Htruthy : Js.truthy (Js.join "," ps) = true).
  { apply truthy_iff. intros E.
    pose proof (split_join "," ps Hne Hsep) as Hs. rewrite E in Hs.
    cbn [Js.split] in Hs. subst ps.
    inversion Hclean as [|? ? (H & _) _]. now apply H. }
  rewrite Htruthy, (split_join "," ps Hne Hsep). now apply clean_kept.
Qed.

Lemma parseExcludePatterns_join_witness :
  ConfigLoader.parseExcludePatterns "src/**,*.md,src/**"
  = ["src/**"; "*.md"; "src/**"].
Proof.
  apply (parseExcludePatterns_join ["src/**"; "*.md"; "src/**"]).
  - discriminate.
  - repeat constructor; discriminate.
Defined.

Lemma trimStart_spaces s :
  onlyChars Js.isSpace s = true -> Js.trimStart s = "".
Proof.
  induction s as [|c r IH]; [reflexivity|].
  cbn [onlyChars Js.trimStart]. intros H.
  apply andb_true_iff in H as [Hc Hr]. rewrite Hc. auto.
Qed.

Lemma spaces_of_pieces piece :
  occurs "," piece = false ->
  onlyChars separatorOrSpace piece = true ->
  onlyChars Js.isSpace piece = true.
Proof.
  induction piece as [|c r IH]; [reflexivity|].
  cbn [occurs onlyChars]. intros Ho Hp.
  apply orb_false_iff in Ho as [Hc Ho].
  apply andb_true_iff in Hp as [Hs Hp].
  unfold separatorOrSpace in Hs. rewrite Ascii.eqb_sym, Hc in Hs.
  cbn [orb] in Hs. rewrite Hs, (IH Ho Hp). reflexivity.
Qed.

Lemma parseExcludePatterns_separators input :
  input <> "" ->
  onlyChars separatorOrSpace input = true ->
  ConfigLoader.parseExcludePatterns input = [].
Proof.
  intros Hne Hblank.
  unfold ConfigLoader.parseExcludePatterns.
  rewrite (proj2 (truthy_iff input) Hne).
  pose proof (split_pieces "," separatorOrSpace input Hblank) as H.
  induction H as [|piece rest [Ho Hp] _ IH]; [reflexivity|].
  cbn [map filter]. unfold Js.trim at 1.
  rewrite (trimStart_spaces piece (spaces_of_pieces piece Ho Hp)).
  exact IH.
Qed.

Lemma trimStart_shorter s :
  (String.length (Js.trimStart s) <= String.length s)%nat.
Proof.
  induction s as [|c r IH]; [reflexivity|].
  cbn [Js.trimStart]. destruct (Js.isSpace c); cbn [String.length]; lia.
Qed.

Lemma trimEnd_shorter s :
  (String.length (Js.trimEnd s) <= String.length s)%nat.
Proof.
  induction s as [|c r IH]; [reflexivity|].
  rewrite trimEnd_cons.
  destruct (Js.truthy (Js.trimEnd r) || negb (Js.isSpace c));
    cbn [String.length]; lia.
Qed.

(** The patterns of a configuration are parsed from the input
    EXCLUDE_PATTERNS. *)
Lemma loadConfig_excludePatterns
  getInput DEFAULT_PROMPTS urlProtocol config log input :
  ConfigLoader.loadConfig getInput DEFAULT_PROMPTS urlProtocol
  = (Exn.Ok config, log) ->
  getInput "EXCLUDE_PATTERNS" false = Exn.Ok input ->
  ConfigLoader.excludePatterns config
  = ConfigLoader.parseExcludePatterns input.
Proof.
  unfold ConfigLoader.loadConfig.
  destruct (getInput "LLM_BASE_URL" true) as [llmBaseUrl|e]; [|discriminate].
  destruct (getInput "LLM_MODEL" true) as [llmModel|e]; [|discriminate].
  destruct (getInput "LLM_API_KEY" true) as [llmApiKey|e]; [|discriminate].
  destruct (getInput "PROMPT" false) as [customPrompt|e]; [|discriminate].
  destruct (getInput "GITHUB_TOKEN" true) as [githubToken|e]; [|discriminate].
  destruct (getInput "REVIEW_MODE" false) as [modeInput|e]; [|discriminate].
  destruct (getInput "MAX_FILES" false) as [maxInput|e]; [|discriminate].
  destruct (getInput "EXCLUDE_PATTERNS" false) as [patternsInput|e];
    [|discriminate].
  destruct (getInput "FAIL_ON_ERROR" false) as [failInput|e]; [|discriminate].
  destruct (getInput "POST_AS_REVIEW" false) as [postInput|e];
    [|discriminate].
  cbv zeta.
  destruct (negb (existsb _ ConfigLoader.validModes)); [discriminate|].
  destruct (negb (ConfigLoader.urlAccepted urlProtocol llmBaseUrl));
    [discriminate|].
  intros H E. inversion H; subst. inversion E; subst. reflexivity.
Qed.

(** X27: the exclude patterns of an input of commas and white space.
    [core.getInput] returns the input trimmed.  When what it returns
    for EXCLUDE_PATTERNS is empty, the configuration has the seven
    default patterns; when it is not empty and holds nothing besides
    commas and white space, every exclusion is switched off: the
    configuration has no pattern at all. *)
Theorem parseExcludePatterns_blank
  getInput DEFAULT_PROMPTS urlProtocol config log input :
  ConfigLoader.loadConfig getInput DEFAULT_PROMPTS urlProtocol
  = (Exn.Ok config, log) ->
  getInput "EXCLUDE_PATTERNS" false = Exn.Ok input ->
  Js.trim input = input ->
  onlyChars separatorOrSpace input = true ->
  (input = "" ->
   ConfigLoader.excludePatterns config
   = ["*.lock"; "*.min.js"; "*.min.css"; "dist/**"; "build/**";
      "node_modules/**"; "coverage/**"])
  /\ (input <> "" ->
      ConfigLoader.excludePatterns config = []
      /\ Js.startsWith input "," = true).
Proof.
  intros Hload Hinput Htrim Hblank.
  assert (Hpatterns : ConfigLoader.excludePatterns config
                      = ConfigLoader.parseExcludePatterns input).
  { apply (loadConfig_excludePatterns _ _ _ _ _ _ Hload Hinput). }
  rewrite Hpatterns. split.
  - intros ->. reflexivity.
  - intros Hne. split; [now apply parseExcludePatterns_separators|].
    destruct input as [|c r]; [congruence|].
    cbn [onlyChars] in Hblank. apply andb_true_iff in Hblank as [Hc _].
    unfold separatorOrSpace in Hc. apply orb_true_iff in Hc as [Hc|Hc].
    + cbn [Js.startsWith Js.isPrefix]. rewrite Ascii.eqb_sym, Hc.
      reflexivity.
    + exfalso. unfold Js.trim in Htrim. cbn [Js.trimStart] in Htrim.
      rewrite Hc in Htrim.
      assert (Hlen : (String.length (Js.trimEnd (Js.trimStart r))
                      <= String.length r)%nat).
      { etransitivity; [apply trimEnd_shorter|apply trimStart_shorter]. }
      rewrite Htrim in Hlen. cbn [String.length] in Hlen. lia.
Qed.

Lemma parseExcludePatterns_blank_witness :
  (exists config,
      ConfigLoader.loadConfig (inputsOf (blankPatterns " , , "))
        (fun mode => mode) protocolOf
      = (Exn.Ok config, ConfigLoader.logOf config)
      /\ inputsOf (blankPatterns " , , ") "EXCLUDE_PATTERNS" false
         = Exn.Ok ", ,"
      /\ ConfigLoader.excludePatterns config = [])
  /\ (exists config,
        ConfigLoader.loadConfig (inputsOf (blankPatterns "   "))
          (fun mode => mode) protocolOf
        = (Exn.Ok config, ConfigLoader.logOf config)
        /\ inputsOf (blankPatterns "   ") "EXCLUDE_PATTERNS" false
           = Exn.Ok ""
        /\ ConfigLoader.excludePatterns config
           = ["*.lock"; "*.min.js"; "*.min.css"; "dist/**"; "build/**";
              "node_modules/**"; "coverage/**"]).
Proof.
  split; eexists; (split; [reflexivity|]); (split; [reflexivity|]).
  - refine (proj1 (proj2 (parseExcludePatterns_blank
                            (inputsOf (blankPatterns " , , "))
                            (fun mode => mode) protocolOf _ _ ", ,"
                            _ _ _ _) _));
      [reflexivity|reflexivity|reflexivity|reflexivity|discriminate].
  - refine (proj1 (parseExcludePatterns_blank
                     (inputsOf (blankPatterns "   "))
                     (fun mode => mode) protocolOf _ _ ""
                     _ _ _ _) _); reflexivity.
Defined.

(** ** The entry point *)

(** X28: a configuration error never fails the workflow.  When
    [loadConfig] throws, [run] sends no request, sets the four outputs
    of a failed run with the message of the error, and does not call
    [core.setFailed], whatever the input FAIL_ON_ERROR says: the
    [catch] block reloads the configuration, which throws again. *)
Theorem run_config_error_is_silent
  getInput DEFAULT_PROMPTS urlProtocol getContext newGitHubClient
  newLLMClient minimatch e sent :
  Action.loaded getInput DEFAULT_PROMPTS urlProtocol = Exn.Throw e ->
  Action.run getInput DEFAULT_PROMPTS urlProtocol getContext
    newGitHubClient newLLMClient minimatch sent
  = Some (failedOutputs (Action.errorMessageOf e), sent).
Proof.
  intros H. unfold Action.run, Action.onFailure. rewrite H. reflexivity.
Qed.

Lemma run_config_error_is_silent_witness :
  inputsOf badModeInputs "FAIL_ON_ERROR" false = Exn.Ok "true"
  /\ Action.run (inputsOf badModeInputs) (fun mode => mode) protocolOf
       None (fun _ _ => Exn.Ok acceptingHost) (fun _ _ _ => Exn.Ok quietLLM)
       (fun _ _ => false) []
     = Some (failedOutputs
               "Invalid REVIEW_MODE: quick. Must be one of: summary, detailed, security, performance",
             []).
Proof.
  split; [reflexivity|].
  apply (run_config_error_is_silent (inputsOf badModeInputs)
           (fun mode => mode) protocolOf None
           (fun _ _ => Exn.Ok acceptingHost) (fun _ _ _ => Exn.Ok quietLLM)
           (fun _ _ => false)
           (ConfigLoader.invalidMode "quick") []).
  reflexivity.
Defined.

Lemma loaded_failOnError getInput DEFAULT_PROMPTS urlProtocol config :
  Action.loaded getInput DEFAULT_PROMPTS urlProtocol = Exn.Ok config ->
  ConfigLoader.failOnError config = true <->
  getInput "FAIL_ON_ERROR" false = Exn.Ok "true".
Proof.
  unfold Action.loaded, ConfigLoader.loadConfig.
  destruct (getInput "LLM_BASE_URL" true) as [llmBaseUrl|e]; [|discriminate].
  destruct (getInput "LLM_MODEL" true) as [llmModel|e]; [|discriminate].
  destruct (getInput "LLM_API_KEY" true) as [llmApiKey|e]; [|discriminate].
  destruct (getInput "PROMPT" false) as [customPrompt|e]; [|discriminate].
  destruct (getInput "GITHUB_TOKEN" true) as [githubToken|e]; [|discriminate].
  destruct (getInput "REVIEW_MODE" false) as [modeInput|e]; [|discriminate].
  destruct (getInput "MAX_FILES" false) as [maxInput|e]; [|discriminate].
  destruct (getInput "EXCLUDE_PATTERNS" false) as [patternsInput|e];
    [|discriminate].
  destruct (getInput "FAIL_ON_ERROR" false) as [failInput|e]; [|discriminate].
  destruct (getInput "POST_AS_REVIEW" false) as [postInput|e];
    [|discriminate].
  cbv zeta.
  destruct (negb (existsb _ ConfigLoader.validModes)); [discriminate|].
  destruct (negb (ConfigLoader.urlAccepted urlProtocol llmBaseUrl));
    [discriminate|].
  cbn [fst]. intros H; inversion H; subst; clear H.
  cbn [ConfigLoader.failOnError]. rewrite String.eqb_eq.
  split; [now intros ->|intros E; now inversion E].
Qed.

(** X29: every run of the action ends, and sets its outcome in one of
    three ways.  A success: the configuration loaded, there is a pull
    request, both clients were built and the review returned a summary;
    the outputs are then the summary text, the number of files reviewed
    and the number of comments of that summary, and the status
    [success].  A failure: the four outputs of a failure (no files, no
    comments, the message of the error).  Or the outputs of a failure
    followed by one call that fails the workflow with that message; the
    workflow is failed only if the configuration loads and the input
    FAIL_ON_ERROR is [true].  The requests sent before the run stay as
    they were, and the run adds nothing but reads, comments and reviews
    with the event COMMENT. *)
Theorem run_outcome
  getInput DEFAULT_PROMPTS urlProtocol getContext newGitHubClient
  newLLMClient minimatch sent :
  exists outcome added,
    Action.run getInput DEFAULT_PROMPTS urlProtocol getContext
      newGitHubClient newLLMClient minimatch sent
    = Some (outcome, (sent ++ added)%list)
    /\ (forall req, In req added -> commentReviewOnly req)
    /\ ((exists config context github llm result,
            Action.loaded getInput DEFAULT_PROMPTS urlProtocol
            = Exn.Ok config
            /\ getContext = Some context
            /\ newGitHubClient (ConfigLoader.githubToken config) context
               = Exn.Ok github
            /\ newLLMClient (ConfigLoader.llmApiKey config)
                 (ConfigLoader.llmBaseUrl config)
                 (ConfigLoader.llmModel config)
               = Exn.Ok llm
            /\ Orchestrator.runReview
                 {| Orchestrator.prompt := ConfigLoader.prompt config;
                    Orchestrator.maxFiles :=
                      match ConfigLoader.maxFiles config with
                      | Some n => n
                      | None => 0
                      end;
                    Orchestrator.excludePatterns :=
                      ConfigLoader.excludePatterns config;
                    Orchestrator.postAsReview :=
                      ConfigLoader.postAsReview config |}
                 github llm minimatch sent
               = Some (Exn.Ok result, (sent ++ added)%list)
            /\ outcome
               = [ Action.SetOutput "review-summary"
                     (ReviewSummary.summary result);
                   Action.SetOutput "files-reviewed"
                     (Js.ofNumber (ReviewSummary.filesReviewed result));
                   Action.SetOutput "comments-posted"
                     (Js.ofNumber (ReviewSummary.totalComments result));
                   Action.SetOutput "status" "success" ])
        \/ (exists e,
              outcome = failedOutputs (Action.errorMessageOf e)
              \/ (outcome
                  = (failedOutputs (Action.errorMessageOf e)
                     ++ [Action.SetFailed (Action.errorMessageOf e)])%list
                  /\ getInput "FAIL_ON_ERROR" false = Exn.Ok "true"
                  /\ exists config,
                       Action.loaded getInput DEFAULT_PROMPTS urlProtocol
                       = Exn.Ok config))).
Proof.
  assert (Hfail : forall e,
    Action.onFailure getInput DEFAULT_PROMPTS urlProtocol e
    = failedOutputs (Action.errorMessageOf e)
    \/ (Action.onFailure getInput DEFAULT_PROMPTS urlProtocol e
        = (failedOutputs (Action.errorMessageOf e)
           ++ [Action.SetFailed (Action.errorMessageOf e)])%list
        /\ getInput "FAIL_ON_ERROR" false = Exn.Ok "true"
        /\ exists config,
             Action.loaded getInput DEFAULT_PROMPTS urlProtocol
             = Exn.Ok config)).
  { intros e. unfold Action.onFailure.
    destruct (Action.loaded getInput DEFAULT_PROMPTS urlProtocol)
      as [config|e'] eqn:E; [|left; apply app_nil_r].
    destruct (ConfigLoader.failOnError config) eqn:F;
      [|left; apply app_nil_r].
    right. split; [reflexivity|]. split; [|now exists config].
    now apply (loaded_failOnError _ _ _ _ E). }
  unfold Action.run.
  destruct (Action.loaded getInput DEFAULT_PROMPTS urlProtocol)
    as [config|e] eqn:E.
  2:{ exists (Action.onFailure getInput DEFAULT_PROMPTS urlProtocol e), [].
      rewrite app_nil_r. split; [reflexivity|].
      split; [intros req []|]. right. exists e. apply Hfail. }
  destruct getContext as [context|].
  2:{ exists (Action.onFailure getInput DEFAULT_PROMPTS urlProtocol
                Action.notAPullRequest), [].
      rewrite app_nil_r. split; [reflexivity|].
      split; [intros req []|]. right. eexists. apply Hfail. }
  destruct (newGitHubClient (ConfigLoader.githubToken config) context)
    as [github|e] eqn:Hgithub.
  2:{ exists (Action.onFailure getInput DEFAULT_PROMPTS urlProtocol e), [].
      rewrite app_nil_r. split; [reflexivity|].
      split; [intros req []|]. right. exists e. apply Hfail. }
  destruct (newLLMClient (ConfigLoader.llmApiKey config)
              (ConfigLoader.llmBaseUrl config)
              (ConfigLoader.llmModel config)) as [llm|e] eqn:Hllm.
  2:{ exists (Action.onFailure getInput DEFAULT_PROMPTS urlProtocol e), [].
      rewrite app_nil_r. split; [reflexivity|].
      split; [intros req []|]. right. exists e. apply Hfail. }
  destruct (runReview_requests (Action.orchestratorConfig config) github llm
              minimatch sent) as (res & added & Hrun & Hadded).
  rewrite Hrun.
  destruct res as [result|e].
  - exists (Action.onSuccess result), added. split; [reflexivity|].
    split; [intros req Hreq; apply (Hadded req Hreq)|].
    left. exists config, context, github, llm, result.
    split; [reflexivity|]. split; [reflexivity|]. split; [exact Hgithub|].
    split; [exact Hllm|]. split; [exact Hrun|reflexivity].
  - exists (Action.onFailure getInput DEFAULT_PROMPTS urlProtocol e), added.
    split; [reflexivity|].
    split; [intros req Hreq; apply (Hadded req Hreq)|].
    right. exists e. apply Hfail.
Qed.
